(** * Conversation engine of the WhatsApp loan-against-property agent

    A shallow embedding of the decision logic of [core/conversation.py],
    [core/whatsapp.py], [core/language.py], [agent/views.py],
    [agent/tasks.py] and [simulator/simulator.py], followed by the theorems
    that settle the properties stated about it.

    Conventions of the embedding:
    - Python [str] values are [string]s (ASCII text);
    - Python [dict]s used as maps are [gmap string _]; a dict that the code
      iterates over is the list of its items, in insertion order;
    - Python [float]s are exact rationals [Q]: the decimal literals of the
      source ([0.2], [0.8], ...) are read as the fractions they denote;
    - code that can raise returns in the [exc] monad, and a [try]/[except]
      block is [try_except]. *)

From Stdlib Require Import Ascii QArith Qminmax Lqa.
From stdpp Require Import gmap strings list fin_maps pretty.

(** ** The state machine: [ConversationEngine.State], [ConversationEngine.Intent] *)

Module State.
Definition INITIAL := "initial".
Definition INTRODUCTION := "introduction".
Definition QUALIFYING := "qualifying".
Definition PROPERTY_DETAILS := "property_details".
Definition LOAN_DETAILS := "loan_details".
Definition OBJECTION_HANDLING := "objection_handling".
Definition CLOSING := "closing".
Definition FOLLOW_UP_SCHEDULING := "follow_up_scheduling".
Definition COMPLETED := "completed".
Definition NOT_INTERESTED := "not_interested".
End State.

Module Intent.
Definition INTERESTED := "interested".
Definition NEEDS_MORE_INFO := "needs_more_info".
Definition OBJECTION := "objection".
Definition NOT_INTERESTED := "not_interested".
Definition ASKING_QUESTION := "asking_question".
Definition FOLLOW_UP_LATER := "follow_up_later".
End Intent.

(** A Python dict literal: later items overwrite earlier ones. *)
Definition dict_of {V} (items : list (string * V)) : gmap string V :=
  fold_left (fun m kv => <[kv.1 := kv.2]> m) items ∅.

(** [self.state_transitions], set up in [ConversationEngine.__init__]. *)
Definition state_transitions : gmap string (gmap string string) :=
  dict_of [
    (State.INITIAL, dict_of [
       (Intent.INTERESTED, State.INTRODUCTION);
       (Intent.NEEDS_MORE_INFO, State.INTRODUCTION);
       (Intent.NOT_INTERESTED, State.NOT_INTERESTED);
       (Intent.ASKING_QUESTION, State.INTRODUCTION) ]);
    (State.INTRODUCTION, dict_of [
       (Intent.INTERESTED, State.QUALIFYING);
       (Intent.NEEDS_MORE_INFO, State.QUALIFYING);
       (Intent.OBJECTION, State.OBJECTION_HANDLING);
       (Intent.NOT_INTERESTED, State.NOT_INTERESTED);
       (Intent.ASKING_QUESTION, State.QUALIFYING) ]);
    (State.QUALIFYING, dict_of [
       (Intent.INTERESTED, State.PROPERTY_DETAILS);
       (Intent.NEEDS_MORE_INFO, State.QUALIFYING);
       (Intent.OBJECTION, State.OBJECTION_HANDLING);
       (Intent.NOT_INTERESTED, State.NOT_INTERESTED);
       (Intent.ASKING_QUESTION, State.QUALIFYING);
       (Intent.FOLLOW_UP_LATER, State.FOLLOW_UP_SCHEDULING) ]);
    (State.PROPERTY_DETAILS, dict_of [
       (Intent.INTERESTED, State.LOAN_DETAILS);
       (Intent.NEEDS_MORE_INFO, State.PROPERTY_DETAILS);
       (Intent.OBJECTION, State.OBJECTION_HANDLING);
       (Intent.NOT_INTERESTED, State.NOT_INTERESTED);
       (Intent.ASKING_QUESTION, State.PROPERTY_DETAILS);
       (Intent.FOLLOW_UP_LATER, State.FOLLOW_UP_SCHEDULING) ]);
    (State.LOAN_DETAILS, dict_of [
       (Intent.INTERESTED, State.CLOSING);
       (Intent.NEEDS_MORE_INFO, State.LOAN_DETAILS);
       (Intent.OBJECTION, State.OBJECTION_HANDLING);
       (Intent.NOT_INTERESTED, State.NOT_INTERESTED);
       (Intent.ASKING_QUESTION, State.LOAN_DETAILS);
       (Intent.FOLLOW_UP_LATER, State.FOLLOW_UP_SCHEDULING) ]);
    (State.OBJECTION_HANDLING, dict_of [
       (Intent.INTERESTED, State.LOAN_DETAILS);
       (Intent.NEEDS_MORE_INFO, State.LOAN_DETAILS);
       (Intent.OBJECTION, State.OBJECTION_HANDLING);
       (Intent.NOT_INTERESTED, State.NOT_INTERESTED);
       (Intent.ASKING_QUESTION, State.LOAN_DETAILS);
       (Intent.FOLLOW_UP_LATER, State.FOLLOW_UP_SCHEDULING) ]);
    (State.CLOSING, dict_of [
       (Intent.INTERESTED, State.COMPLETED);
       (Intent.NEEDS_MORE_INFO, State.LOAN_DETAILS);
       (Intent.OBJECTION, State.OBJECTION_HANDLING);
       (Intent.NOT_INTERESTED, State.NOT_INTERESTED);
       (Intent.ASKING_QUESTION, State.LOAN_DETAILS);
       (Intent.FOLLOW_UP_LATER, State.FOLLOW_UP_SCHEDULING) ]);
    (State.FOLLOW_UP_SCHEDULING, dict_of [
       (Intent.INTERESTED, State.LOAN_DETAILS);
       (Intent.NEEDS_MORE_INFO, State.LOAN_DETAILS);
       (Intent.NOT_INTERESTED, State.NOT_INTERESTED) ]);
    (State.COMPLETED, dict_of []);
    (State.NOT_INTERESTED, dict_of [
       (Intent.INTERESTED, State.INTRODUCTION) ])
  ].

(** [ConversationEngine._update_state]:
    [transitions = self.state_transitions.get(current_state, {})], then
    [transitions[intent]] when [intent in transitions], else [current_state]. *)
Definition _update_state (current_state intent : string) : string :=
  let transitions := default ∅ (state_transitions !! current_state) in
  match transitions !! intent with
  | Some next => next
  | None => current_state
  end.

(** The entry of the table for a (state, intent) pair, when there is one. *)
Definition table_entry (state intent : string) : option string :=
  state_transitions !! state ≫= fun transitions => transitions !! intent.


(** ** Python values and exceptions *)

(** A decoded JSON value, as [json.loads] returns it. *)
#[warnings="-register-all"]
Inductive json : Type :=
| JNull
| JBool (b : bool)
| JNum (q : Q)
| JStr (s : string)
| JList (l : list json)
| JObj (items : list (string * json)).

(** The exception classes the code distinguishes or can meet. *)
Inductive exn_class : Type :=
| RequestException
| JSONDecodeError
| AttributeError
| IndexError
| OtherException.

(** An exception; [exn_msg] is [str(e)]. *)
Record exn : Type := Exn { exn_kind : exn_class; exn_msg : string }.

(** The outcome of code that may raise. *)
Inductive exc (A : Type) : Type :=
| Ok (a : A)
| Raise (e : exn).
Arguments Ok {A} a.
Arguments Raise {A} e.

(** Sequencing: an exception raised by [m] skips [k]. *)
Definition exc_bind {A B} (m : exc A) (k : A -> exc B) : exc B :=
  match m with
  | Ok a => k a
  | Raise e => Raise e
  end.

Notation "'let*' x ':=' m 'in' k" := (exc_bind m (fun x => k))
  (at level 10, x name, m at level 100, k at level 200).
Notation "'let*' ' p ':=' m 'in' k" :=
  (exc_bind m (fun x => match x with p => k end))
  (at level 10, p pattern, m at level 100, k at level 200).

(** [try: body except Exception as e: handler e]. *)
Definition try_except {A} (body : exc A) (handler : exn -> exc A) : exc A :=
  match body with
  | Ok a => Ok a
  | Raise e => handler e
  end.

(** [try: body except cls as e: handler e]: other classes propagate. *)
Definition try_except_class {A} (cls : exn_class -> bool) (body : exc A)
    (handler : exn -> exc A) : exc A :=
  match body with
  | Ok a => Ok a
  | Raise e => if cls (exn_kind e) then handler e else Raise e
  end.

(** ** String methods *)

Definition is_upper (c : ascii) : bool :=
  let n := nat_of_ascii c in (65 <=? n)%nat && (n <=? 90)%nat.

Definition ascii_lower (c : ascii) : ascii :=
  if is_upper c then ascii_of_nat (nat_of_ascii c + 32) else c.

(** [s.lower()]. *)
Fixpoint lower (s : string) : string :=
  match s with
  | EmptyString => EmptyString
  | String c s' => String (ascii_lower c) (lower s')
  end.

(** [c.isspace()] on ASCII: tab, line feed, vertical tab, form feed, carriage
    return, the four separators 28 to 31, and the space. *)
Definition isspace (c : ascii) : bool :=
  let n := nat_of_ascii c in
  ((9 <=? n)%nat && (n <=? 13)%nat) || ((28 <=? n)%nat && (n <=? 32)%nat).

Fixpoint lstrip (s : string) : string :=
  match s with
  | EmptyString => EmptyString
  | String c s' => if isspace c then lstrip s' else s
  end.

Fixpoint rstrip (s : string) : string :=
  match s with
  | EmptyString => EmptyString
  | String c s' =>
      match rstrip s' with
      | EmptyString => if isspace c then EmptyString else String c EmptyString
      | r => String c r
      end
  end.

(** [s.strip()]. *)
Definition strip (s : string) : string := rstrip (lstrip s).

(** [sub in s] for two strings. *)
Definition contains (sub s : string) : bool :=
  match String.index 0 sub s with
  | Some _ => true
  | None => false
  end.

(** [len(s)]. *)
Definition len (s : string) : Z := Z.of_nat (String.length s).

(** [x in xs] for a list of strings. *)
Definition in_list (x : string) (xs : list string) : bool :=
  bool_decide (x ∈ xs).


(** [s.replace(old, new)] for a non-empty [old]: occurrences are replaced
    from the left and do not overlap. [skip] counts the characters of a
    replaced occurrence that are still to be passed over. *)
Fixpoint replace_from (skip : nat) (old new s : string) : string :=
  match s with
  | EmptyString => EmptyString
  | String c s' =>
      match skip with
      | S k => replace_from k old new s'
      | O =>
          if String.prefix old s
          then new +:+ replace_from (String.length old - 1) old new s'
          else String c (replace_from 0 old new s')
      end
  end.

Definition replace (old new s : string) : string := replace_from 0 old new s.

Definition newline : string := String (ascii_of_nat 10) EmptyString.

(** ** Currency normalisation:
       [ConversationEngine._convert_indian_currency_to_number] *)

(** [\d] on ASCII text. *)
Definition is_digit (c : ascii) : bool :=
  let n := nat_of_ascii c in (48 <=? n)%nat && (n <=? 57)%nat.

Definition digit_value (c : ascii) : Z := Z.of_nat (nat_of_ascii c) - 48.

(** The longest run of digits at the head of [s] (a greedy [\d*]) and what
    follows it. *)
Fixpoint take_digits (s : string) : string * string :=
  match s with
  | EmptyString => (EmptyString, EmptyString)
  | String c s' =>
      if is_digit c
      then let '(ds, rest) := take_digits s' in (String c ds, rest)
      else (EmptyString, s)
  end.

(** The match of [\d+\.?\d*] that starts at the head of [s], which begins
    with a digit: the digits, then a dot when one follows, then the digits
    after the dot. Every quantifier is greedy and none has to give back. *)
Definition number_at (s : string) : string :=
  let '(int_part, rest) := take_digits s in
  match rest with
  | String "."%char rest' => int_part +:+ "." +:+ (take_digits rest').1
  | _ => int_part
  end.

(** [re.search] for the pattern [\d+\.?\d*] (one group around the whole
    pattern): [None] when nothing matches, else [group(1)] of the leftmost
    match. A match can only start at a digit, and
    at a digit there is one. *)
Fixpoint re_search_number (s : string) : option string :=
  match s with
  | EmptyString => None
  | String c s' => if is_digit c then Some (number_at s) else re_search_number s'
  end.

(** The value of a string of digits read in base ten, after [acc]. *)
Fixpoint decimal_value (acc : Z) (s : string) : Z :=
  match s with
  | EmptyString => acc
  | String c s' => decimal_value (10 * acc + digit_value c) s'
  end.

(** [float(tok)] for a token matched by [\d+\.?\d*]. *)
Definition float_of_token (tok : string) : Q :=
  let '(int_part, rest) := take_digits tok in
  match rest with
  | String "."%char frac =>
      (inject_Z (decimal_value 0 int_part)
       + inject_Z (decimal_value 0 frac) / inject_Z (10 ^ len frac))%Q
  | _ => inject_Z (decimal_value 0 int_part)
  end.

(** [_convert_indian_currency_to_number], on a [str] argument (any other
    value is returned as it is by the [isinstance] guard). *)
Definition _convert_indian_currency_to_number (value_str : string) : Q :=
  let value_str := strip (lower value_str) in
  match re_search_number value_str with
  | None => 0%Q
  | Some group1 =>
      let numeric_value := float_of_token group1 in
      if contains "lakh" value_str || contains "lac" value_str
      then (numeric_value * 100000)%Q
      else if contains "crore" value_str || contains "cr" value_str
      then (numeric_value * 10000000)%Q
      else if contains "k" value_str || contains "thousand" value_str
      then (numeric_value * 1000)%Q
      else numeric_value
  end.


(** ** The language-model client *)

Module Request.
(** The arguments of [self.openai_client.chat.completions.create]: the
    content of the system and of the user message, the sampling
    temperature, the token limit, and whether a JSON object is asked for. *)
Record t : Type := mk {
  system : string;
  user : string;
  temperature : Q;
  max_tokens : Z;
  json_object : bool
}.
End Request.

Module Choice.
(** One element of [response.choices]; [content] is
    [choice.message.content], which the client types as optional. *)
Record t : Type := mk { content : option string; finish_reason : string }.
End Choice.

Module Completion.
Record t : Type := mk { choices : list Choice.t }.
End Completion.

Module Exchange.
(** One entry of the conversation history, as [get_conversation_history]
    builds it; the keys the engine does not read are left out. *)
Record t : Type := mk { direction : string; content : string }.
End Exchange.

Module Profile.
(** The [customer_profile] dict that the message handlers build from a
    Customer row. [conversation_state] is [None] when the key is absent. *)
Record t : Type := mk {
  id : Z;
  name : json;
  phone_number : string;
  preferred_language : string;
  property_details : gmap string json;
  loan_requirements : gmap string json;
  conversation_state : option string;
  interest_level : Q;
  do_not_contact : bool
}.
End Profile.

(** [xs[0]]. *)
Definition item0 {A} (xs : list A) : exc A :=
  match xs with
  | x :: _ => Ok x
  | [] => Raise (Exn IndexError "list index out of range")
  end.

(** [content.strip()], where [content] may be [None]. *)
Definition content_strip (content : option string) : exc string :=
  match content with
  | Some s => Ok (strip s)
  | None => Raise (Exn AttributeError "'NoneType' object has no attribute 'strip'")
  end.

(** [response.choices[0].message.content.strip()]. *)
Definition first_content_stripped (response : Completion.t) : exc string :=
  let* choice := item0 (Completion.choices response) in
  content_strip (Choice.content choice).

(** [xs[-10:]]. *)
Definition last10 {A} (xs : list A) : list A := drop (length xs - 10) xs.

(** [ConversationEngine._format_conversation_history]. *)
Definition _format_conversation_history (conversation_history : list Exchange.t)
    : string :=
  let formatted_history :=
    map (fun exchange =>
           if String.eqb (Exchange.direction exchange) "inbound"
           then "Customer: " +:+ Exchange.content exchange
           else "Agent: " +:+ Exchange.content exchange)
        (last10 conversation_history) in
  String.concat newline formatted_history.

(** [extracted_info.items()]: only a dict has the method. *)
Definition dict_items (v : json) : exc (list (string * json)) :=
  match v with
  | JObj items => Ok items
  | _ => Raise (Exn AttributeError "object has no attribute 'items'")
  end.

(** The body of the cleaning loop of [extract_information] for one item:
    [None] when the item is skipped. *)
Definition clean_item (kv : string * json) : option (string * json) :=
  let '(key, value) := kv in
  match value with
  | JNull | JStr EmptyString | JList [] => None
  | JStr str =>
      if String.eqb key "property_value" || String.eqb key "loan_amount_needed"
      then Some (key, JNum (_convert_indian_currency_to_number str))
      else Some (key, value)
  | _ => Some (key, value)
  end.

(** [ConversationEngine._should_generate_audio]. *)
Definition _should_generate_audio (response_text state : string) : bool :=
  if (300 <? len response_text)%Z then true
  else if in_list state [State.OBJECTION_HANDLING; State.CLOSING; State.NOT_INTERESTED]
  then true
  else if in_list state [State.LOAN_DETAILS]
          && existsb (fun term => contains term (lower response_text))
               ["interest rate"; "emi"; "tenure"; "processing fee"]
  then true
  else false.

(** [ConversationEngine._calculate_follow_up_date]. *)
Definition _calculate_follow_up_date (intent state : string) : option string :=
  if String.eqb intent Intent.FOLLOW_UP_LATER then Some "7d"
  else if String.eqb state State.FOLLOW_UP_SCHEDULING then Some "14d"
  else if String.eqb state State.NOT_INTERESTED then Some "90d"
  else if String.eqb state State.OBJECTION_HANDLING then Some "21d"
  else if String.eqb state State.LOAN_DETAILS
          && negb (String.eqb intent Intent.INTERESTED)
  then Some "30d"
  else None.

Module Response.
(** The dict returned by [generate_response]. *)
Record t : Type := mk {
  text : string;
  state : string;
  previous_state : string;
  intent : string;
  confidence : Q;
  extracted_info : list (string * json);
  should_generate_audio : bool;
  follow_up_date : option string;
  analysis : gmap string json
}.
End Response.

Definition apology_text : string :=
  "I apologize, but I'm having trouble processing your request at the moment. Could you please try again or contact our customer service for assistance?".

(** The methods of a [ConversationEngine] instance. *)
Section ConversationEngine.

(** [self.openai_client.chat.completions.create]: a remote call, which
    answers a request with a completion or raises. *)
Variable create : Request.t -> exc Completion.t.

(** [self.prompts], loaded from the prompt file of the language. *)
Variable prompts : gmap string string.

(** [json.loads] and [json.dumps] of the standard library; a profile holds
    JSON data only, on which [json.dumps] does not raise. *)
Variable json_loads : string -> exc json.
Variable json_dumps : Profile.t -> string.

(** The request [detect_intent] sends. *)
Definition intent_request (message : string)
    (conversation_history : list Exchange.t) : Request.t :=
  let history_text := _format_conversation_history conversation_history in
  let prompt :=
    default "Determine the intent of this message: {message}"
            (prompts !! "intent_detection") in
  let prompt := replace "{message}" message (replace "{history}" history_text prompt) in
  {| Request.system := "You analyze customer intent in conversations.";
     Request.user := prompt;
     Request.temperature := 0.3%Q;
     Request.max_tokens := 50;
     Request.json_object := false |}.

(** [ConversationEngine.detect_intent]. *)
Definition detect_intent (message : string)
    (conversation_history : list Exchange.t) : exc (string * Q) :=
  try_except
    (let* response := create (intent_request message conversation_history) in
     let* stripped := first_content_stripped response in
     let intent := lower stripped in
     let normalized_intent :=
       if in_list intent [Intent.INTERESTED; Intent.NEEDS_MORE_INFO;
                          Intent.OBJECTION; Intent.NOT_INTERESTED;
                          Intent.ASKING_QUESTION; Intent.FOLLOW_UP_LATER]
       then intent
       else if contains "interest" intent then Intent.INTERESTED
       else if contains "more info" intent || contains "information" intent
       then Intent.NEEDS_MORE_INFO
       else if contains "object" intent || contains "concern" intent
       then Intent.OBJECTION
       else if contains "not" intent
               && (contains "interest" intent || contains "want" intent)
       then Intent.NOT_INTERESTED
       else if contains "question" intent || contains "ask" intent
       then Intent.ASKING_QUESTION
       else if contains "follow" intent || contains "later" intent
       then Intent.FOLLOW_UP_LATER
       else Intent.NEEDS_MORE_INFO in
     let* choice := item0 (Completion.choices response) in
     let confidence :=
       if String.eqb (Choice.finish_reason choice) "stop"
       then (0.7 + 0.1)%Q else 0.7%Q in
     Ok (normalized_intent, confidence))
    (fun e => Ok (Intent.NEEDS_MORE_INFO, 0.5%Q)).

(** The request [extract_information] sends. *)
Definition extraction_request (message : string) (current_profile : Profile.t)
    : Request.t :=
  let prompt :=
    default "Extract information from this message: {message}"
            (prompts !! "information_extraction") in
  let prompt :=
    replace "{current_profile}" (json_dumps current_profile)
            (replace "{message}" message prompt) in
  {| Request.system := "You extract structured information from messages and respond in JSON format.";
     Request.user := "Provide a JSON response: " +:+ prompt;
     Request.temperature := 0.1%Q;
     Request.max_tokens := 500;
     Request.json_object := true |}.

(** [ConversationEngine.extract_information]. The inner handler takes
    [json.JSONDecodeError] only, the outer one every exception. *)
Definition extract_information (message : string) (current_profile : Profile.t)
    : exc (list (string * json)) :=
  try_except
    (let* response := create (extraction_request message current_profile) in
     let* extracted_info_text := first_content_stripped response in
     try_except_class
       (fun k => match k with JSONDecodeError => true | _ => false end)
       (let* extracted_info := json_loads extracted_info_text in
        let* items := dict_items extracted_info in
        Ok (omap clean_item items))
       (fun _ => Ok []))
    (fun e => Ok []).

(** The request [generate_response] sends for the reply. *)
Definition reply_request (message : string) (customer_profile : Profile.t)
    (conversation_history : list Exchange.t) (new_state : string) : Request.t :=
  let prompt_key :=
    if decide (is_Some (prompts !! new_state)) then new_state else "initial" in
  let prompt :=
    default "You are a loan advisor. Respond professionally to the customer: {message}"
            (prompts !! prompt_key) in
  let history_text := _format_conversation_history conversation_history in
  let prompt := replace "{history}" history_text prompt in
  let prompt := replace "{profile}" (json_dumps customer_profile) prompt in
  let prompt := replace "{message}" message prompt in
  {| Request.system := "You are a helpful loan-against-property advisor.";
     Request.user := prompt;
     Request.temperature := 0.7%Q;
     Request.max_tokens := 800;
     Request.json_object := false |}.

(** [ConversationEngine.generate_response]. *)
Definition generate_response (message : string) (customer_profile : Profile.t)
    (conversation_history : list Exchange.t) : exc Response.t :=
  let current_state :=
    default State.INITIAL (Profile.conversation_state customer_profile) in
  let* '(intent, confidence) := detect_intent message conversation_history in
  let* extracted_info := extract_information message customer_profile in
  let new_state := _update_state current_state intent in
  try_except
    (let* response :=
       create (reply_request message customer_profile conversation_history new_state) in
     let* response_text := first_content_stripped response in
     let follow_up_date := _calculate_follow_up_date intent new_state in
     let should_generate_audio := _should_generate_audio response_text new_state in
     Ok {| Response.text := response_text;
           Response.state := new_state;
           Response.previous_state := current_state;
           Response.intent := intent;
           Response.confidence := confidence;
           Response.extracted_info := extracted_info;
           Response.should_generate_audio := should_generate_audio;
           Response.follow_up_date := follow_up_date;
           Response.analysis := dict_of [
             ("message_length", JNum (inject_Z (len message)));
             ("response_length", JNum (inject_Z (len response_text)));
             ("state_changed", JBool (negb (String.eqb new_state current_state))) ] |})
    (fun e =>
     Ok {| Response.text := apology_text;
           Response.state := current_state;
           Response.previous_state := current_state;
           Response.intent := intent;
           Response.confidence := 0.5%Q;
           Response.extracted_info := [];
           Response.should_generate_audio := false;
           Response.follow_up_date := None;
           Response.analysis := dict_of [
             ("error", JStr (exn_msg e));
             ("fallback", JBool true) ] |}).

End ConversationEngine.


(** ** The profile merge: [update_customer_profile] of [agent/views.py] *)

Module Customer.
(** A row of the [Customer] model: the columns that the message handlers
    and the merge read or write, timestamps apart. [name] is [JNull] for
    [None]. *)
Record t : Type := mk {
  id : Z;
  phone_number : string;
  name : json;
  preferred_language : string;
  property_details : gmap string json;
  loan_requirements : gmap string json;
  conversation_state : string;
  interest_level : Q;
  do_not_contact : bool
}.
End Customer.

(** [bool(v)]. *)
Definition truthy (v : json) : bool :=
  match v with
  | JNull => false
  | JBool b => b
  | JNum q => negb (Qeq_bool q 0)
  | JStr s => negb (String.eqb s EmptyString)
  | JList l => match l with [] => false | _ => true end
  | JObj items => match items with [] => false | _ => true end
  end.

(** [v is None]. *)
Definition is_none (v : json) : bool :=
  match v with JNull => true | _ => false end.

(** [d.get(key)] for a dict given by its items. *)
Fixpoint items_get (key : string) (items : list (string * json)) : option json :=
  match items with
  | [] => None
  | (k, v) :: rest => if String.eqb k key then Some v else items_get key rest
  end.

(** [min(a, b)] and [max(a, b)] of Python: the first argument is kept unless
    the second is strictly smaller (larger). *)
Definition py_min (a b : Q) : Q := if Qle_bool a b then a else b.
Definition py_max (a b : Q) : Q := if Qle_bool b a then a else b.

(** [for x in xs: s = body(s, x)], where the body may raise. *)
Fixpoint for_each {S A} (body : S -> A -> exc S) (xs : list A) (s : S) : exc S :=
  match xs with
  | [] => Ok s
  | x :: xs' => let* s' := body s x in for_each body xs' s'
  end.

Module Merge.
(** What the loop of [update_customer_profile] updates: the two local
    dicts and [customer.name]. *)
Record t : Type := mk {
  property_details : gmap string json;
  loan_requirements : gmap string json;
  name : json
}.
End Merge.

(** The body of the loop of [update_customer_profile]. [extend] and [append]
    are methods of lists only. *)
Definition merge_item (m : Merge.t) (item : string * json) : exc Merge.t :=
  let '(key, value) := item in
  let '(Merge.mk property_details loan_requirements name) := m in
  if in_list key ["property_type"; "property_location"; "property_value";
                  "ownership_status"]
  then Ok (Merge.mk (<[key := value]> property_details) loan_requirements name)
  else if in_list key ["loan_amount_needed"; "loan_purpose"; "current_loans";
                       "monthly_income"; "urgency"]
  then Ok (Merge.mk property_details (<[key := value]> loan_requirements) name)
  else if String.eqb key "name" && is_none name
  then Ok (Merge.mk property_details loan_requirements value)
  else if String.eqb key "concerns"
  then
    let loan_requirements :=
      match loan_requirements !! "concerns" with
      | None => <["concerns" := JList []]> loan_requirements
      | Some _ => loan_requirements
      end in
    match loan_requirements !! "concerns" with
    | Some (JList concerns) =>
        let added := match value with JList vs => vs | _ => [value] end in
        Ok (Merge.mk property_details
              (<["concerns" := JList (concerns ++ added)]> loan_requirements) name)
    | _ => Raise (Exn AttributeError "object has no attribute 'extend'")
    end
  else Ok m.

(** The interest-level update that closes [update_customer_profile]. *)
Definition update_interest_level (intent : string) (interest_level : Q) : Q :=
  if String.eqb intent "interested" then py_min 1.0 (interest_level + 0.2)
  else if String.eqb intent "needs_more_info" then py_min 0.8 (interest_level + 0.1)
  else if String.eqb intent "objection" then py_max 0.1 (interest_level - 0.1)
  else if String.eqb intent "not_interested" then py_max 0.0 (interest_level - 0.3)
  else interest_level.

(** [update_customer_profile]: the customer as [customer.save()] writes it,
    or the exception that leaves the row as it was. *)
Definition update_customer_profile (customer : Customer.t)
    (extracted_info : list (string * json)) (intent state : string)
    : exc Customer.t :=
  let* m :=
    for_each merge_item extracted_info
      (Merge.mk (Customer.property_details customer)
                (Customer.loan_requirements customer)
                (Customer.name customer)) in
  let do_not_contact :=
    match items_get "do_not_contact" extracted_info with
    | Some v => if truthy v then true else Customer.do_not_contact customer
    | None => Customer.do_not_contact customer
    end in
  Ok {| Customer.id := Customer.id customer;
        Customer.phone_number := Customer.phone_number customer;
        Customer.name := Merge.name m;
        Customer.preferred_language := Customer.preferred_language customer;
        Customer.property_details := Merge.property_details m;
        Customer.loan_requirements := Merge.loan_requirements m;
        Customer.conversation_state := state;
        Customer.interest_level :=
          update_interest_level intent (Customer.interest_level customer);
        Customer.do_not_contact := do_not_contact |}.


(** ** The messaging client: [WhatsAppClient] of [core/whatsapp.py] *)

Module Client.
(** The attributes of a [WhatsAppClient] that its methods read or write. *)
Record t : Type := mk {
  message_counts : gmap string Z;
  rate_limit : Z;
  conversation_windows : gmap string Q;
  window_duration : Q
}.

(** The attributes as [__init__] sets them. *)
Definition init : t :=
  {| message_counts := ∅;
     rate_limit := 1000;
     conversation_windows := ∅;
     window_duration := inject_Z (24 * 60 * 60) |}.
End Client.

Module World.
(** What is outside the process. [time_time n] is the value of the [n]-th
    call of [time.time()], [strftime n] the value of the [n]-th call of
    [time.strftime("%Y-%m-%d")], and [post n payload] the outcome of the
    [n]-th [requests.post] followed by [raise_for_status()] and [json()]:
    the decoded body, or the exception. The counters say how many readings
    were taken, and [sent] lists the payloads posted, oldest first. *)
Record t : Type := mk {
  time_time : nat -> Q;
  strftime : nat -> string;
  post : nat -> json -> exc json;
  clock_reads : nat;
  date_reads : nat;
  sent : list json
}.
End World.

(** A method of the client: it reads and writes the client and the world,
    and returns or raises. What it wrote before raising stays written. *)
Definition io (A : Type) : Type :=
  Client.t * World.t -> exc A * (Client.t * World.t).

Definition io_ret {A} (a : A) : io A := fun env => (Ok a, env).

Definition io_bind {A B} (m : io A) (k : A -> io B) : io B :=
  fun env =>
    match m env with
    | (Ok a, env') => k a env'
    | (Raise e, env') => (Raise e, env')
    end.

Notation "'let!' x ':=' m 'in' k" := (io_bind m (fun x => k))
  (at level 10, x name, m at level 100, k at level 200).

(** [time.time()]. *)
Definition time_time : io Q := fun '(client, world) =>
  (Ok (World.time_time world (World.clock_reads world)),
   (client,
    World.mk (World.time_time world) (World.strftime world) (World.post world)
             (S (World.clock_reads world)) (World.date_reads world)
             (World.sent world))).

(** [time.strftime("%Y-%m-%d")]. *)
Definition strftime : io string := fun '(client, world) =>
  (Ok (World.strftime world (World.date_reads world)),
   (client,
    World.mk (World.time_time world) (World.strftime world) (World.post world)
             (World.clock_reads world) (S (World.date_reads world))
             (World.sent world))).

(** [requests.post(url, headers=..., json=payload)], [raise_for_status()]
    and [json()]. *)
Definition requests_post (payload : json) : io json := fun '(client, world) =>
  (World.post world (length (World.sent world)) payload,
   (client,
    World.mk (World.time_time world) (World.strftime world) (World.post world)
             (World.clock_reads world) (World.date_reads world)
             (World.sent world ++ [payload]))).

(** Reading and writing the attributes of [self]. *)
Definition get_client : io Client.t := fun '(client, world) =>
  (Ok client, (client, world)).
Definition set_message_counts (counts : gmap string Z) : io unit :=
  fun '(client, world) =>
    (Ok tt, (Client.mk counts (Client.rate_limit client)
                       (Client.conversation_windows client)
                       (Client.window_duration client), world)).
Definition set_conversation_windows (windows : gmap string Q) : io unit :=
  fun '(client, world) =>
    (Ok tt, (Client.mk (Client.message_counts client) (Client.rate_limit client)
                       windows (Client.window_duration client), world)).

Definition is_request_exception (e : exn) : bool :=
  match exn_kind e with RequestException => true | _ => false end.

(** [@backoff.on_exception(backoff.expo, RequestException, max_tries=n)]
    around [target], with [retries = n - 1]: a [RequestException] is followed
    by another call while retries are left, any other outcome is final. The
    pause before a retry shows in the later readings of the clock only. *)
Fixpoint on_exception {A} (retries : nat) (target : io A) : io A :=
  fun env =>
    match target env with
    | (Raise e, env') =>
        match retries with
        | S retries' =>
            if is_request_exception e
            then on_exception retries' target env'
            else (Raise e, env')
        | O => (Raise e, env')
        end
    | done => done
    end.

(** [WhatsAppClient._check_rate_limit]. *)
Definition _check_rate_limit (recipient_phone : string) : io bool :=
  let! today := strftime in
  let key := recipient_phone +:+ ":" +:+ today in
  let! self := get_client in
  let count := default 0%Z (Client.message_counts self !! key) in
  io_ret (count <? Client.rate_limit self)%Z.

(** [WhatsAppClient._update_message_count]. *)
Definition _update_message_count (recipient_phone : string) : io unit :=
  let! today := strftime in
  let key := recipient_phone +:+ ":" +:+ today in
  let! self := get_client in
  set_message_counts
    (<[key := (default 0%Z (Client.message_counts self !! key) + 1)%Z]>
       (Client.message_counts self)).

(** [a < b] on floats. *)
Definition Qlt_bool (a b : Q) : bool := negb (Qle_bool b a).

(** [WhatsAppClient._check_conversation_window]. *)
Definition _check_conversation_window (recipient_phone : string) : io bool :=
  let! now := time_time in
  let! self := get_client in
  let window_start := default 0%Q (Client.conversation_windows self !! recipient_phone) in
  io_ret (Qlt_bool (now - window_start) (Client.window_duration self)).

(** [WhatsAppClient._update_conversation_window]. *)
Definition _update_conversation_window (recipient_phone : string) : io unit :=
  let! self := get_client in
  let! now := time_time in
  set_conversation_windows
    (<[recipient_phone := now]> (Client.conversation_windows self)).

Definition rate_limit_exceeded : json :=
  JObj [("error", JStr "Rate limit exceeded")].

(** The payload [send_template] posts. [template_params] is the dict of
    parameters, given by its items. *)
Definition template_payload (recipient_phone template_name : string)
    (template_params : list (string * string)) : json :=
  let parameter_list :=
    map (fun '(key, value) => JObj [("type", JStr "text"); ("text", JStr value)])
        template_params in
  let components :=
    match parameter_list with
    | [] => []
    | _ => [JObj [("type", JStr "body"); ("parameters", JList parameter_list)]]
    end in
  JObj [("messaging_product", JStr "whatsapp");
        ("recipient_type", JStr "individual");
        ("to", JStr recipient_phone);
        ("type", JStr "template");
        ("template", JObj [("name", JStr template_name);
                           ("language", JObj [("code", JStr "en")]);
                           ("components", JList components)])].

(** The payload [send_text] posts. *)
Definition text_payload (recipient_phone text : string) : json :=
  JObj [("messaging_product", JStr "whatsapp");
        ("recipient_type", JStr "individual");
        ("to", JStr recipient_phone);
        ("type", JStr "text");
        ("text", JObj [("preview_url", JBool false); ("body", JStr text)])].

(** One call of the function that [send_template] decorates. The handler of
    the [try] logs and raises again. *)
Definition send_template_once (recipient_phone template_name : string)
    (template_params : list (string * string)) : io json :=
  let! under_limit := _check_rate_limit recipient_phone in
  if negb under_limit then io_ret rate_limit_exceeded
  else
    let payload := template_payload recipient_phone template_name template_params in
    let! result := requests_post payload in
    let! _ := _update_message_count recipient_phone in
    let! _ := _update_conversation_window recipient_phone in
    io_ret result.

(** [WhatsAppClient.send_template], with its decorator. *)
Definition send_template (recipient_phone template_name : string)
    (template_params : list (string * string)) : io json :=
  on_exception 4 (send_template_once recipient_phone template_name template_params).

(** One call of the function that [send_text] decorates. *)
Definition send_text_once (recipient_phone text : string) : io json :=
  let! under_limit := _check_rate_limit recipient_phone in
  if negb under_limit then io_ret rate_limit_exceeded
  else
    let! window_active := _check_conversation_window recipient_phone in
    if negb window_active
    then send_template recipient_phone "loan_follow_up" [("default_text", text)]
    else
      let payload := text_payload recipient_phone text in
      let! result := requests_post payload in
      let! _ := _update_message_count recipient_phone in
      let! _ := _update_conversation_window recipient_phone in
      io_ret result.

(** [WhatsAppClient.send_text], with its decorator. *)
Definition send_text (recipient_phone text : string) : io json :=
  on_exception 4 (send_text_once recipient_phone text).


(** ** The message handler: [process_text_message] of [agent/views.py]

    The handler reads the Customer row into an object of its own
    ([get_or_create_customer]), asks the engine for a response, merges the
    response into that object and writes the object back
    ([update_customer_profile], which ends in [customer.save()]). What
    follows the merge (the reply, the interaction log, the follow-up) writes
    none of the columns modelled here. Nothing in the handler locks the row
    or opens a transaction, so the handlers of two messages can take their
    steps in any order. *)

Module Inbound.
(** One inbound message, with what the collaborators of the handler
    return for it: the language detected, the text in English, and the
    history read from the interaction log. *)
Record t : Type := mk {
  phone_number : string;
  detected_language : string;
  english_text : string;
  conversation_history : list Exchange.t
}.
End Inbound.

(** How far the handler of a message has come: not started, holding the
    object it loaded, or done with the merge. *)
Inductive progress : Type :=
| Arrived
| Loaded (customer : Customer.t)
| Merged.

(** The [customer_profile] dict built from the loaded object. *)
Definition profile_of (customer : Customer.t) : Profile.t :=
  {| Profile.id := Customer.id customer;
     Profile.name := Customer.name customer;
     Profile.phone_number := Customer.phone_number customer;
     Profile.preferred_language := Customer.preferred_language customer;
     Profile.property_details := Customer.property_details customer;
     Profile.loan_requirements := Customer.loan_requirements customer;
     Profile.conversation_state := Some (Customer.conversation_state customer);
     Profile.interest_level := Customer.interest_level customer;
     Profile.do_not_contact := Customer.do_not_contact customer |}.

(** [Customer.objects.create(phone_number=...)]: the defaults of the model. *)
Definition new_customer (id : Z) (phone_number : string) : Customer.t :=
  {| Customer.id := id;
     Customer.phone_number := phone_number;
     Customer.name := JNull;
     Customer.preferred_language := "english";
     Customer.property_details := ∅;
     Customer.loan_requirements := ∅;
     Customer.conversation_state := "initial";
     Customer.interest_level := 0.0;
     Customer.do_not_contact := false |}.

Definition set_preferred_language (language : string) (customer : Customer.t)
    : Customer.t :=
  {| Customer.id := Customer.id customer;
     Customer.phone_number := Customer.phone_number customer;
     Customer.name := Customer.name customer;
     Customer.preferred_language := language;
     Customer.property_details := Customer.property_details customer;
     Customer.loan_requirements := Customer.loan_requirements customer;
     Customer.conversation_state := Customer.conversation_state customer;
     Customer.interest_level := Customer.interest_level customer;
     Customer.do_not_contact := Customer.do_not_contact customer |}.

(** The language of the engine that
    [conversation_engines.get(detected_language, conversation_engines["english"])]
    picks. *)
Definition engine_language (message : Inbound.t) : string :=
  if in_list (Inbound.detected_language message)
             ["english"; "hindi"; "kannada"; "tamil"; "telugu"]
  then Inbound.detected_language message else "english".

Section Handlers.

Variable create : Request.t -> exc Completion.t.
(** The prompts of the engine of each language, the values of the
    [conversation_engines] dict. *)
Variable prompts_of : string -> gmap string string.
Variable json_loads : string -> exc json.
Variable json_dumps : Profile.t -> string.

(** The first part of the handler: [get_or_create_customer] and the update
    of the preferred language, which writes that column. *)
Definition load (message : Inbound.t) (table : gmap string Customer.t)
    : Customer.t :=
  let phone_number := Inbound.phone_number message in
  let customer :=
    match table !! phone_number with
    | Some row => row
    | None => new_customer (Z.of_nat (size table) + 1) phone_number
    end in
  set_preferred_language (Inbound.detected_language message) customer.

(** The second part: the response of the engine for the loaded object and
    the merge of it into that object. *)
Definition respond_and_merge (message : Inbound.t) (customer : Customer.t)
    : exc Customer.t :=
  let* response :=
    generate_response create (prompts_of (engine_language message))
      json_loads json_dumps
      (Inbound.english_text message) (profile_of customer)
      (Inbound.conversation_history message) in
  update_customer_profile customer (Response.extracted_info response)
    (Response.intent response) (Response.state response).

(** One step of the handler of [message] on the Customer table. An
    exception in the second part is caught by the handler, which logs it
    and writes nothing. *)
Definition handler_step (message : Inbound.t)
    (table : gmap string Customer.t) (p : progress)
    : gmap string Customer.t * progress :=
  match p with
  | Arrived =>
      let customer := load message table in
      (<[Inbound.phone_number message := customer]> table, Loaded customer)
  | Loaded customer =>
      match respond_and_merge message customer with
      | Ok saved => (<[Inbound.phone_number message := saved]> table, Merged)
      | Raise _ => (table, Merged)
      end
  | Merged => (table, Merged)
  end.

(** Two handlers at work; a schedule says which of them takes the next
    step ([false] the first, [true] the second). *)
Fixpoint run (first second : Inbound.t) (schedule : list bool)
    (table : gmap string Customer.t) (p1 p2 : progress)
    : gmap string Customer.t * progress * progress :=
  match schedule with
  | [] => (table, p1, p2)
  | false :: rest =>
      let '(table', p1') := handler_step first table p1 in
      run first second rest table' p1' p2
  | true :: rest =>
      let '(table', p2') := handler_step second table p2 in
      run first second rest table' p1 p2'
  end.

(** The Customer table after the two handlers ran under [schedule]. *)
Definition table_after (first second : Inbound.t) (schedule : list bool)
    (table : gmap string Customer.t) : gmap string Customer.t :=
  (run first second schedule table Arrived Arrived).1.1.

End Handlers.


(** ** Vocabulary of the properties *)

(** The states that are not terminal, in the order of the table. *)
Definition non_terminal_states : list string :=
  [State.INITIAL; State.INTRODUCTION; State.QUALIFYING; State.PROPERTY_DETAILS;
   State.LOAN_DETAILS; State.OBJECTION_HANDLING; State.CLOSING;
   State.FOLLOW_UP_SCHEDULING].

(** The six intents of [ConversationEngine.Intent]. *)
Definition intents : list string :=
  [Intent.INTERESTED; Intent.NEEDS_MORE_INFO; Intent.OBJECTION;
   Intent.NOT_INTERESTED; Intent.ASKING_QUESTION; Intent.FOLLOW_UP_LATER].

(** A row of the table that maps the four intents as a funnel stage is
    said to: some next stage for [interested], and the three fixed targets. *)
Definition funnel_row (state : string) : Prop :=
  is_Some (table_entry state Intent.INTERESTED)
  /\ table_entry state Intent.OBJECTION = Some State.OBJECTION_HANDLING
  /\ table_entry state Intent.NOT_INTERESTED = Some State.NOT_INTERESTED
  /\ table_entry state Intent.FOLLOW_UP_LATER = Some State.FOLLOW_UP_SCHEDULING.

(** Whether a digit occurs in a text. *)
Fixpoint has_digit (s : string) : bool :=
  match s with
  | EmptyString => false
  | String c s' => is_digit c || has_digit s'
  end.

(** The interest level as the deltas are stated: a capped rise for
    [interested] and [needs_more_info], a floored fall for [objection] and
    [not_interested], no change for another intent. *)
Definition stated_interest_level (intent : string) (x : Q) : Q :=
  if decide (intent = Intent.INTERESTED) then Qmin 1.0 (x + 0.2)
  else if decide (intent = Intent.NEEDS_MORE_INFO) then Qmin 0.8 (x + 0.1)
  else if decide (intent = Intent.OBJECTION) then Qmax 0.1 (x - 0.1)
  else if decide (intent = Intent.NOT_INTERESTED) then Qmax 0.0 (x - 0.3)
  else x.

(** A stored [concerns] entry, when there is one, is a list. *)
Definition concerns_is_list (loan_requirements : gmap string json) : Prop :=
  match loan_requirements !! "concerns" with
  | Some (JList _) | None => True
  | Some _ => False
  end.

(** The keys the merge routes to [property_details] and to
    [loan_requirements]. *)
Definition property_keys : list string :=
  ["property_type"; "property_location"; "property_value"; "ownership_status"].
Definition loan_keys : list string :=
  ["loan_amount_needed"; "loan_purpose"; "current_loans"; "monthly_income";
   "urgency"].

(** The value the last item of [items] with key [key] carries, when [key]
    is one of [keys] and such an item exists. *)
Fixpoint last_value (keys : list string) (key : string)
    (items : list (string * json)) : option json :=
  match items with
  | [] => None
  | (k, v) :: rest =>
      match last_value keys key rest with
      | Some v' => Some v'
      | None => if in_list k keys && String.eqb k key then Some v else None
      end
  end.

(** The concerns one value adds, and those the items of a dict add. *)
Definition concerns_of (value : json) : list json :=
  match value with JList vs => vs | _ => [value] end.
Definition added_concerns (items : list (string * json)) : list json :=
  flat_map (fun '(k, v) => if String.eqb k "concerns" then concerns_of v else [])
           items.
Definition has_concerns (items : list (string * json)) : bool :=
  existsb (fun '(k, _) => String.eqb k "concerns") items.

(** The list a stored [concerns] entry holds. *)
Definition stored_list (entry : option json) : list json :=
  match entry with Some (JList l) => l | _ => [] end.

(** Two customer records that agree on every field, [concerns] apart. *)
Definition same_but_concerns (a b : Customer.t) : Prop :=
  Customer.id a = Customer.id b
  /\ Customer.phone_number a = Customer.phone_number b
  /\ Customer.name a = Customer.name b
  /\ Customer.preferred_language a = Customer.preferred_language b
  /\ Customer.property_details a = Customer.property_details b
  /\ (forall key, key <> "concerns" ->
        Customer.loan_requirements a !! key = Customer.loan_requirements b !! key)
  /\ Customer.conversation_state a = Customer.conversation_state b
  /\ (Customer.interest_level a == Customer.interest_level b)%Q
  /\ Customer.do_not_contact a = Customer.do_not_contact b.

(** The name after the items of a dict were merged: the first value under
    [name] that is met while the name is [None]. *)
Fixpoint merged_name (items : list (string * json)) (name : json) : json :=
  match items with
  | [] => name
  | (k, v) :: rest =>
      merged_name rest (if String.eqb k "name" && is_none name then v else name)
  end.

(** The count of the day for a recipient is below the limit, at the next
    reading of the date. *)
Definition under_rate_limit (client : Client.t) (world : World.t)
    (recipient_phone : string) : Prop :=
  let today := World.strftime world (World.date_reads world) in
  (default 0 (Client.message_counts client !! (recipient_phone +:+ ":" +:+ today))
   < Client.rate_limit client)%Z.

(** The conversation window of a recipient has expired, at the next reading
    of the clock: the time since the window opened is not below the
    duration of a window. *)
Definition window_expired (client : Client.t) (world : World.t)
    (recipient_phone : string) : Prop :=
  let now := World.time_time world (World.clock_reads world) in
  let window_start :=
    default 0%Q (Client.conversation_windows client !! recipient_phone) in
  (Client.window_duration client <= now - window_start)%Q.

(** The world after one reading of the date and one of the clock. *)
Definition after_checks (world : World.t) : World.t :=
  World.mk (World.time_time world) (World.strftime world) (World.post world)
           (S (World.clock_reads world)) (S (World.date_reads world))
           (World.sent world).

(** The intent the classifier of the handler settles on for a message. *)
Definition classified_intent (create : Request.t -> exc Completion.t)
    (prompts_of : string -> gmap string string) (message : Inbound.t) : string :=
  match detect_intent create (prompts_of (engine_language message))
          (Inbound.english_text message) (Inbound.conversation_history message)
  with
  | Ok (intent, _) => intent
  | Raise _ => Intent.NEEDS_MORE_INFO
  end.

(** A final interest level that shows the deltas of both intents, applied
    one after the other in either order. *)
Definition both_deltas (start : Q) (intent1 intent2 : string) (final : Q) : Prop :=
  (final == update_interest_level intent2 (update_interest_level intent1 start))%Q
  \/ (final == update_interest_level intent1 (update_interest_level intent2 start))%Q.

(** A client that answers every request with the word [interested]. *)
Definition interested_client : Request.t -> exc Completion.t :=
  fun _ => Ok (Completion.mk [Choice.mk (Some "interested") "stop"]).

(** Two messages from one number, and a table that holds its customer. *)
Definition first_message : Inbound.t :=
  Inbound.mk "919000000001" "english" "I am interested" [].
Definition second_message : Inbound.t :=
  Inbound.mk "919000000001" "english" "Please tell me the next step" [].
Definition one_customer : gmap string Customer.t :=
  {[ "919000000001" := new_customer 1 "919000000001" ]}.

Definition reply_failing_client : Request.t -> exc Completion.t :=
  fun request =>
    if (Request.max_tokens request =? 800)%Z
    then Raise (Exn OtherException "Request timed out.")
    else Ok (Completion.mk [Choice.mk (Some "Interested") "stop"]).
Definition no_json : string -> exc json :=
  fun _ => Raise (Exn JSONDecodeError "Expecting value").
Definition sample_profile : Profile.t :=
  Profile.mk 1 JNull "919000000001" "english" ∅ ∅ (Some State.QUALIFYING) 0.0 false.

(** A customer whose interest level an administrator set to 5. *)
Definition keen_customer : Customer.t :=
  Customer.mk 7 "919000000007" (JStr "Asha") "english" ∅ ∅
    State.LOAN_DETAILS 5 false.

(** A world in which the clock stands at a date in 2023 and every post is
    answered with a message id. *)
Definition quiet_world : World.t :=
  {| World.time_time := fun _ => 1700000000%Q;
     World.strftime := fun _ => "2023-11-14";
     World.post := fun _ _ =>
       Ok (JObj [("messages", JList [JObj [("id", JStr "wamid.1")]])]);
     World.clock_reads := 0;
     World.date_reads := 0;
     World.sent := [] |}.

(** The conversation window of a recipient is expired at every reading of
    the clock, as it is when the clock does not run backwards from a
    reading at which the window is expired. *)
Definition window_stays_expired (client : Client.t) (world : World.t)
    (recipient_phone : string) : Prop :=
  forall n,
    (Client.window_duration client
     <= World.time_time world n
        - default 0%Q (Client.conversation_windows client !! recipient_phone))%Q.

(** ** Further vocabulary *)

(** The ten states of [ConversationEngine.State]. *)
Definition states : list string :=
  [State.INITIAL; State.INTRODUCTION; State.QUALIFYING; State.PROPERTY_DETAILS;
   State.LOAN_DETAILS; State.OBJECTION_HANDLING; State.CLOSING;
   State.FOLLOW_UP_SCHEDULING; State.COMPLETED; State.NOT_INTERESTED].

(** A value the cleaning loop of [extract_information] lets through under a
    key: not [None], not the empty string, not the empty list, and not a
    string under the two amount keys. *)
Definition cleaned (item : string * json) : Prop :=
  item.2 <> JNull /\ item.2 <> JStr EmptyString /\ item.2 <> JList []
  /\ (item.1 = "property_value" \/ item.1 = "loan_amount_needed" ->
      forall s, item.2 <> JStr s).

(** A Customer row as the handlers keep it: an interest level in [0,1] and
    one of the ten states. *)
Definition row_in_range (customer : Customer.t) : Prop :=
  (0 <= Customer.interest_level customer <= 1)%Q
  /\ Customer.conversation_state customer ∈ states.

(** What a handler holds is in range. *)
Definition progress_in_range (p : progress) : Prop :=
  match p with
  | Loaded customer => row_in_range customer
  | Arrived | Merged => True
  end.

(** ** The messaging client, continued *)

(** The payload [send_audio] posts. *)
Definition audio_payload (recipient_phone media_id : string) : json :=
  JObj [("messaging_product", JStr "whatsapp");
        ("recipient_type", JStr "individual");
        ("to", JStr recipient_phone);
        ("type", JStr "audio");
        ("audio", JObj [("id", JStr media_id)])].

Definition window_expired_error : json :=
  JObj [("error", JStr "Conversation window expired")].
Definition upload_failed_error : json :=
  JObj [("error", JStr "Failed to upload audio")].

Section Audio.

(** [self._upload_media(file_path, mime_type)]: it reads the file and posts
    it to the media endpoint, catches every exception, and returns the id
    of the upload or [None]. Only its result is modelled: the request it
    makes goes to another endpoint than the messages, and [World.sent] does
    not list it. *)
Variable _upload_media : string -> string -> option string.

(** One call of the function that [send_audio] decorates. An id that is
    [None] or empty counts as a failed upload. *)
Definition send_audio_once (recipient_phone audio_path : string) : io json :=
  let! under_limit := _check_rate_limit recipient_phone in
  if negb under_limit then io_ret rate_limit_exceeded
  else
    let! window_active := _check_conversation_window recipient_phone in
    if negb window_active then io_ret window_expired_error
    else
      match _upload_media audio_path "audio/mpeg" with
      | None | Some EmptyString => io_ret upload_failed_error
      | Some media_id =>
          let payload := audio_payload recipient_phone media_id in
          let! result := requests_post payload in
          let! _ := _update_message_count recipient_phone in
          let! _ := _update_conversation_window recipient_phone in
          io_ret result
      end.

(** [WhatsAppClient.send_audio], with its decorator. *)
Definition send_audio (recipient_phone audio_path : string) : io json :=
  on_exception 4 (send_audio_once recipient_phone audio_path).

End Audio.

(** The world after one reading of the date. *)
Definition after_date (world : World.t) : World.t :=
  World.mk (World.time_time world) (World.strftime world) (World.post world)
           (World.clock_reads world) (S (World.date_reads world))
           (World.sent world).

(** No count of the client is above its limit. *)
Definition counts_within_limit (client : Client.t) : Prop :=
  forall key count,
    Client.message_counts client !! key = Some count ->
    (count <= Client.rate_limit client)%Z.

(** The date stands at [today], no count is above [limit], and [limit] is
    the limit of the client. *)
Definition daily_invariant (today : string) (limit : Z)
    (env : Client.t * World.t) : Prop :=
  (forall n, World.strftime env.2 n = today)
  /\ Client.rate_limit env.1 = limit
  /\ counts_within_limit env.1.

(** ** Follow-up messages: [ConversationEngine.generate_followup] *)

Module FollowupContext.
(** The [followup_context] dict, by the keys [generate_followup] reads. A
    field is [None] when the key is absent. Under [follow_up_reason] the
    value itself can be [None] (the column is nullable): that is
    [Some None]. *)
Record t : Type := mk {
  customer_name : option string;
  last_state : option string;
  follow_up_reason : option (option string);
  days_since_contact : option Z;
  property_details : option (gmap string json);
  loan_requirements : option (gmap string json)
}.
End FollowupContext.

Module Followup.
(** The dict returned by [generate_followup]. *)
Record t : Type := mk {
  text : string;
  should_generate_audio : bool;
  new_state : string
}.
End Followup.

Definition followup_system_prompt : string :=
  "You are a loan-against-property advisor following up with a customer."
  +:+ newline +:+
  "You previously spoke with them about a loan against their property."
  +:+ newline +:+
  "Your goal is to check if they're ready to proceed or if they need more information."
  +:+ newline +:+
  "Be polite, professional, and not pushy. Reference specific details from your previous conversation.".

(** The text of the fallback follow-up. *)
Definition followup_fallback_text (followup_context : FollowupContext.t) : string :=
  "Hello "
  +:+ default "there" (FollowupContext.customer_name followup_context)
  +:+ ", this is ABC Finance following up on our conversation about a loan against your property. We're still here to help if you have any questions or would like to proceed. Feel free to reach out at your convenience.".

(** [followup_context.get('follow_up_reason', '').lower()]: [None] has no
    method [lower]. *)
Definition follow_up_reason_lower (followup_context : FollowupContext.t)
    : exc string :=
  match FollowupContext.follow_up_reason followup_context with
  | None => Ok (lower EmptyString)
  | Some (Some reason) => Ok (lower reason)
  | Some None =>
      Raise (Exn AttributeError "'NoneType' object has no attribute 'lower'")
  end.

Section Followup_engine.

Variable create : Request.t -> exc Completion.t.

(** [json.dumps] on the two JSON columns of a Customer row, on which it
    does not raise. *)
Variable json_dumps_dict : gmap string json -> string.

(** The request [generate_followup] sends. In the f-string a reason that
    is [None] prints as [None]. *)
Definition followup_request (followup_context : FollowupContext.t) : Request.t :=
  let user_prompt :=
    "Generate a follow-up message for a customer with the following information:"
    +:+ newline +:+ "        " +:+ newline +:+
    "Customer name: "
    +:+ default "there" (FollowupContext.customer_name followup_context)
    +:+ newline +:+
    "Last conversation state: "
    +:+ default "initial" (FollowupContext.last_state followup_context)
    +:+ newline +:+
    "Follow-up reason: "
    +:+ match FollowupContext.follow_up_reason followup_context with
        | None => "general follow-up"
        | Some None => "None"
        | Some (Some reason) => reason
        end
    +:+ newline +:+
    "Days since last contact: "
    +:+ pretty (default 0%Z (FollowupContext.days_since_contact followup_context))
    +:+ newline +:+
    "Property details: "
    +:+ json_dumps_dict
          (default ∅ (FollowupContext.property_details followup_context))
    +:+ newline +:+
    "Loan requirements: "
    +:+ json_dumps_dict
          (default ∅ (FollowupContext.loan_requirements followup_context))
    +:+ newline +:+ newline +:+
    "The message should be concise, personalized, and provide clear next steps."
    +:+ newline in
  {| Request.system := followup_system_prompt;
     Request.user := user_prompt;
     Request.temperature := 0.7%Q;
     Request.max_tokens := 500;
     Request.json_object := false |}.

(** [ConversationEngine.generate_followup]. The [or] of the audio test
    reads the reason only when the text is not longer than 200. *)
Definition generate_followup (followup_context : FollowupContext.t)
    : exc Followup.t :=
  try_except
    (let* response := create (followup_request followup_context) in
     let* response_text := first_content_stripped response in
     let* should_generate_audio :=
       if (200 <? len response_text)%Z then Ok true
       else
         let* reason := follow_up_reason_lower followup_context in
         Ok (contains "urgent" reason) in
     let last_state :=
       default State.INITIAL (FollowupContext.last_state followup_context) in
     let new_state :=
       if String.eqb last_state State.NOT_INTERESTED then State.NOT_INTERESTED
       else if String.eqb last_state State.COMPLETED then State.COMPLETED
       else State.FOLLOW_UP_SCHEDULING in
     Ok {| Followup.text := response_text;
           Followup.should_generate_audio := should_generate_audio;
           Followup.new_state := new_state |})
    (fun e =>
     Ok {| Followup.text := followup_fallback_text followup_context;
           Followup.should_generate_audio := false;
           Followup.new_state :=
             default State.INITIAL (FollowupContext.last_state followup_context) |}).

End Followup_engine.

(** ** Dates and intervals *)

(** A [datetime] is the number of microseconds since the first instant of
    the calendar, 0001-01-01 00:00:00; the last one is
    9999-12-31 23:59:59.999999, and [date.max.toordinal()] is 3652059. A
    [timedelta] is a number of microseconds. *)
Definition microseconds_per_day : Z := 86400000000.
Definition datetime_max : Z := 3652059 * microseconds_per_day - 1.

Definition overflow_error (msg : string) : exn := Exn OtherException msg.

(** [timedelta(days=days)]: the number of days of an interval has at most
    nine digits. *)
Definition timedelta_days (days : Z) : exc Z :=
  if (Z.abs days <=? 999999999)%Z then Ok (days * microseconds_per_day)%Z
  else Raise (overflow_error "days; must have magnitude <= 999999999").

(** [moment + delta] and [moment - delta]: the result has to be a date of the calendar. *)
Definition datetime_add (moment delta : Z) : exc Z :=
  let result := (moment + delta)%Z in
  if (0 <=? result)%Z && (result <=? datetime_max)%Z then Ok result
  else Raise (overflow_error "date value out of range").

(** ** The interaction log: [Interaction] of [agent/models.py] *)

Module Interaction.
(** A row of the [Interaction] model: the id of the Customer row it belongs
    to, its timestamp, and the columns that [get_conversation_history] and
    [update_customer_interest_levels] read. [detected_intent] is [None] for
    a null column. *)
Record t : Type := mk {
  customer : Z;
  timestamp : Z;
  direction : string;
  message_type : string;
  content : string;
  language : string;
  detected_intent : option string
}.
End Interaction.

(** [.order_by('timestamp')]: ascending. Rows with the same timestamp, whose
    order the database leaves open, stay in the order of the table. *)
Fixpoint insert_by_timestamp (row : Interaction.t) (sorted : list Interaction.t)
    : list Interaction.t :=
  match sorted with
  | [] => [row]
  | first :: rest =>
      if (Interaction.timestamp row <=? Interaction.timestamp first)%Z
      then row :: sorted
      else first :: insert_by_timestamp row rest
  end.

Definition order_by_timestamp (rows : list Interaction.t) : list Interaction.t :=
  foldr insert_by_timestamp [] rows.

(** [Interaction.objects.filter(customer=customer)]. *)
Definition interactions_of (customer : Customer.t)
    (interactions : list Interaction.t) : list Interaction.t :=
  filter (fun row => Interaction.customer row = Customer.id customer) interactions.

(** [get_conversation_history] of [agent/views.py]; the callers leave
    [limit] at its default, 20. Of the keys of a history entry the two that
    the engine reads are kept. *)
Definition get_conversation_history (interactions : list Interaction.t)
    (customer : Customer.t) (limit : nat) : list Exchange.t :=
  let interactions :=
    take limit (order_by_timestamp (interactions_of customer interactions)) in
  map (fun interaction =>
         {| Exchange.direction := Interaction.direction interaction;
            Exchange.content := Interaction.content interaction |})
      interactions.

(** ** The interest levels recomputed: [update_customer_interest_levels]
       of [agent/tasks.py] *)

(** The body of the loop over the recent interactions. *)
Definition interest_step (interest_factor : Q) (interaction : Interaction.t) : Q :=
  if String.eqb (Interaction.direction interaction) "inbound"
  then
    if bool_decide (Interaction.detected_intent interaction = Some "interested")
    then (interest_factor + 0.2)%Q
    else if bool_decide (Interaction.detected_intent interaction = Some "needs_more_info")
    then (interest_factor + 0.1)%Q
    else if bool_decide (Interaction.detected_intent interaction = Some "objection")
    then (interest_factor - 0.1)%Q
    else if bool_decide (Interaction.detected_intent interaction = Some "not_interested")
    then (interest_factor - 0.3)%Q
    else interest_factor
  else interest_factor.

(** [Interaction.objects.filter(customer=customer, timestamp__gte=recent_cutoff)]. *)
Definition recent_interactions_of (recent_cutoff : Z) (customer : Customer.t)
    (interactions : list Interaction.t) : list Interaction.t :=
  filter (fun row => Interaction.customer row = Customer.id customer
                     /\ (recent_cutoff <= Interaction.timestamp row)%Z)
         interactions.

Definition set_interest_level (interest_level : Q) (customer : Customer.t)
    : Customer.t :=
  {| Customer.id := Customer.id customer;
     Customer.phone_number := Customer.phone_number customer;
     Customer.name := Customer.name customer;
     Customer.preferred_language := Customer.preferred_language customer;
     Customer.property_details := Customer.property_details customer;
     Customer.loan_requirements := Customer.loan_requirements customer;
     Customer.conversation_state := Customer.conversation_state customer;
     Customer.interest_level := interest_level;
     Customer.do_not_contact := Customer.do_not_contact customer |}.

(** The body of the loop over the active customers: the row as the loop
    leaves it. Nothing in the body raises. *)
Definition recompute_interest_level (recent_cutoff : Z)
    (interactions : list Interaction.t) (customer : Customer.t) : Customer.t :=
  let recent_interactions :=
    order_by_timestamp (recent_interactions_of recent_cutoff customer interactions) in
  match recent_interactions with
  | [] => customer
  | _ =>
      let interest_factor := fold_left interest_step recent_interactions 0%Q in
      let interest_factor := py_max (-1.0) (py_min 1.0 interest_factor) in
      let new_interest_level :=
        py_max 0.0 (py_min 1.0 (Customer.interest_level customer + interest_factor)) in
      if negb (Qeq_bool new_interest_level (Customer.interest_level customer))
      then set_interest_level new_interest_level customer
      else customer
  end.

(** [update_customer_interest_levels], on the Customer table and the
    interaction log, with [now] the reading of the clock: the table as the
    task leaves it. The active customers are those with an interaction at or
    after the cutoff. *)
Definition update_customer_interest_levels (now : Z)
    (table : gmap string Customer.t) (interactions : list Interaction.t)
    : exc (gmap string Customer.t) :=
  let* delta := timedelta_days 30 in
  let* recent_cutoff := datetime_add now (- delta) in
  Ok ((fun customer =>
         if bool_decide (Exists (fun row =>
                           Interaction.customer row = Customer.id customer
                           /\ (recent_cutoff <= Interaction.timestamp row)%Z)
                         interactions)
         then recompute_interest_level recent_cutoff interactions customer
         else customer) <$> table).

(** ** Scheduling a follow-up: [schedule_followup] of [agent/views.py] *)

(** [s[-1]]. *)
Fixpoint last_char (s : string) : exc ascii :=
  match s with
  | EmptyString => Raise (Exn IndexError "string index out of range")
  | String c s' =>
      match s' with
      | EmptyString => Ok c
      | _ => last_char s'
      end
  end.

(** [s[:-1]]. *)
Fixpoint but_last (s : string) : string :=
  match s with
  | EmptyString => EmptyString
  | String c s' =>
      match s' with
      | EmptyString => EmptyString
      | _ => String c (but_last s')
      end
  end.

(** The digits of a decimal literal: a digit, then digits, each of which
    one underscore may precede. [after_digit] says that the character just
    read was a digit. *)
Fixpoint digits_value (after_digit : bool) (acc : Z) (s : string) : option Z :=
  match s with
  | EmptyString => if after_digit then Some acc else None
  | String c s' =>
      if is_digit c then digits_value true (10 * acc + digit_value c) s'
      else if (c =? "_")%char && after_digit then digits_value false acc s'
      else None
  end.

(** The number of digits of a literal. *)
Fixpoint count_digits (s : string) : Z :=
  match s with
  | EmptyString => 0
  | String c s' => ((if is_digit c then 1 else 0) + count_digits s')%Z
  end.

Definition value_error (msg : string) : exn := Exn OtherException msg.

(** [int(s)] for a [str] (ASCII text): the white space around is dropped, a
    sign may lead, and the interpreter refuses more than 4300 digits. The
    message, which the callers only log, is abridged. *)
Definition py_int (s : string) : exc Z :=
  let s := strip s in
  let '(negative, digits) :=
    match s with
    | String "-"%char rest => (true, rest)
    | String "+"%char rest => (false, rest)
    | _ => (false, s)
    end in
  match digits_value false 0 digits with
  | Some value =>
      if (4300 <? count_digits digits)%Z
      then Raise (value_error "Exceeds the limit (4300 digits) for integer string conversion")
      else Ok (if negative then (- value)%Z else value)
  | None => Raise (value_error "invalid literal for int() with base 10")
  end.

Module FollowUp.
(** A row of the [FollowUp] model, by the columns the code sets or reads;
    [status] and [follow_up_type] have the defaults [pending] and
    [general]. *)
Record t : Type := mk {
  customer : Z;
  scheduled_date : Z;
  status : string;
  follow_up_type : string;
  follow_up_reason : option string;
  result_notes : option string
}.
End FollowUp.

Module Agenda.
(** What [schedule_followup] writes: the column [next_contact_date] of the
    Customer rows, by the id of the row, and the [FollowUp] table, oldest
    row first. *)
Record t : Type := mk {
  next_contact_date : gmap Z Z;
  followups : list FollowUp.t
}.
End Agenda.

(** [schedule_followup], with [now] the reading of the clock. An exception
    leaves the agenda as it was. *)
Definition schedule_followup (now : Z) (customer : Customer.t)
    (time_frame : string) (agenda : Agenda.t) : exc Agenda.t :=
  let* unit := last_char time_frame in
  let* value := py_int (but_last time_frame) in
  let* next_contact :=
    if (unit =? "d")%char
    then let* delta := timedelta_days value in datetime_add now delta
    else if (unit =? "w")%char
    then let* delta := timedelta_days (7 * value) in datetime_add now delta
    else if (unit =? "m")%char
    then let* delta := timedelta_days (value * 30) in datetime_add now delta
    else let* delta := timedelta_days 30 in datetime_add now delta in
  Ok {| Agenda.next_contact_date :=
          <[Customer.id customer := next_contact]> (Agenda.next_contact_date agenda);
        Agenda.followups :=
          Agenda.followups agenda
          ++ [{| FollowUp.customer := Customer.id customer;
                 FollowUp.scheduled_date := next_contact;
                 FollowUp.status := "pending";
                 FollowUp.follow_up_type := "general";
                 FollowUp.follow_up_reason := Some "Scheduled based on conversation";
                 FollowUp.result_notes := None |}] |}.

(** ** Languages: [LanguageProcessor] of [core/language.py] *)

(** [self.supported_languages], by its items, and [self.language_codes], the
    inverse mapping from codes to names. *)
Definition supported_languages : list (string * string) :=
  [("english", "en"); ("hindi", "hi"); ("kannada", "kn"); ("tamil", "ta");
   ("telugu", "te")].

Definition language_codes : list (string * string) :=
  map (fun '(name, code) => (code, name)) supported_languages.

(** [key in d] for a dict given by its items. *)
Definition has_key {V} (key : string) (items : list (string * V)) : bool :=
  existsb (fun item => String.eqb item.1 key) items.




Section LanguageProcessor.

Variable create : Request.t -> exc Completion.t.

(** The request [detect_language] sends. *)
Definition language_request (text : string) : Request.t :=
  let prompt :=
    "Identify the language of this text. Respond with only the language name, e.g., 'english', 'hindi', 'kannada', 'tamil', or 'telugu'."
    +:+ newline +:+ newline +:+ "Text: " +:+ text
    +:+ newline +:+ newline +:+ "Language:" in
  {| Request.system := "You identify languages.";
     Request.user := prompt;
     Request.temperature := 0.1%Q;
     Request.max_tokens := 10;
     Request.json_object := false |}.

(** [LanguageProcessor.detect_language]. *)
Definition detect_language (text : string) : exc string :=
  if String.eqb text EmptyString || (len (strip text) <? 5)%Z then Ok "english"
  else
    try_except
      (let* response := create (language_request text) in
       let* stripped := first_content_stripped response in
       let detected_language := lower stripped in
       if has_key detected_language supported_languages
       then Ok detected_language
       else
         match find (fun lang => contains lang detected_language)
                    (map fst supported_languages) with
         | Some lang => Ok lang
         | None =>
             match find (fun '(code, lang) => contains code detected_language)
                        language_codes with
             | Some (code, lang) => Ok lang
             | None => Ok "english"
             end
         end)
      (fun e => Ok "english").





End LanguageProcessor.

(** ** Campaign messages: [ConversationEngine.generate_campaign_message] *)

(** [s.split(sep)] for a separator of one character. *)
Fixpoint split_char (sep : ascii) (s : string) : list string :=
  match s with
  | EmptyString => [EmptyString]
  | String c s' =>
      if (c =? sep)%char then EmptyString :: split_char sep s'
      else
        match split_char sep s' with
        | first :: rest => String c first :: rest
        | [] => [String c EmptyString]
        end
  end.

(** [s.split(sep, 1)] for a separator of one character. *)
Fixpoint split_once (sep : ascii) (s : string) : list string :=
  match s with
  | EmptyString => [EmptyString]
  | String c s' =>
      if (c =? sep)%char then [EmptyString; s']
      else
        match split_once sep s' with
        | first :: rest => String c first :: rest
        | [] => [String c EmptyString]
        end
  end.

(** [xs[1]]. *)
Definition item1 {A} (xs : list A) : exc A :=
  match xs with
  | _ :: x :: _ => Ok x
  | _ => Raise (Exn IndexError "list index out of range")
  end.

(** [s[:n]]. *)
Fixpoint str_take (n : nat) (s : string) : string :=
  match n, s with
  | S n', String c s' => String c (str_take n' s')
  | _, _ => EmptyString
  end.

(** [d[key] = value] for a dict given by its items: the value of a key
    that is there is replaced in place, a new key goes to the end. *)
Fixpoint items_set (key : string) (value : json) (items : list (string * json))
    : list (string * json) :=
  match items with
  | [] => [(key, value)]
  | (k, v) :: rest =>
      if String.eqb k key then (k, value) :: rest
      else (k, v) :: items_set key value rest
  end.

(** [d[key]] for a dict given by its items. *)
Definition items_item (key : string) (items : list (string * json)) : exc json :=
  match items_get key items with
  | Some value => Ok value
  | None => Raise (Exn OtherException ("'" +:+ key +:+ "'"))
  end.

Module CampaignMessage.
(** The dict returned by [generate_campaign_message]; [template_params] is
    given by its items, in the order of insertion. *)
Record t : Type := mk {
  preview : string;
  template_name : string;
  template_params : list (string * json)
}.
End CampaignMessage.

(** The body of the first loop of [generate_campaign_message]: the
    placeholder of a key with a [str] value is replaced by the value. *)
Definition substitute (personalized_message : string) (item : string * json)
    : string :=
  match item.2 with
  | JStr value => replace ("{" +:+ item.1 +:+ "}") value personalized_message
  | _ => personalized_message
  end.

(** The body of the second loop: the items with a [str] value become
    parameters. *)
Definition add_param (template_params : list (string * json))
    (item : string * json) : list (string * json) :=
  match item.2 with
  | JStr _ => items_set item.1 item.2 template_params
  | _ => template_params
  end.

(** [ConversationEngine.generate_campaign_message]; [customer_data] is
    given by its items. *)
Definition generate_campaign_message (template : string)
    (customer_data : list (string * json)) : exc CampaignMessage.t :=
  let personalized_message := fold_left substitute customer_data template in
  let template_name := "general_outreach" in
  let lines := split_char (ascii_of_nat 10) (strip template) in
  let* '(template_name, personalized_message) :=
    match lines with
    | line0 :: rest =>
        if contains ":" line0
        then
          let header_parts := split_once ":"%char line0 in
          let* part0 := item0 header_parts in
          if String.eqb (lower (strip part0)) "template name"
          then
            let* part1 := item1 header_parts in
            Ok (strip part1, strip (String.concat newline rest))
          else Ok (template_name, personalized_message)
        else Ok (template_name, personalized_message)
    | [] => Ok (template_name, personalized_message)
    end in
  let template_params := fold_left add_param customer_data [] in
  let* template_params :=
    if negb (has_key "name" template_params) && has_key "customer_name" customer_data
    then
      let* customer_name := items_item "customer_name" customer_data in
      Ok (items_set "name" customer_name template_params)
    else Ok template_params in
  let template_params :=
    if negb (has_key "default_text" template_params)
    then items_set "default_text" (JStr (str_take 120 personalized_message))
                   template_params
    else template_params in
  Ok {| CampaignMessage.preview := personalized_message;
        CampaignMessage.template_name := template_name;
        CampaignMessage.template_params := template_params |}.

(** ** Campaign targets: [update_campaign_targets] of [agent/views.py] *)

Module CampaignTarget.
(** A row of the [CampaignTarget] model: the ids of its campaign and of its
    customer, and the two columns that [update_campaign_targets] writes. *)
Record t : Type := mk {
  campaign : Z;
  customer : Z;
  status : string;
  response_time : option Z
}.
End CampaignTarget.

Module Campaigns.
(** The [CampaignTarget] table, in the order in which a query returns its
    rows, and the column [total_responses] of the [Campaign] rows, by the id
    of the row. *)
Record t : Type := mk {
  targets : list CampaignTarget.t;
  total_responses : gmap Z Z
}.
End Campaigns.

(** The loop of [update_campaign_targets] over the rows of the table: the
    rows that the query selects (those of the customer with the status
    [sent]) are written, the others passed over. [now] gives the readings
    of the clock, and [reads] counts those taken. The campaign of a target
    is loaded from its row when the loop reaches the target. *)
Fixpoint update_targets (now : nat -> Z) (reads : nat) (customer : Customer.t)
    (status : string) (targets : list CampaignTarget.t)
    (total_responses : gmap Z Z) : list CampaignTarget.t * gmap Z Z :=
  match targets with
  | [] => ([], total_responses)
  | target :: rest =>
      if bool_decide (CampaignTarget.customer target = Customer.id customer)
         && String.eqb (CampaignTarget.status target) "sent"
      then
        let saved :=
          {| CampaignTarget.campaign := CampaignTarget.campaign target;
             CampaignTarget.customer := CampaignTarget.customer target;
             CampaignTarget.status := status;
             CampaignTarget.response_time := Some (now reads) |} in
        let total_responses :=
          if String.eqb status "responded"
          then alter (fun total => (total + 1)%Z)
                     (CampaignTarget.campaign target) total_responses
          else total_responses in
        let '(rest, total_responses) :=
          update_targets now (S reads) customer status rest total_responses in
        (saved :: rest, total_responses)
      else
        let '(rest, total_responses) :=
          update_targets now reads customer status rest total_responses in
        (target :: rest, total_responses)
  end.

(** [update_campaign_targets]. *)
Definition update_campaign_targets (now : nat -> Z) (customer : Customer.t)
    (status : string) (campaigns : Campaigns.t) : Campaigns.t :=
  let '(targets, total_responses) :=
    update_targets now 0 customer status (Campaigns.targets campaigns)
                   (Campaigns.total_responses campaigns) in
  {| Campaigns.targets := targets;
     Campaigns.total_responses := total_responses |}.

(** A client whose classification call (the one limited to 50 tokens) times
    out and that answers every other request. *)
Definition classifier_failing_client : Request.t -> exc Completion.t :=
  fun request =>
    if (Request.max_tokens request =? 50)%Z
    then Raise (Exn OtherException "Request timed out.")
    else Ok (Completion.mk
               [Choice.mk (Some "Could you tell me the value of the property?")
                          "stop"]).









(** A text in which a character does not occur. *)
Fixpoint lacks (p : ascii) (s : string) : bool :=
  match s with
  | EmptyString => true
  | String c s' => negb (c =? p)%char && lacks p s'
  end.

(** The number of targets of a customer in a campaign that wait for a
    response: those with the status [sent]. *)
Definition sent_targets (customer : Customer.t) (campaign : Z)
    (targets : list CampaignTarget.t) : Z :=
  Z.of_nat
    (length
       (filter (fun target =>
                  CampaignTarget.customer target = Customer.id customer
                  /\ CampaignTarget.status target = "sent"
                  /\ CampaignTarget.campaign target = campaign)
               targets)).

(** ** Marking a message read: [WhatsAppClient.mark_message_read] *)

(** The payload [mark_message_read] posts. *)
Definition read_payload (message_id : json) : json :=
  JObj [("messaging_product", JStr "whatsapp");
        ("status", JStr "read");
        ("message_id", message_id)].

(** [WhatsAppClient.mark_message_read]: the method has no decorator, and
    its handler turns a [RequestException] into an error dict. *)
Definition mark_message_read (message_id : json) : io json :=
  fun env =>
    match requests_post (read_payload message_id) env with
    | (Raise e, env') =>
        if is_request_exception e
        then (Ok (JObj [("error", JStr (exn_msg e))]), env')
        else (Raise e, env')
    | done => done
    end.

(** The world after one post. *)
Definition after_post (payload : json) (world : World.t) : World.t :=
  World.mk (World.time_time world) (World.strftime world) (World.post world)
           (World.clock_reads world) (World.date_reads world)
           (World.sent world ++ [payload]).

(** ** The webhook: [webhook] of [agent/views.py], method POST *)

(** Operators of Python on a decoded JSON value and a [str] key. The text
    of a [TypeError], which names the type of the value, is abridged. *)
Definition type_error (msg : string) : exn := Exn OtherException msg.
Definition key_error (key : string) : exn :=
  Exn OtherException ("'" +:+ key +:+ "'").

(** [v == key]. *)
Definition is_str (key : string) (v : json) : bool :=
  match v with
  | JStr s => String.eqb s key
  | _ => false
  end.

(** [key in v]: a key of a dict, an element of a list, a part of a
    string. *)
Definition py_in (key : string) (v : json) : exc bool :=
  match v with
  | JObj items => Ok (has_key key items)
  | JList elements => Ok (existsb (is_str key) elements)
  | JStr s => Ok (contains key s)
  | _ => Raise (type_error "argument is not iterable")
  end.

(** [v[key]]. *)
Definition py_getitem (key : string) (v : json) : exc json :=
  match v with
  | JObj items =>
      match items_get key items with
      | Some value => Ok value
      | None => Raise (key_error key)
      end
  | JList _ => Raise (type_error "list indices must be integers or slices, not str")
  | JStr _ => Raise (type_error "string indices must be integers")
  | _ => Raise (type_error "object is not subscriptable")
  end.

(** [v.get(key)]. *)
Definition py_get (key : string) (v : json) : exc json :=
  match v with
  | JObj items => Ok (default JNull (items_get key items))
  | _ => Raise (Exn AttributeError "object has no attribute 'get'")
  end.

(** The characters of a string, each a string. *)
Fixpoint characters (s : string) : list json :=
  match s with
  | EmptyString => []
  | String c s' => JStr (String c EmptyString) :: characters s'
  end.

(** [for x in v]: the elements of a list, the keys of a dict, the
    characters of a string. *)
Definition py_iter (v : json) : exc (list json) :=
  match v with
  | JList elements => Ok elements
  | JObj items => Ok (map (fun item => JStr item.1) items)
  | JStr s => Ok (characters s)
  | _ => Raise (type_error "object is not iterable")
  end.

(** What the webhook has its collaborators do: [mark_message_read],
    [process_text_message] and [process_audio_message], with their
    arguments. The two handlers catch every exception, and
    [mark_message_read] catches the failure of its request (the one of the
    simulator does nothing): the three calls return. *)
Inductive action : Type :=
| MarkRead (message_id : json)
| ProcessText (sender message_content message_id timestamp : json)
| ProcessAudio (sender media_id message_id timestamp : json).

(** A run of the webhook: what was done, and the value or the exception
    it ended with. *)
Definition steps (A : Type) : Type := list action * exc A.

Definition steps_ret {A} (a : A) : steps A := ([], Ok a).

Definition steps_bind {A B} (m : steps A) (k : A -> steps B) : steps B :=
  match m with
  | (done, Ok a) => let '(more, result) := k a in (done ++ more, result)
  | (done, Raise e) => (done, Raise e)
  end.

Notation "'let+' x ':=' m 'in' k" := (steps_bind m (fun x => k))
  (at level 10, x name, m at level 100, k at level 200).

(** A step that does nothing but may raise, and a step that does [a]. *)
Definition pure {A} (m : exc A) : steps A := ([], m).
Definition emit (a : action) : steps unit := ([a], Ok tt).

(** [for x in xs: body(x)]. *)
Fixpoint for_steps {A} (body : A -> steps unit) (xs : list A) : steps unit :=
  match xs with
  | [] => steps_ret tt
  | x :: xs' => let+ _ := body x in for_steps body xs'
  end.

(** The body of the loop over the messages. *)
Definition handle_message (message : json) : steps unit :=
  let+ sender := pure (py_getitem "from" message) in
  let+ message_type := pure (py_getitem "type" message) in
  let+ message_id := pure (py_getitem "id" message) in
  let+ timestamp := pure (py_get "timestamp" message) in
  let+ _ := emit (MarkRead message_id) in
  if is_str "text" message_type
  then
    let+ text := pure (py_getitem "text" message) in
    let+ message_content := pure (py_getitem "body" text) in
    emit (ProcessText sender message_content message_id timestamp)
  else if is_str "audio" message_type
  then
    let+ audio := pure (py_getitem "audio" message) in
    let+ media_id := pure (py_getitem "id" audio) in
    emit (ProcessAudio sender media_id message_id timestamp)
  else steps_ret tt.

(** The body of the loop over the changes of an entry. *)
Definition handle_change (change : json) : steps unit :=
  let+ field := pure (py_getitem "field" change) in
  if negb (is_str "messages" field) then steps_ret tt
  else
    let+ has_value := pure (py_in "value" change) in
    if negb has_value then steps_ret tt
    else
      let+ value := pure (py_getitem "value" change) in
      let+ has_messages := pure (py_in "messages" value) in
      if negb has_messages then steps_ret tt
      else
        let+ messages := pure (py_getitem "messages" value) in
        let+ messages := pure (py_iter messages) in
        for_steps handle_message messages.

(** The body of the loop over the entries. *)
Definition handle_entry (entry : json) : steps unit :=
  let+ has_changes := pure (py_in "changes" entry) in
  if negb has_changes then steps_ret tt
  else
    let+ changes := pure (py_getitem "changes" entry) in
    let+ changes := pure (py_iter changes) in
    for_steps handle_change changes.

(** The answer of the webhook: its [status], and for an error the
    exception whose text is the [message]. *)
Inductive webhook_status : Type :=
| StatusSuccess
| StatusProcessing
| StatusError (e : exn).

(** [webhook] for a POST request; [body] is what [json.loads(request.body)]
    gives. *)
Definition webhook_post (body : exc json) : list action * webhook_status :=
  let run : steps webhook_status :=
    let+ body := pure body in
    let+ has_entry := pure (py_in "entry" body) in
    if negb has_entry then steps_ret StatusSuccess
    else
      let+ entries := pure (py_getitem "entry" body) in
      let+ entries := pure (py_iter entries) in
      let+ _ := for_steps handle_entry entries in
      steps_ret StatusProcessing in
  match run with
  | (done, Ok status) => (done, status)
  | (done, Raise e) => (done, StatusError e)
  end.

(** ** Incoming messages of the simulator:
       [WhatsAppSimulator.simulate_incoming_message] *)

(** The webhook data for a message given as text. [timestamp] is
    [int(time.time())], and [uuid_message] and [uuid_media] are the
    identifiers drawn for the message and for its media. The entry made in
    the media store is not modelled. *)
Definition simulate_incoming_message (timestamp : Z)
    (uuid_message uuid_media : string)
    (phone_number message_content message_type : string) : json :=
  let message_id := "sim_in_" +:+ uuid_message in
  let message :=
    [("from", JStr phone_number);
     ("id", JStr message_id);
     ("timestamp", JNum (inject_Z timestamp));
     ("type", JStr message_type)] in
  let message :=
    if String.eqb message_type "text"
    then items_set "text" (JObj [("body", JStr message_content)]) message
    else if String.eqb message_type "audio"
    then items_set "audio" (JObj [("id", JStr ("sim_media_" +:+ uuid_media))]) message
    else message in
  JObj [("object", JStr "whatsapp_business_account");
        ("entry", JList [JObj [
           ("id", JStr "12345");
           ("changes", JList [JObj [
              ("value", JObj [
                 ("messaging_product", JStr "whatsapp");
                 ("metadata", JObj [("display_phone_number", JStr "1234567890");
                                    ("phone_number_id", JStr "1234567890")]);
                 ("contacts", JList [JObj [
                    ("profile", JObj [("name", JStr "Test User")]);
                    ("wa_id", JStr phone_number)]]);
                 ("messages", JList [JObj message])]);
              ("field", JStr "messages")]])]])].

(** The webhook data that carry the given messages in one change of one
    entry. *)
Definition webhook_data (messages : list json) : json :=
  JObj [("object", JStr "whatsapp_business_account");
        ("entry", JList [JObj [
           ("id", JStr "12345");
           ("changes", JList [JObj [
              ("value", JObj [("messaging_product", JStr "whatsapp");
                              ("messages", JList messages)]);
              ("field", JStr "messages")]])]])].

(** A text message as the platform sends it. *)
Definition text_message (sender message_id timestamp body : string) : json :=
  JObj [("from", JStr sender); ("id", JStr message_id);
        ("timestamp", JStr timestamp); ("type", JStr "text");
        ("text", JObj [("body", JStr body)])].

(** What the webhook does for a text message. *)
Definition text_actions (sender message_id timestamp body : string) : list action :=
  [MarkRead (JStr message_id);
   ProcessText (JStr sender) (JStr body) (JStr message_id) (JStr timestamp)].

(** A text message given by its four strings: sender, id, timestamp and
    body. *)
Definition message_of (m : string * string * string * string) : json :=
  let '(sender, message_id, timestamp, body) := m in
  text_message sender message_id timestamp body.
Definition actions_of (m : string * string * string * string) : list action :=
  let '(sender, message_id, timestamp, body) := m in
  text_actions sender message_id timestamp body.

(** * Properties *)

(** ** The embedding on sample inputs *)

Example lower_strip :
  lower (strip "  Not Interested. ") = "not interested.".
Proof. reflexivity. Qed.

Example replace_placeholders :
  replace "{message}" "Hi" "Intent of {message}? {message}{mess"
    = "Intent of Hi? Hi{mess".
Proof. reflexivity. Qed.

Example history_lines :
  _format_conversation_history
    [Exchange.mk "inbound" "Hello"; Exchange.mk "outbound" "Welcome"]
    = "Customer: Hello" +:+ newline +:+ "Agent: Welcome".
Proof. reflexivity. Qed.

Example search_number :
  re_search_number "about 12.x or 4" = Some "12."
  /\ re_search_number "x .5 lakh" = Some "5"
  /\ re_search_number "n/a" = None.
Proof. repeat split; reflexivity. Qed.

Example qualifying_interested :
  _update_state State.QUALIFYING Intent.INTERESTED = State.PROPERTY_DETAILS
  /\ _should_generate_audio "Could you share the property value?"
       State.PROPERTY_DETAILS = false.
Proof. split; reflexivity. Qed.

Example follow_up_dates :
  _calculate_follow_up_date Intent.FOLLOW_UP_LATER State.QUALIFYING = Some "7d"
  /\ _calculate_follow_up_date Intent.OBJECTION State.OBJECTION_HANDLING = Some "21d"
  /\ _calculate_follow_up_date Intent.NEEDS_MORE_INFO State.LOAN_DETAILS = Some "30d"
  /\ _calculate_follow_up_date Intent.INTERESTED State.LOAN_DETAILS = None.
Proof. repeat split; reflexivity. Qed.

Example cleaned_items :
  omap clean_item
    [("property_value", JStr "80 lakhs"); ("loan_purpose", JStr EmptyString);
     ("urgency", JNull); ("concerns", JList []); ("property_type", JStr "flat")]
    = [("property_value", JNum (_convert_indian_currency_to_number "80 lakhs"));
       ("property_type", JStr "flat")].
Proof. reflexivity. Qed.

(** The check for [interest] comes before the check for [not]: an answer
    in words that is not one of the six intents but names one is read by
    its first match. *)
Example classifier_answers :
  detect_intent
    (fun _ => Ok (Completion.mk [Choice.mk (Some " Objection ") "stop"]))
    ∅ "Too costly" [] = Ok (Intent.OBJECTION, (0.7 + 0.1)%Q)
  /\ detect_intent
       (fun _ => Ok (Completion.mk [Choice.mk (Some "They want to ask later") "length"]))
       ∅ "Hm" [] = Ok (Intent.ASKING_QUESTION, 0.7%Q)
  /\ detect_intent
       (fun _ => Ok (Completion.mk [Choice.mk (Some "unclear") "stop"]))
       ∅ "Hm" [] = Ok (Intent.NEEDS_MORE_INFO, (0.7 + 0.1)%Q)
  /\ detect_intent
       (fun _ => Ok (Completion.mk [Choice.mk (Some "Not interested at all") "stop"]))
       ∅ "No" [] = Ok (Intent.INTERESTED, (0.7 + 0.1)%Q)
  /\ detect_intent (fun _ => Ok (Completion.mk [])) ∅ "Hm" []
     = Ok (Intent.NEEDS_MORE_INFO, 0.5%Q).
Proof. repeat split; reflexivity. Qed.

(** ** The transition table *)

Lemma update_state_entry current_state intent next :
  table_entry current_state intent = Some next ->
  _update_state current_state intent = next.
Proof.
  unfold table_entry, _update_state.
  destruct (state_transitions !! current_state) as [transitions|]; simpl.
  - intros ->. reflexivity.
  - discriminate.
Qed.

(** The state [_update_state] returns is the current one or the one the
    table gives for the pair. *)
Lemma update_state_table_only current_state intent :
  _update_state current_state intent = current_state
  \/ table_entry current_state intent = Some (_update_state current_state intent).
Proof.
  unfold table_entry, _update_state.
  destruct (state_transitions !! current_state) as [transitions|]; simpl.
  - destruct (transitions !! intent); auto.
  - rewrite lookup_empty. auto.
Qed.

(** C4. A pair of a state and an intent that has no entry in the transition
    table, the state being a key of the table or not, leaves the state as
    it is. *)
Theorem update_state_no_entry current_state intent :
  table_entry current_state intent = None ->
  _update_state current_state intent = current_state.
Proof.
  unfold table_entry, _update_state.
  destruct (state_transitions !! current_state) as [transitions|]; simpl.
  - intros ->. reflexivity.
  - intros _. rewrite lookup_empty. reflexivity.
Qed.

Lemma update_state_no_entry_witness :
  (table_entry State.COMPLETED Intent.INTERESTED = None
   /\ _update_state State.COMPLETED Intent.INTERESTED = State.COMPLETED)
  /\ (table_entry "on_hold" Intent.OBJECTION = None
      /\ _update_state "on_hold" Intent.OBJECTION = "on_hold").
Proof.
  split; (split; [vm_compute; reflexivity | apply update_state_no_entry; vm_compute; reflexivity]).
Defined.

(** The row of [initial] has no entry for [objection] and none for
    [follow_up_later]: it is not a funnel row, and an objection leaves the
    conversation in [initial]. *)
Lemma initial_row_not_funnel :
  State.INITIAL ∈ non_terminal_states
  /\ ~ funnel_row State.INITIAL
  /\ _update_state State.INITIAL Intent.OBJECTION = State.INITIAL.
Proof.
  split; [|split].
  - apply list_elem_of_here.
  - intros (_ & H & _). vm_compute in H. discriminate.
  - vm_compute. reflexivity.
Qed.

(** C1, as amended. In each of the eight non-terminal states the table maps
    [interested] to a later stage (listed state by state) and
    [not_interested] to [not_interested]; it maps [objection] to
    [objection_handling] in all of them but [initial] and
    [follow_up_scheduling], and [follow_up_later] to [follow_up_scheduling]
    in all of them but [initial], [introduction] and [follow_up_scheduling];
    in those the pair has no entry. *)
Theorem transition_table_rows :
  map (fun s => table_entry s Intent.INTERESTED) non_terminal_states
    = map Some [State.INTRODUCTION; State.QUALIFYING; State.PROPERTY_DETAILS;
                State.LOAN_DETAILS; State.CLOSING; State.LOAN_DETAILS;
                State.COMPLETED; State.LOAN_DETAILS]
  /\ Forall (fun s => table_entry s Intent.NOT_INTERESTED = Some State.NOT_INTERESTED)
            non_terminal_states
  /\ Forall (fun s => table_entry s Intent.OBJECTION =
                      if in_list s [State.INITIAL; State.FOLLOW_UP_SCHEDULING]
                      then None else Some State.OBJECTION_HANDLING)
            non_terminal_states
  /\ Forall (fun s => table_entry s Intent.FOLLOW_UP_LATER =
                      if in_list s [State.INITIAL; State.INTRODUCTION;
                                    State.FOLLOW_UP_SCHEDULING]
                      then None else Some State.FOLLOW_UP_SCHEDULING)
            non_terminal_states.
Proof.
  split; [vm_compute; reflexivity|].
  repeat split; repeat constructor.
Qed.

(** ** The engine: classification, extraction, response *)

Section Engine_properties.

Variable create : Request.t -> exc Completion.t.
Variable prompts : gmap string string.
Variable json_loads : string -> exc json.
Variable json_dumps : Profile.t -> string.

Lemma intent_in_intents intent :
  in_list intent intents = true -> intent ∈ intents.
Proof. unfold in_list. apply bool_decide_eq_true_1. Qed.

(** [detect_intent] returns, and what it returns is one of the six
    intents. *)
Lemma detect_intent_returns message conversation_history :
  exists intent confidence,
    detect_intent create prompts message conversation_history
      = Ok (intent, confidence)
    /\ intent ∈ intents.
Proof.
  unfold detect_intent, first_content_stripped.
  destruct (create _) as [[choices]|e]; simpl;
    [|eexists _, _; split; [reflexivity | unfold intents; set_solver]].
  destruct choices as [|[content finish_reason] rest]; simpl;
    [eexists _, _; split; [reflexivity | unfold intents; set_solver]|].
  destruct content as [text|]; simpl;
    [|eexists _, _; split; [reflexivity | unfold intents; set_solver]].
  eexists _, _; split; [reflexivity|].
  destruct (in_list (lower (strip text)) _) eqn:Hin;
    [apply intent_in_intents, Hin|].
  repeat match goal with
         | |- context [if ?b then _ else _] => destruct b
         end; unfold intents; set_solver.
Qed.

(** When the classifier raises, the default is returned. *)
Lemma detect_intent_default message conversation_history e :
  create (intent_request prompts message conversation_history) = Raise e ->
  detect_intent create prompts message conversation_history
    = Ok (Intent.NEEDS_MORE_INFO, 0.5%Q).
Proof. unfold detect_intent. intros ->. reflexivity. Qed.

(** [extract_information] returns whatever the call and the decoder do. *)
Lemma extract_information_returns message current_profile :
  exists extracted_info,
    extract_information create prompts json_loads json_dumps message current_profile
      = Ok extracted_info.
Proof.
  unfold extract_information, first_content_stripped.
  destruct (create _) as [[choices]|e]; simpl; [|eauto].
  destruct choices as [|[content finish_reason] rest]; simpl; [eauto|].
  destruct content as [text|]; simpl; [|eauto].
  destruct (json_loads _) as [v|e]; simpl.
  - destruct v; simpl; eauto.
  - destruct (exn_kind e); simpl; eauto.
Qed.

(** The intent of a response is the one [detect_intent] returned. *)
Lemma generate_response_intent message customer_profile conversation_history
    response :
  generate_response create prompts json_loads json_dumps
    message customer_profile conversation_history = Ok response ->
  exists confidence,
    detect_intent create prompts message conversation_history
      = Ok (Response.intent response, confidence).
Proof.
  unfold generate_response.
  destruct (detect_intent _ _ _ _) as [[intent confidence]|e];
    cbn [exc_bind]; [|discriminate].
  destruct (extract_information _ _ _ _ _ _) as [extracted_info|e];
    cbn [exc_bind]; [|discriminate].
  unfold first_content_stripped.
  destruct (create (reply_request _ _ _ _ _ _)) as [[choices]|e]; simpl;
    [|intros [= <-]; eauto].
  destruct choices as [|[content finish_reason] rest]; simpl;
    [intros [= <-]; eauto|].
  destruct content as [text|]; simpl; intros [= <-]; eauto.
Qed.

Lemma fallback_flag (msg : string) :
  dict_of [("error", JStr msg); ("fallback", JBool true)] !! "fallback"
    = Some (JBool true).
Proof. unfold dict_of. simpl. apply lookup_insert_eq. Qed.

(** C10. What [detect_intent] returns is one of the six intents, whatever
    the classifier answers and also when it raises; so the intent that
    [generate_response] looks up in the transition table, and returns, is
    one of the six. *)
Theorem detect_intent_in_intents message conversation_history :
  (exists intent confidence,
      detect_intent create prompts message conversation_history
        = Ok (intent, confidence)
      /\ intent ∈ intents)
  /\ (forall customer_profile, exists response,
        generate_response create prompts json_loads json_dumps
          message customer_profile conversation_history = Ok response
        /\ Response.intent response ∈ intents
        /\ (Response.state response
              = _update_state (Response.previous_state response)
                              (Response.intent response)
            \/ Response.state response = Response.previous_state response)).
Proof.
  split; [apply detect_intent_returns|].
  intros customer_profile. unfold generate_response.
  destruct (detect_intent_returns message conversation_history)
    as (intent & confidence & -> & Hin).
  destruct (extract_information_returns message customer_profile)
    as (extracted_info & ->).
  simpl. unfold first_content_stripped.
  destruct (create (reply_request _ _ _ _ _ _)) as [[choices]|e]; simpl; [|eauto 6].
  destruct choices as [|[content finish_reason] rest]; simpl; [eauto 6|].
  destruct content as [text|]; simpl; eauto 6.
Qed.

(** C5. When the classification call raises, [detect_intent] returns
    [needs_more_info] with confidence 0.5, and [generate_response] goes
    through the rest of its steps and returns a full response: it carries
    that intent and that confidence, the state the customer was in as the
    previous state, and then either the reply that was generated, the
    state the table gives for [needs_more_info], the information
    [extract_information] returned, and the audio flag, follow-up date and
    analysis computed from them, or, when the reply call fails too, the
    fallback response. *)
Theorem classifier_failure_degrades message customer_profile
    conversation_history e :
  let current_state :=
    default State.INITIAL (Profile.conversation_state customer_profile) in
  let new_state := _update_state current_state Intent.NEEDS_MORE_INFO in
  let reply :=
    let* response :=
      create (reply_request prompts json_dumps message customer_profile
                conversation_history new_state) in
    first_content_stripped response in
  create (intent_request prompts message conversation_history) = Raise e ->
  detect_intent create prompts message conversation_history
    = Ok (Intent.NEEDS_MORE_INFO, 0.5%Q)
  /\ exists extracted_info response,
      extract_information create prompts json_loads json_dumps
        message customer_profile = Ok extracted_info
      /\ generate_response create prompts json_loads json_dumps
           message customer_profile conversation_history = Ok response
      /\ Response.intent response = Intent.NEEDS_MORE_INFO
      /\ Response.confidence response = 0.5%Q
      /\ Response.previous_state response = current_state
      /\ ((exists response_text,
              reply = Ok response_text
              /\ Response.text response = response_text
              /\ Response.state response = new_state
              /\ Response.extracted_info response = extracted_info
              /\ Response.should_generate_audio response
                 = _should_generate_audio response_text new_state
              /\ Response.follow_up_date response
                 = _calculate_follow_up_date Intent.NEEDS_MORE_INFO new_state
              /\ Response.analysis response
                 = dict_of [
                     ("message_length", JNum (inject_Z (len message)));
                     ("response_length", JNum (inject_Z (len response_text)));
                     ("state_changed",
                      JBool (negb (String.eqb new_state current_state))) ])
          \/ (exists e',
                reply = Raise e'
                /\ Response.text response = apology_text
                /\ Response.state response = current_state
                /\ Response.extracted_info response = []
                /\ Response.should_generate_audio response = false
                /\ Response.follow_up_date response = None
                /\ Response.analysis response
                   = dict_of [("error", JStr (exn_msg e'));
                              ("fallback", JBool true)])).
Proof.
  intros current_state new_state reply Hraise.
  split; [eapply detect_intent_default, Hraise|].
  destruct (extract_information_returns message customer_profile)
    as (extracted_info & Hinfo).
  exists extracted_info.
  unfold generate_response.
  rewrite (detect_intent_default _ _ _ Hraise). cbn [exc_bind].
  rewrite Hinfo. cbn [exc_bind].
  fold current_state. fold new_state.
  subst reply. unfold first_content_stripped.
  destruct (create (reply_request _ _ _ _ _ new_state)) as [[choices]|e'];
    cbn [exc_bind try_except Completion.choices].
  - destruct choices as [|[content finish_reason] rest];
      cbn [item0 exc_bind try_except Choice.content].
    + eexists. split_and!; try reflexivity.
      right. eexists. split_and!; reflexivity.
    + destruct content as [text|]; cbn [content_strip exc_bind try_except].
      * eexists. split_and!; try reflexivity.
        left. eexists. split_and!; reflexivity.
      * eexists. split_and!; try reflexivity.
        right. eexists. split_and!; reflexivity.
  - eexists. split_and!; try reflexivity.
    right. eexists. split_and!; reflexivity.
Qed.

(** C6. When the reply-generation call raises, the response carries the
    apology, the state the customer was in (not the state computed from
    the intent), and [fallback] set in its analysis. *)
Theorem generation_failure_falls_back message customer_profile
    conversation_history intent confidence e :
  let current_state :=
    default State.INITIAL (Profile.conversation_state customer_profile) in
  detect_intent create prompts message conversation_history
    = Ok (intent, confidence) ->
  create (reply_request prompts json_dumps message customer_profile
            conversation_history (_update_state current_state intent))
    = Raise e ->
  exists response,
    generate_response create prompts json_loads json_dumps
      message customer_profile conversation_history = Ok response
    /\ Response.text response = apology_text
    /\ Response.state response = current_state
    /\ Response.analysis response !! "fallback" = Some (JBool true).
Proof.
  intros current_state Hintent Hraise. unfold generate_response.
  rewrite Hintent.
  destruct (extract_information_returns message customer_profile)
    as (extracted_info & ->).
  simpl. fold current_state. rewrite Hraise. simpl.
  eexists. split; [reflexivity|]. simpl.
  split; [reflexivity|]. split; [reflexivity|]. apply fallback_flag.
Qed.

End Engine_properties.


Lemma classifier_failure_degrades_witness :
  detect_intent classifier_failing_client ∅ "How much can I borrow?" []
    = Ok (Intent.NEEDS_MORE_INFO, 0.5%Q)
  /\ exists response,
      generate_response classifier_failing_client ∅ no_json (fun _ => "{}")
        "How much can I borrow?" sample_profile [] = Ok response
      /\ Response.intent response = Intent.NEEDS_MORE_INFO
      /\ Response.confidence response = 0.5%Q
      /\ Response.previous_state response = State.QUALIFYING
      /\ Response.state response = State.QUALIFYING
      /\ Response.text response = "Could you tell me the value of the property?"
      /\ Response.extracted_info response = [].
Proof.
  destruct (classifier_failure_degrades classifier_failing_client ∅ no_json
              (fun _ => "{}") "How much can I borrow?" sample_profile []
              (Exn OtherException "Request timed out.") eq_refl)
    as (Hintent & extracted_info & response & Hinfo & Hrun & Hi & Hc & Hp & Hcase).
  split; [exact Hintent|].
  exists response. split; [exact Hrun|]. split; [exact Hi|].
  split; [exact Hc|]. split; [exact Hp|].
  destruct Hcase as [(response_text & Hreply & Htext & Hstate & Hextracted & _)
                    |(e' & Hreply & _)]; [|discriminate Hreply].
  injection Hreply as <-. injection Hinfo as <-.
  split; [exact Hstate|]. split; [exact Htext|exact Hextracted].
Defined.

Lemma generation_failure_falls_back_witness :
  exists response,
    generate_response reply_failing_client ∅ no_json (fun _ => "{}")
      "Yes, tell me more" sample_profile [] = Ok response
    /\ Response.text response = apology_text
    /\ Response.state response = State.QUALIFYING
    /\ Response.analysis response !! "fallback" = Some (JBool true).
Proof.
  apply (generation_failure_falls_back reply_failing_client ∅ no_json
           (fun _ => "{}") "Yes, tell me more" sample_profile []
           Intent.INTERESTED (0.7 + 0.1)%Q
           (Exn OtherException "Request timed out.")).
  - reflexivity.
  - reflexivity.
Defined.

(** ** Currency normalisation *)


(** The search finds the number at the leftmost digit. *)
Lemma re_search_number_leftmost pre d rest :
  has_digit pre = false -> is_digit d = true ->
  re_search_number (pre +:+ String d rest) = Some (number_at (String d rest)).
Proof.
  intros Hpre Hd. induction pre as [|c pre IH]; simpl in *.
  - rewrite Hd. reflexivity.
  - destruct (is_digit c); simpl in *; [discriminate | auto].
Qed.





Lemma append_cons c a b : String c a +:+ b = String c (a +:+ b).
Proof. reflexivity. Qed.

Lemma append_nil_l s : EmptyString +:+ s = s.
Proof. reflexivity. Qed.







Lemma append_assoc a b c : (a +:+ b) +:+ c = a +:+ (b +:+ c).
Proof.
  induction a as [|x a IH]; [reflexivity|].
  rewrite !append_cons. f_equal. exact IH.
Qed.









(** ** The profile merge *)

Lemma Qle_bool_false a b : Qle_bool a b = false -> (b < a)%Q.
Proof.
  intros Hle. apply Qnot_le_lt. intros H.
  apply Qle_bool_iff in H. congruence.
Qed.

Lemma py_min_Qmin a b : (py_min a b == Qmin a b)%Q.
Proof.
  unfold py_min. destruct (Qle_bool a b) eqn:Hle.
  - symmetry. apply Q.min_l, Qle_bool_iff, Hle.
  - symmetry. apply Q.min_r, Qlt_le_weak, Qle_bool_false, Hle.
Qed.

Lemma py_max_Qmax a b : (py_max a b == Qmax a b)%Q.
Proof.
  unfold py_max. destruct (Qle_bool b a) eqn:Hle.
  - symmetry. apply Q.max_l, Qle_bool_iff, Hle.
  - symmetry. apply Q.max_r, Qlt_le_weak, Qle_bool_false, Hle.
Qed.

Lemma eqb_decide (a b : string) :
  String.eqb a b = bool_decide (a = b).
Proof.
  destruct (String.eqb_spec a b) as [->|Hne].
  - symmetry. apply bool_decide_eq_true_2. reflexivity.
  - symmetry. apply bool_decide_eq_false_2. exact Hne.
Qed.

(** The code applies the deltas as they are stated. *)
Lemma update_interest_level_stated intent x :
  (update_interest_level intent x == stated_interest_level intent x)%Q.
Proof.
  unfold update_interest_level, stated_interest_level.
  rewrite !eqb_decide. unfold Intent.INTERESTED, Intent.NEEDS_MORE_INFO,
    Intent.OBJECTION, Intent.NOT_INTERESTED.
  repeat case_bool_decide; repeat case_decide; try congruence;
    try apply py_min_Qmin; try apply py_max_Qmax; reflexivity.
Qed.

Lemma update_interest_level_range intent x :
  (0 <= x <= 1 -> 0 <= update_interest_level intent x <= 1)%Q.
Proof.
  intros Hx. unfold update_interest_level, py_min, py_max.
  repeat match goal with
         | |- context [if ?b then _ else _] => destruct b eqn:?
         end;
  repeat match goal with
         | H : Qle_bool _ _ = true |- _ => apply Qle_bool_iff in H
         | H : Qle_bool _ _ = false |- _ => apply Qle_bool_false in H
         end; lra.
Qed.

Lemma update_customer_profile_interest customer extracted_info intent state saved :
  update_customer_profile customer extracted_info intent state = Ok saved ->
  Customer.interest_level saved
    = update_interest_level intent (Customer.interest_level customer).
Proof.
  unfold update_customer_profile.
  destruct (for_each _ _ _) as [m|e]; simpl; [|discriminate].
  intros [= <-]. reflexivity.
Qed.

(** *** One item of the loop *)

Lemma routed_key_other key :
  in_list key property_keys = true \/ in_list key loan_keys = true ->
  String.eqb key "name" = false /\ String.eqb key "concerns" = false.
Proof.
  unfold in_list, property_keys, loan_keys.
  intros [H|H]; apply bool_decide_eq_true_1 in H;
    repeat (apply elem_of_cons in H as [->|H]; [split; reflexivity|]);
    apply elem_of_nil in H; destruct H.
Qed.

Lemma property_key_not_loan key :
  in_list key property_keys = true -> in_list key loan_keys = false.
Proof.
  unfold in_list, property_keys. intros H. apply bool_decide_eq_true_1 in H.
  repeat (apply elem_of_cons in H as [->|H]; [reflexivity|]).
  apply elem_of_nil in H. destruct H.
Qed.

Lemma eqb_name_not_concerns key :
  String.eqb key "name" = true -> String.eqb key "concerns" = false.
Proof. intros H. apply String.eqb_eq in H. subst. reflexivity. Qed.

(** What one item does to each part of the merge, when it does not raise. *)
Lemma merge_item_spec m key value m' :
  merge_item m (key, value) = Ok m' ->
  Merge.property_details m'
    = (if in_list key property_keys
       then <[key := value]> (Merge.property_details m)
       else Merge.property_details m)
  /\ Merge.name m'
    = (if String.eqb key "name" && is_none (Merge.name m)
       then value else Merge.name m)
  /\ (forall k, k <> "concerns" ->
        Merge.loan_requirements m' !! k
          = if in_list key loan_keys && String.eqb key k
            then Some value else Merge.loan_requirements m !! k)
  /\ Merge.loan_requirements m' !! "concerns"
    = if String.eqb key "concerns"
      then Some (JList (stored_list (Merge.loan_requirements m !! "concerns")
                        ++ concerns_of value))
      else Merge.loan_requirements m !! "concerns".
Proof.
  destruct m as [pd lr name]. unfold merge_item.
  fold property_keys. fold loan_keys.
  destruct (in_list key property_keys) eqn:Hpk.
  { destruct (routed_key_other key (or_introl Hpk)) as [Hn Hc].
    rewrite (property_key_not_loan _ Hpk), Hn, Hc.
    intros [= <-]. simpl. repeat split; auto. }
  destruct (in_list key loan_keys) eqn:Hlk.
  { destruct (routed_key_other key (or_intror Hlk)) as [Hn Hc].
    rewrite Hn, Hc. intros [= <-]. simpl. repeat split.
    - intros k Hk. destruct (String.eqb_spec key k) as [->|Hne].
      + apply lookup_insert_eq.
      + apply lookup_insert_ne, Hne.
    - apply lookup_insert_ne. intros ->. discriminate Hc. }
  destruct (String.eqb key "name" && is_none name) eqn:Hname.
  { destruct (andb_prop _ _ Hname) as [Hn _].
    rewrite (eqb_name_not_concerns _ Hn).
    intros [= <-]. simpl. rewrite Hname. repeat split; auto. }
  destruct (String.eqb key "concerns") eqn:Hc;
    [|intros [= <-]; simpl; rewrite Hname; repeat split; auto].
  destruct (lr !! "concerns") as [stored|] eqn:Hstored.
  - rewrite Hstored. destruct stored; try discriminate.
    intros [= <-]. simpl. rewrite Hname, Hstored. repeat split.
    + intros k Hk. apply lookup_insert_ne. congruence.
    + apply lookup_insert_eq.
  - rewrite lookup_insert_eq. intros [= <-]. simpl. rewrite Hname, Hstored.
    repeat split.
    + intros k Hk. rewrite !lookup_insert_ne by congruence. reflexivity.
    + apply lookup_insert_eq.
Qed.

(** An item raises only when it carries concerns and the stored entry is
    not a list. *)
Lemma merge_item_returns m key value :
  String.eqb key "concerns" = false \/ concerns_is_list (Merge.loan_requirements m) ->
  exists m', merge_item m (key, value) = Ok m'.
Proof.
  destruct m as [pd lr name]. unfold merge_item, concerns_is_list. simpl.
  intros Hok.
  destruct (in_list key _); [eauto|].
  destruct (in_list key _); [eauto|].
  destruct (String.eqb key "name" && is_none name); [eauto|].
  destruct (String.eqb key "concerns") eqn:Hc; [|eauto].
  destruct Hok as [|Hlist]; [discriminate|].
  destruct (lr !! "concerns") as [stored|] eqn:Hstored.
  - rewrite Hstored. destruct stored; try destruct Hlist. eauto.
  - rewrite lookup_insert_eq. eauto.
Qed.

(** *** The whole loop *)

Lemma added_concerns_none items :
  has_concerns items = false -> added_concerns items = [].
Proof.
  induction items as [|[key value] rest IH]; simpl; [reflexivity|].
  destruct (String.eqb key "concerns"); simpl; [discriminate|exact IH].
Qed.

Lemma for_each_merge_spec items : forall m m',
  for_each merge_item items m = Ok m' ->
  (forall k, Merge.property_details m' !! k
             = match last_value property_keys k items with
               | Some v => Some v
               | None => Merge.property_details m !! k
               end)
  /\ Merge.name m' = merged_name items (Merge.name m)
  /\ (forall k, k <> "concerns" ->
        Merge.loan_requirements m' !! k
          = match last_value loan_keys k items with
            | Some v => Some v
            | None => Merge.loan_requirements m !! k
            end)
  /\ Merge.loan_requirements m' !! "concerns"
     = if has_concerns items
       then Some (JList (stored_list (Merge.loan_requirements m !! "concerns")
                         ++ added_concerns items))
       else Merge.loan_requirements m !! "concerns".
Proof.
  induction items as [|[key value] rest IH]; intros m m'; cbn [for_each].
  - intros [= <-]. repeat split; auto.
  - destruct (merge_item m (key, value)) as [m1|e] eqn:Hitem;
      cbn [exc_bind]; [|discriminate].
    intros Hrest. simpl.
    destruct (merge_item_spec _ _ _ _ Hitem) as (Hpd1 & Hname1 & Hlr1 & Hc1).
    destruct (IH _ _ Hrest) as (Hpd & Hname & Hlr & Hc).
    split; [|split; [|split]].
    + intros k. rewrite Hpd, Hpd1.
      destruct (last_value property_keys k rest); [reflexivity|].
      destruct (in_list key property_keys); simpl; [|reflexivity].
      destruct (String.eqb_spec key k) as [->|Hne].
      * apply lookup_insert_eq.
      * apply lookup_insert_ne, Hne.
    + rewrite Hname, Hname1. reflexivity.
    + intros k Hk. rewrite (Hlr k Hk), (Hlr1 k Hk).
      destruct (last_value loan_keys k rest); [reflexivity|].
      destruct (in_list key loan_keys && String.eqb key k); reflexivity.
    + rewrite Hc, Hc1.
      destruct (String.eqb key "concerns");
        destruct (has_concerns rest) eqn:Hhas; simpl; try reflexivity.
      * rewrite <- app_assoc. reflexivity.
      * rewrite (added_concerns_none _ Hhas), app_nil_r. reflexivity.
Qed.

Lemma for_each_merge_returns items : forall m,
  has_concerns items = false \/ concerns_is_list (Merge.loan_requirements m) ->
  exists m', for_each merge_item items m = Ok m'.
Proof.
  induction items as [|[key value] rest IH]; intros m Hok; cbn [for_each].
  - eauto.
  - assert (Hitem : exists m1, merge_item m (key, value) = Ok m1).
    { apply merge_item_returns. destruct Hok as [Hnone|Hlist]; [left|right; exact Hlist].
      simpl in Hnone. apply orb_false_elim in Hnone as [Hkey _]. exact Hkey. }
    destruct Hitem as [m1 Hitem]. rewrite Hitem. cbn [exc_bind].
    apply IH. destruct Hok as [Hnone|Hlist].
    + left. simpl in Hnone. apply orb_false_elim in Hnone as [_ Hrest]. exact Hrest.
    + right. unfold concerns_is_list in *.
      destruct (merge_item_spec _ _ _ _ Hitem) as (_ & _ & _ & Hc1).
      rewrite Hc1. destruct (String.eqb key "concerns"); [exact I | exact Hlist].
Qed.

Lemma is_none_null v : is_none v = true -> v = JNull.
Proof. destruct v; simpl; congruence. Qed.

Lemma merged_name_kept items : forall name,
  is_none name = false -> merged_name items name = name.
Proof.
  induction items as [|[key value] rest IH]; intros name Hname; simpl.
  - reflexivity.
  - rewrite Hname, andb_false_r. apply IH, Hname.
Qed.

Lemma merged_name_idempotent items name :
  merged_name items (merged_name items name) = merged_name items name.
Proof.
  destruct (is_none (merged_name items name)) eqn:Hafter.
  - destruct (is_none name) eqn:Hbefore.
    + apply is_none_null in Hafter, Hbefore. rewrite Hafter.
      rewrite <- Hbefore at 1. exact Hafter.
    + rewrite (merged_name_kept _ _ Hbefore). apply merged_name_kept, Hbefore.
  - apply merged_name_kept, Hafter.
Qed.

(** The merge returns when no item carries concerns or the stored concerns
    are a list. *)
Lemma update_customer_profile_returns customer extracted_info intent state :
  has_concerns extracted_info = false
  \/ concerns_is_list (Customer.loan_requirements customer) ->
  exists saved,
    update_customer_profile customer extracted_info intent state = Ok saved.
Proof.
  intros Hok. unfold update_customer_profile.
  destruct (for_each_merge_returns extracted_info
              (Merge.mk (Customer.property_details customer)
                        (Customer.loan_requirements customer)
                        (Customer.name customer)) Hok) as [m ->].
  simpl. eauto.
Qed.

(** One merge with the intent [objection] takes the interest level of that
    customer to 4.9, which is above 1. *)
Lemma interest_level_above_one :
  exists saved,
    update_customer_profile keen_customer [] Intent.OBJECTION
      State.OBJECTION_HANDLING = Ok saved
    /\ (Customer.interest_level saved == 4.9)%Q
    /\ ~ (0 <= Customer.interest_level saved <= 1)%Q.
Proof.
  eexists. split; [reflexivity|]. split.
  - reflexivity.
  - simpl. intros [_ H]. vm_compute in H. apply H. reflexivity.
Qed.

(** C2, as amended. One application of the merge sets the interest level to
    the stated delta with its clamp, whatever the level was; when the level
    was in [0,1] the new level is in [0,1]. The merge returns whenever the
    extracted information carries no concerns or the stored concerns, if
    any, are a list. *)
Theorem interest_level_update customer extracted_info intent state :
  has_concerns extracted_info = false
  \/ concerns_is_list (Customer.loan_requirements customer) ->
  exists saved,
    update_customer_profile customer extracted_info intent state = Ok saved
    /\ (Customer.interest_level saved
        == stated_interest_level intent (Customer.interest_level customer))%Q
    /\ ((0 <= Customer.interest_level customer <= 1)%Q ->
        (0 <= Customer.interest_level saved <= 1)%Q).
Proof.
  intros Hok.
  destruct (update_customer_profile_returns customer extracted_info intent state
              Hok) as [saved Hsaved].
  exists saved. split; [exact Hsaved|].
  rewrite (update_customer_profile_interest _ _ _ _ _ Hsaved).
  split; [apply update_interest_level_stated|apply update_interest_level_range].
Qed.

Lemma interest_level_update_witness :
  exists saved,
    update_customer_profile (new_customer 1 "919000000001")
      [("property_type", JStr "flat"); ("concerns", JStr "interest rate")]
      Intent.INTERESTED State.INTRODUCTION = Ok saved
    /\ (Customer.interest_level saved
        == stated_interest_level Intent.INTERESTED 0.0)%Q
    /\ ((0 <= 0.0 <= 1)%Q -> (0 <= Customer.interest_level saved <= 1)%Q).
Proof.
  apply (interest_level_update (new_customer 1 "919000000001")
           [("property_type", JStr "flat"); ("concerns", JStr "interest rate")]
           Intent.INTERESTED State.INTRODUCTION).
  right. exact I.
Defined.

(** *** Applying the merge twice *)

(** Merging the intent [interested] twice into a new customer raises the
    interest level twice: the record after the second merge differs from
    the record after the first in more than its concerns. *)
Lemma second_merge_moves_interest_level :
  exists once twice,
    update_customer_profile (new_customer 1 "919000000001") []
      Intent.INTERESTED State.INTRODUCTION = Ok once
    /\ update_customer_profile once [] Intent.INTERESTED State.INTRODUCTION
       = Ok twice
    /\ (Customer.interest_level once == 0.2)%Q
    /\ (Customer.interest_level twice == 0.4)%Q
    /\ ~ same_but_concerns once twice.
Proof.
  eexists _, _. split; [reflexivity|]. split; [reflexivity|].
  split; [reflexivity|]. split; [reflexivity|].
  intros (_ & _ & _ & _ & _ & _ & _ & H & _). vm_compute in H. discriminate H.
Qed.

(** C3, as amended. A second application of the merge with the same
    arguments returns, and leaves every field as the first application set
    it but two: the stored concerns, to which the concerns of the extracted
    information are appended once more, and the interest level, which
    receives the delta of the intent once more. *)
Theorem merge_twice customer extracted_info intent state once :
  update_customer_profile customer extracted_info intent state = Ok once ->
  exists twice,
    update_customer_profile once extracted_info intent state = Ok twice
    /\ Customer.id twice = Customer.id once
    /\ Customer.phone_number twice = Customer.phone_number once
    /\ Customer.name twice = Customer.name once
    /\ Customer.preferred_language twice = Customer.preferred_language once
    /\ Customer.property_details twice = Customer.property_details once
    /\ (forall key, key <> "concerns" ->
          Customer.loan_requirements twice !! key
            = Customer.loan_requirements once !! key)
    /\ Customer.conversation_state twice = Customer.conversation_state once
    /\ Customer.do_not_contact twice = Customer.do_not_contact once
    /\ Customer.loan_requirements twice !! "concerns"
       = match Customer.loan_requirements once !! "concerns" with
         | Some (JList concerns) =>
             Some (JList (concerns ++ added_concerns extracted_info))
         | other => other
         end
    /\ Customer.interest_level twice
       = update_interest_level intent (Customer.interest_level once).
Proof.
  unfold update_customer_profile at 1.
  destruct (for_each _ _ _) as [m1|e] eqn:Hfirst; cbn [exc_bind]; [|discriminate].
  intros [= <-].
  destruct (for_each_merge_spec _ _ _ Hfirst) as (Hpd1 & Hname1 & Hlr1 & Hc1).
  simpl in Hpd1, Hname1, Hlr1, Hc1.
  unfold update_customer_profile; simpl.
  destruct (for_each_merge_returns extracted_info
              (Merge.mk (Merge.property_details m1) (Merge.loan_requirements m1)
                        (Merge.name m1))) as [m2 Hsecond].
  { simpl. destruct (has_concerns extracted_info); [right|left; reflexivity].
    unfold concerns_is_list. rewrite Hc1. exact I. }
  rewrite Hsecond. cbn [exc_bind].
  destruct (for_each_merge_spec _ _ _ Hsecond) as (Hpd2 & Hname2 & Hlr2 & Hc2).
  simpl in Hpd2, Hname2, Hlr2, Hc2.
  eexists. split; [reflexivity|]. simpl.
  repeat split.
  - rewrite Hname2, Hname1. apply merged_name_idempotent.
  - apply map_eq. intros k. rewrite Hpd2, Hpd1.
    destruct (last_value property_keys k extracted_info); reflexivity.
  - intros key Hkey. rewrite (Hlr2 key Hkey), (Hlr1 key Hkey).
    destruct (last_value loan_keys key extracted_info); reflexivity.
  - destruct (items_get "do_not_contact" extracted_info) as [v|]; [|reflexivity].
    destruct (truthy v); reflexivity.
  - rewrite Hc2. destruct (has_concerns extracted_info) eqn:Hhas.
    + rewrite Hc1. reflexivity.
    + rewrite (added_concerns_none _ Hhas).
      destruct (Merge.loan_requirements m1 !! "concerns") as [[]|];
        try reflexivity.
      rewrite app_nil_r. reflexivity.
Qed.

Lemma merge_twice_witness :
  exists twice,
    update_customer_profile
      (Customer.mk 1 "919000000001" (JStr "Ravi") "english"
         {["property_type" := JStr "flat"]}
         {["concerns" := JList [JStr "interest rate"]]}
         State.INTRODUCTION (0.0 + 0.2) false)
      [("name", JStr "Ravi"); ("property_type", JStr "flat");
       ("concerns", JStr "interest rate")]
      Intent.INTERESTED State.INTRODUCTION = Ok twice
    /\ Customer.loan_requirements twice !! "concerns"
       = Some (JList [JStr "interest rate"; JStr "interest rate"]).
Proof.
  destruct (merge_twice (new_customer 1 "919000000001")
              [("name", JStr "Ravi"); ("property_type", JStr "flat");
               ("concerns", JStr "interest rate")]
              Intent.INTERESTED State.INTRODUCTION
              (Customer.mk 1 "919000000001" (JStr "Ravi") "english"
                 {["property_type" := JStr "flat"]}
                 {["concerns" := JList [JStr "interest rate"]]}
                 State.INTRODUCTION (0.0 + 0.2) false))
    as (twice & Htwice & _ & _ & _ & _ & _ & _ & _ & _ & Hconcerns & _).
  - reflexivity.
  - exists twice. split; [exact Htwice|]. rewrite Hconcerns. reflexivity.
Defined.

(** ** The messaging client *)

(** A call of [send_template] posts its template payload or nothing. *)
Lemma send_template_once_sent recipient_phone template_name template_params
    env out env' :
  send_template_once recipient_phone template_name template_params env
    = (out, env') ->
  exists attempts,
    World.sent env'.2
    = World.sent env.2
      ++ replicate attempts
           (template_payload recipient_phone template_name template_params).
Proof.
  destruct env as [client world].
  unfold send_template_once, _check_rate_limit, io_bind. simpl.
  destruct (_ <? _)%Z; simpl.
  - destruct (World.post world _ _) as [result|e]; simpl;
      intros [= <- <-]; exists 1%nat; reflexivity.
  - intros [= <- <-]. exists 0%nat. simpl. rewrite app_nil_r. reflexivity.
Qed.

Lemma send_template_sent recipient_phone template_name template_params
    retries : forall env out env',
  on_exception retries
    (send_template_once recipient_phone template_name template_params) env
    = (out, env') ->
  exists attempts,
    World.sent env'.2
    = World.sent env.2
      ++ replicate attempts
           (template_payload recipient_phone template_name template_params).
Proof.
  induction retries as [|retries IH]; intros env out env'; simpl;
    destruct (send_template_once _ _ _ env) as [[result|e] env1] eqn:Hcall;
    try (intros [= <- <-]; eapply send_template_once_sent, Hcall).
  destruct (is_request_exception e);
    [|intros [= <- <-]; eapply send_template_once_sent, Hcall].
  intros Hretry.
  destruct (send_template_once_sent _ _ _ _ _ _ Hcall) as [k1 Hk1].
  destruct (IH _ _ _ Hretry) as [k2 Hk2].
  exists (k1 + k2)%nat. rewrite Hk2, Hk1, replicate_add, app_assoc. reflexivity.
Qed.

(** C8. When the rate limit of the recipient is not exceeded and the
    conversation window has expired, a call of [send_text] is the call of
    [send_template] with the template [loan_follow_up] and the text as its
    parameter: whatever the call does, it posts nothing but the template
    payload that carries the text, and what [send_template] returns,
    [send_text] returns. *)
Theorem send_text_expired_window client world recipient_phone text :
  under_rate_limit client world recipient_phone ->
  window_expired client world recipient_phone ->
  send_text_once recipient_phone text (client, world)
    = send_template recipient_phone "loan_follow_up" [("default_text", text)]
        (client, after_checks world)
  /\ (forall out env',
        send_text_once recipient_phone text (client, world) = (out, env') ->
        exists attempts,
          World.sent env'.2
          = World.sent world
            ++ replicate attempts
                 (template_payload recipient_phone "loan_follow_up"
                    [("default_text", text)]))
  /\ (forall result env',
        send_template recipient_phone "loan_follow_up" [("default_text", text)]
          (client, after_checks world) = (Ok result, env') ->
        send_text recipient_phone text (client, world) = (Ok result, env')).
Proof.
  intros Hrate Hwindow.
  assert (Honce :
    send_text_once recipient_phone text (client, world)
    = send_template recipient_phone "loan_follow_up" [("default_text", text)]
        (client, after_checks world)).
  { unfold send_text_once, _check_rate_limit, _check_conversation_window,
      io_bind. simpl.
    apply Z.ltb_lt in Hrate. rewrite Hrate. simpl.
    unfold Qlt_bool. apply Qle_bool_iff in Hwindow. rewrite Hwindow. simpl.
    reflexivity. }
  split; [exact Honce|]. split.
  - intros out env'. rewrite Honce. intros Htemplate.
    apply (send_template_sent _ _ _ _ _ _ _ Htemplate).
  - intros result env' Htemplate.
    unfold send_text. simpl. rewrite Honce, Htemplate. reflexivity.
Qed.

Lemma send_text_expired_window_witness :
  exists result env',
    send_text "919000000001" "Shall we continue?" (Client.init, quiet_world)
      = (Ok result, env')
    /\ World.sent env'.2
       = [template_payload "919000000001" "loan_follow_up"
            [("default_text", "Shall we continue?")]].
Proof.
  destruct (send_text_expired_window Client.init quiet_world "919000000001"
              "Shall we continue?") as (_ & _ & Hreturns).
  - reflexivity.
  - apply Qle_bool_iff. reflexivity.
  - eexists _, _. split.
    + apply Hreturns. reflexivity.
    + reflexivity.
Defined.

(** *** Retries *)

(** A call of [send_template] that raises leaves the client and the clock
    as they were. *)
Lemma send_template_once_raise recipient_phone template_name template_params
    env e env' :
  send_template_once recipient_phone template_name template_params env
    = (Raise e, env') ->
  env'.1 = env.1 /\ World.time_time env'.2 = World.time_time env.2.
Proof.
  destruct env as [client world].
  unfold send_template_once, _check_rate_limit, io_bind. simpl.
  destruct (_ <? _)%Z; simpl; [|discriminate].
  destruct (World.post world _ _) as [result|e0]; simpl; [discriminate|].
  intros [= <- <-]. simpl. auto.
Qed.

Lemma send_template_raise recipient_phone template_name template_params
    retries : forall env e env',
  on_exception retries
    (send_template_once recipient_phone template_name template_params) env
    = (Raise e, env') ->
  env'.1 = env.1 /\ World.time_time env'.2 = World.time_time env.2.
Proof.
  induction retries as [|retries IH]; intros env e env'; simpl;
    destruct (send_template_once _ _ _ env) as [[result|e0] env1] eqn:Hcall;
    try discriminate;
    try (intros [= <- <-]; eapply send_template_once_raise, Hcall).
  destruct (send_template_once_raise _ _ _ _ _ _ Hcall) as [Hclient Hclock].
  destruct (is_request_exception e0).
  - intros Hretry. destruct (IH _ _ _ Hretry) as [Hclient' Hclock'].
    split; congruence.
  - intros [= <- <-]. auto.
Qed.

(** While the window stays expired, a call of [send_text] posts template
    payloads only, and when it raises it leaves the client and the clock as
    they were. *)
Lemma send_text_once_templates recipient_phone text client world out env' :
  window_stays_expired client world recipient_phone ->
  send_text_once recipient_phone text (client, world) = (out, env') ->
  (exists attempts,
      World.sent env'.2
      = World.sent world
        ++ replicate attempts
             (template_payload recipient_phone "loan_follow_up"
                [("default_text", text)]))
  /\ (forall e, out = Raise e ->
        env'.1 = client /\ World.time_time env'.2 = World.time_time world).
Proof.
  intros Hexpired.
  unfold send_text_once, _check_rate_limit, _check_conversation_window,
    io_bind. simpl.
  destruct (_ <? _)%Z; simpl.
  - unfold Qlt_bool.
    pose proof (Hexpired (World.clock_reads world)) as Hnow.
    apply Qle_bool_iff in Hnow. rewrite Hnow. simpl.
    intros Htemplate. split.
    + apply (send_template_sent _ _ _ _ _ _ _ Htemplate).
    + intros e ->. apply (send_template_raise _ _ _ _ _ _ _ Htemplate).
  - intros [= <- <-]. split.
    + exists 0%nat. simpl. rewrite app_nil_r. reflexivity.
    + discriminate.
Qed.

(** While the window stays expired, [send_text] with its retries posts
    template payloads only. *)
Lemma send_text_posts_templates recipient_phone text retries :
  forall client world out env',
    window_stays_expired client world recipient_phone ->
    on_exception retries (send_text_once recipient_phone text) (client, world)
      = (out, env') ->
    exists attempts,
      World.sent env'.2
      = World.sent world
        ++ replicate attempts
             (template_payload recipient_phone "loan_follow_up"
                [("default_text", text)]).
Proof.
  induction retries as [|retries IH]; intros client world out env' Hexpired;
    simpl;
    destruct (send_text_once _ _ (client, world)) as [[result|e] [client1 world1]]
      eqn:Hcall;
    destruct (send_text_once_templates _ _ _ _ _ _ Hexpired Hcall)
      as [Hsent Hraise];
    try (intros [= <- <-]; exact Hsent).
  destruct (is_request_exception e); [|intros [= <- <-]; exact Hsent].
  destruct (Hraise e eq_refl) as [Hclient Hclock]. simpl in Hclient, Hclock.
  intros Hretry.
  destruct (IH client1 world1 out env') as [k2 Hk2]; [|exact Hretry|].
  - unfold window_stays_expired in *. rewrite Hclient, Hclock. exact Hexpired.
  - destruct Hsent as [k1 Hk1]. simpl in Hk1.
    exists (k1 + k2)%nat. rewrite Hk2, Hk1, replicate_add, app_assoc.
    reflexivity.
Qed.

(** [send_text] as the handlers call it, with its five tries. *)
Lemma send_text_templates_only recipient_phone text client world out env' :
  window_stays_expired client world recipient_phone ->
  send_text recipient_phone text (client, world) = (out, env') ->
  exists attempts,
    World.sent env'.2
    = World.sent world
      ++ replicate attempts
           (template_payload recipient_phone "loan_follow_up"
              [("default_text", text)]).
Proof. apply send_text_posts_templates. Qed.

(** A template payload is not a text payload. *)
Lemma template_payload_not_text recipient_phone template_name template_params
    text :
  template_payload recipient_phone template_name template_params
    <> text_payload recipient_phone text.
Proof. unfold template_payload, text_payload. intros H. discriminate H. Qed.

(** ** Two handlers on one Customer row *)

(** With every request answered by [interested], the handlers of two
    messages from one number, each loading the row before the other saves
    it, leave the interest level at 0.2: the level shows one delta, not
    both. *)
Lemma overlapping_handlers_lose_update :
  exists row,
    table_after interested_client (fun _ => ∅) no_json (fun _ => "{}")
      first_message second_message [false; true; false; true] one_customer
      !! "919000000001" = Some row
    /\ classified_intent interested_client (fun _ => ∅) first_message
       = Intent.INTERESTED
    /\ classified_intent interested_client (fun _ => ∅) second_message
       = Intent.INTERESTED
    /\ (Customer.interest_level row == 0.2)%Q
    /\ Customer.conversation_state row = State.INTRODUCTION
    /\ ~ both_deltas 0.0 Intent.INTERESTED Intent.INTERESTED
           (Customer.interest_level row).
Proof.
  eexists. split; [vm_compute; reflexivity|].
  split; [reflexivity|]. split; [reflexivity|]. split; [reflexivity|].
  split; [reflexivity|].
  intros [H|H]; vm_compute in H; discriminate H.
Qed.

Section Handler_properties.

Variable create : Request.t -> exc Completion.t.
Variable prompts_of : string -> gmap string string.
Variable json_loads : string -> exc json.
Variable json_dumps : Profile.t -> string.

Local Abbreviation merge_of :=
  (respond_and_merge create prompts_of json_loads json_dumps).
Local Abbreviation after :=
  (table_after create prompts_of json_loads json_dumps).

(** The merge of a handler moves the interest level of the object it
    loaded by the delta of the intent of its message. *)
Lemma respond_and_merge_interest message customer saved :
  merge_of message customer = Ok saved ->
  Customer.interest_level saved
    = update_interest_level (classified_intent create prompts_of message)
        (Customer.interest_level customer).
Proof.
  unfold respond_and_merge, classified_intent.
  destruct (generate_response _ _ _ _ _ _ _) as [response|e] eqn:Hresponse;
    cbn [exc_bind]; [|discriminate].
  intros Hsaved.
  destruct (generate_response_intent _ _ _ _ _ _ _ _ Hresponse)
    as [confidence ->].
  apply (update_customer_profile_interest _ _ _ _ _ Hsaved).
Qed.

(** A handler that loads after a row was written for its number loads
    that row, with its own language set. *)
Lemma load_written message phone_number customer table :
  Inbound.phone_number message = phone_number ->
  load message (<[phone_number := customer]> table)
    = set_preferred_language (Inbound.detected_language message) customer.
Proof. intros <-. unfold load. rewrite lookup_insert_eq. reflexivity. Qed.

(** C9, as amended. The handlers of two messages from one number do not
    exclude each other. When the second handler loads the row after the
    first has saved it, the row it saves holds both merges, and the
    interest level both deltas. When the second handler loads the row
    before the first saves it, the row that is saved last is the only one
    to stay, and the interest level holds the delta of that handler
    alone. *)
Theorem handlers_on_one_row first second table :
  Inbound.phone_number second = Inbound.phone_number first ->
  let phone_number := Inbound.phone_number first in
  let loaded := load first table in
  let intent1 := classified_intent create prompts_of first in
  let intent2 := classified_intent create prompts_of second in
  let language2 := Inbound.detected_language second in
  (forall saved1 saved2,
      merge_of first loaded = Ok saved1 ->
      merge_of second (set_preferred_language language2 saved1) = Ok saved2 ->
      after first second [false; false; true; true] table !! phone_number
        = Some saved2
      /\ Customer.interest_level saved2
         = update_interest_level intent2
             (update_interest_level intent1 (Customer.interest_level loaded)))
  /\ (forall saved1 saved2,
        merge_of first loaded = Ok saved1 ->
        merge_of second (set_preferred_language language2 loaded) = Ok saved2 ->
        (after first second [false; true; false; true] table !! phone_number
           = Some saved2
         /\ Customer.interest_level saved2
            = update_interest_level intent2 (Customer.interest_level loaded))
        /\ (after first second [false; true; true; false] table !! phone_number
              = Some saved1
            /\ Customer.interest_level saved1
               = update_interest_level intent1 (Customer.interest_level loaded))).
Proof.
  intros Hphone phone_number loaded intent1 intent2 language2.
  split.
  - intros saved1 saved2 Hfirst Hsecond.
    unfold table_after. cbn [run handler_step]. fold loaded.
    rewrite Hfirst. cbn [run handler_step]. rewrite Hphone.
    rewrite (load_written _ _ _ _ Hphone). fold language2. rewrite Hsecond.
    cbn [run fst]. split; [apply lookup_insert_eq|].
    rewrite (respond_and_merge_interest _ _ _ Hsecond).
    fold intent2. cbn [set_preferred_language Customer.interest_level].
    rewrite (respond_and_merge_interest _ _ _ Hfirst). reflexivity.
  - intros saved1 saved2 Hfirst Hsecond. split.
    + unfold table_after. cbn [run handler_step]. fold loaded.
      rewrite Hphone. rewrite (load_written _ _ _ _ Hphone). fold language2.
      rewrite Hfirst. cbn [run handler_step]. rewrite Hsecond.
      cbn [run fst]. split; [apply lookup_insert_eq|].
      rewrite (respond_and_merge_interest _ _ _ Hsecond). reflexivity.
    + unfold table_after. cbn [run handler_step]. fold loaded.
      rewrite Hphone. rewrite (load_written _ _ _ _ Hphone). fold language2.
      rewrite Hsecond. cbn [run handler_step]. rewrite Hfirst.
      cbn [run fst]. split; [apply lookup_insert_eq|].
      rewrite (respond_and_merge_interest _ _ _ Hfirst). reflexivity.
Qed.

End Handler_properties.

Lemma handlers_on_one_row_witness :
  (exists row,
      table_after interested_client (fun _ => ∅) no_json (fun _ => "{}")
        first_message second_message [false; false; true; true] one_customer
        !! "919000000001" = Some row
      /\ (Customer.interest_level row == 0.4)%Q)
  /\ (exists row,
        table_after interested_client (fun _ => ∅) no_json (fun _ => "{}")
          first_message second_message [false; true; true; false] one_customer
          !! "919000000001" = Some row
        /\ (Customer.interest_level row == 0.2)%Q).
Proof.
  destruct (handlers_on_one_row interested_client (fun _ => ∅) no_json
              (fun _ => "{}") first_message second_message one_customer
              eq_refl) as [Hserial Hoverlapping].
  split.
  - edestruct Hserial as [Hrow Hlevel]; [reflexivity | reflexivity |].
    eexists. split; [exact Hrow|]. rewrite Hlevel. reflexivity.
  - edestruct Hoverlapping as [_ [Hrow Hlevel]]; [reflexivity | reflexivity |].
    eexists. split; [exact Hrow|]. rewrite Hlevel. reflexivity.
Defined.

(** * Further properties *)

(** ** The state machine *)

(** An entry of a dict literal is one of the items it was written with. *)
Lemma dict_of_lookup {V} (items : list (string * V)) key value :
  dict_of items !! key = Some value -> (key, value) ∈ items.
Proof.
  unfold dict_of.
  assert (Hgen : forall m : gmap string V,
    fold_left (fun m kv => <[kv.1 := kv.2]> m) items m !! key = Some value ->
    (key, value) ∈ items \/ m !! key = Some value).
  { induction items as [|[k v] rest IH]; intros m; simpl; [auto|].
    intros H. destruct (IH _ H) as [Hin|Hm].
    - left. apply list_elem_of_further, Hin.
    - destruct (decide (k = key)) as [->|Hne].
      + rewrite lookup_insert_eq in Hm. injection Hm as ->.
        left. apply list_elem_of_here.
      + rewrite lookup_insert_ne in Hm by exact Hne. auto. }
  intros H. destruct (Hgen ∅ H) as [Hin|Hempty]; [exact Hin|].
  rewrite lookup_empty in Hempty. discriminate.
Qed.

(** Every state the table leads to is one of the ten. *)
Lemma table_entry_state state intent next :
  table_entry state intent = Some next -> next ∈ states.
Proof.
  unfold table_entry.
  destruct (state_transitions !! state) as [row|] eqn:Hrow; simpl; [|discriminate].
  intros Hnext. apply dict_of_lookup in Hrow.
  unfold states.
  repeat (apply elem_of_cons in Hrow as [[= -> ->]|Hrow];
          [apply dict_of_lookup in Hnext;
           repeat (apply elem_of_cons in Hnext as [[= -> ->]|Hnext];
                   [set_solver|]);
           apply elem_of_nil in Hnext; destruct Hnext|]).
  apply elem_of_nil in Hrow. destruct Hrow.
Qed.

(** X1. From one of the ten states, [_update_state] leads to one of the ten
    states, whatever string it is given as the intent. *)
Theorem update_state_closed current_state intent :
  current_state ∈ states -> _update_state current_state intent ∈ states.
Proof.
  intros Hstate.
  destruct (update_state_table_only current_state intent) as [->|Hentry].
  - exact Hstate.
  - eapply table_entry_state, Hentry.
Qed.

Lemma update_state_closed_witness :
  _update_state State.CLOSING "a string that is no intent" ∈ states.
Proof.
  apply update_state_closed. unfold states. set_solver.
Defined.

(** X2. The two terminal states: [completed] is left by no intent, and
    [not_interested] is left by the intent [interested] only, which leads
    to [introduction]. From every other state of the ten the intent
    [not_interested] leads to [not_interested]. *)
Theorem terminal_states :
  (forall intent, _update_state State.COMPLETED intent = State.COMPLETED)
  /\ (forall intent,
        _update_state State.NOT_INTERESTED intent
        = if decide (intent = Intent.INTERESTED)
          then State.INTRODUCTION else State.NOT_INTERESTED)
  /\ Forall (fun state =>
               state = State.COMPLETED
               \/ _update_state state Intent.NOT_INTERESTED = State.NOT_INTERESTED)
            states.
Proof.
  split; [|split].
  - intros intent. unfold _update_state.
    change (state_transitions !! State.COMPLETED)
      with (Some (dict_of ([] : list (string * string)))).
    simpl. unfold dict_of. simpl. rewrite lookup_empty. reflexivity.
  - intros intent. unfold _update_state.
    change (state_transitions !! State.NOT_INTERESTED)
      with (Some (dict_of [(Intent.INTERESTED, State.INTRODUCTION)])).
    simpl. unfold dict_of. simpl.
    destruct (decide (intent = Intent.INTERESTED)) as [->|Hne].
    + rewrite lookup_insert_eq. reflexivity.
    + rewrite lookup_insert_ne by congruence. rewrite lookup_empty. reflexivity.
  - unfold states.
    repeat (apply Forall_cons; split;
            [first [left; reflexivity | right; vm_compute; reflexivity]|]).
    constructor.
Qed.

(** ** The engine *)

(** X3. The history that reaches a prompt is that of the last ten
    exchanges: what came before them changes nothing. *)
Theorem format_history_last_ten older recent :
  length recent = 10%nat ->
  _format_conversation_history (older ++ recent)
    = _format_conversation_history recent.
Proof.
  intros Hten. unfold _format_conversation_history, last10.
  rewrite length_app, Hten.
  replace (length older + 10 - 10)%nat with (length older) by lia.
  rewrite drop_app_length. reflexivity.
Qed.

Lemma format_history_last_ten_witness :
  _format_conversation_history
    (Exchange.mk "inbound" "An old question"
       :: replicate 10 (Exchange.mk "outbound" "Hello"))
  = _format_conversation_history (replicate 10 (Exchange.mk "outbound" "Hello")).
Proof.
  apply (format_history_last_ten [Exchange.mk "inbound" "An old question"]
           (replicate 10 (Exchange.mk "outbound" "Hello"))).
  reflexivity.
Defined.

Lemma clean_item_cleaned item kept :
  clean_item item = Some kept -> cleaned kept.
Proof.
  destruct item as [key value]. unfold clean_item, cleaned.
  destruct value as [|b|q|s|l|items]; try discriminate;
    try (intros [= <-]; simpl; repeat split; try discriminate;
         intros _ s'; discriminate).
  - destruct s as [|c s]; [discriminate|].
    destruct (String.eqb key "property_value" || String.eqb key "loan_amount_needed")
      eqn:Hkey; intros [= <-]; simpl; repeat split; try discriminate.
    intros Hamount. exfalso.
    apply orb_false_elim in Hkey as [H1 H2].
    apply String.eqb_neq in H1, H2. tauto.
  - destruct l as [|v l]; [discriminate|].
    intros [= <-]; simpl; repeat split; try discriminate.
Qed.

Lemma omap_clean_item_cleaned items :
  Forall cleaned (omap clean_item items).
Proof.
  induction items as [|item rest IH]; simpl; [constructor|].
  destruct (clean_item item) as [kept|] eqn:Hitem; [|exact IH].
  constructor; [eapply clean_item_cleaned, Hitem | exact IH].
Qed.

Section Engine_further.

Variable create : Request.t -> exc Completion.t.
Variable prompts : gmap string string.
Variable json_loads : string -> exc json.
Variable json_dumps : Profile.t -> string.

(** X4. [extract_information] returns on every outcome of the call and of
    the decoder, and what it returns holds no [None], no empty string and
    no empty list, and no string under [property_value] or
    [loan_amount_needed]. *)
Theorem extract_information_cleaned message current_profile :
  exists extracted_info,
    extract_information create prompts json_loads json_dumps
      message current_profile = Ok extracted_info
    /\ Forall cleaned extracted_info.
Proof.
  unfold extract_information, first_content_stripped.
  destruct (create _) as [[choices]|e]; simpl;
    [|eexists; split; [reflexivity|constructor]].
  destruct choices as [|[content finish_reason] rest]; simpl;
    [eexists; split; [reflexivity|constructor]|].
  destruct content as [text|]; simpl;
    [|eexists; split; [reflexivity|constructor]].
  destruct (json_loads _) as [v|e]; simpl.
  - destruct v; simpl; eexists; (split; [reflexivity|]);
      try constructor. apply omap_clean_item_cleaned.
  - destruct (exn_kind e); simpl; eexists; (split; [reflexivity|constructor]).
Qed.

(** The state of a response is the state the table gives for the intent,
    or the state the customer was in. *)
Lemma generate_response_state message customer_profile conversation_history
    response :
  generate_response create prompts json_loads json_dumps
    message customer_profile conversation_history = Ok response ->
  let current_state :=
    default State.INITIAL (Profile.conversation_state customer_profile) in
  Response.state response = _update_state current_state (Response.intent response)
  \/ Response.state response = current_state.
Proof.
  unfold generate_response.
  destruct (detect_intent _ _ _ _) as [[intent confidence]|e];
    cbn [exc_bind]; [|discriminate].
  destruct (extract_information _ _ _ _ _ _) as [extracted_info|e];
    cbn [exc_bind]; [|discriminate].
  unfold first_content_stripped.
  destruct (create (reply_request _ _ _ _ _ _)) as [[choices]|e]; simpl;
    [|intros [= <-]; auto].
  destruct choices as [|[content finish_reason] rest]; simpl;
    [intros [= <-]; auto|].
  destruct content as [text|]; simpl; intros [= <-]; auto.
Qed.

(** X5. A customer in a state that is not terminal who is classified as
    [not_interested], and for whom a reply is generated, gets a response in
    the state [not_interested], with audio asked for and a follow-up after
    ninety days. *)
Theorem not_interested_response message customer_profile conversation_history
    state confidence choice rest text :
  Profile.conversation_state customer_profile = Some state ->
  state ∈ non_terminal_states ->
  detect_intent create prompts message conversation_history
    = Ok (Intent.NOT_INTERESTED, confidence) ->
  create (reply_request prompts json_dumps message customer_profile
            conversation_history State.NOT_INTERESTED)
    = Ok (Completion.mk (choice :: rest)) ->
  Choice.content choice = Some text ->
  exists response,
    generate_response create prompts json_loads json_dumps
      message customer_profile conversation_history = Ok response
    /\ Response.text response = strip text
    /\ Response.state response = State.NOT_INTERESTED
    /\ Response.previous_state response = state
    /\ Response.should_generate_audio response = true
    /\ Response.follow_up_date response = Some "90d".
Proof.
  intros Hstate Hnon_terminal Hintent Hreply Hcontent.
  assert (Hnext : _update_state state Intent.NOT_INTERESTED = State.NOT_INTERESTED).
  { unfold non_terminal_states in Hnon_terminal.
    repeat (apply elem_of_cons in Hnon_terminal as [->|Hnon_terminal];
            [vm_compute; reflexivity|]).
    apply elem_of_nil in Hnon_terminal. destruct Hnon_terminal. }
  unfold generate_response. rewrite Hintent, Hstate. cbn [exc_bind default id].
  destruct (extract_information_returns create prompts json_loads json_dumps
              message customer_profile) as [extracted_info ->].
  cbn [exc_bind]. rewrite Hnext, Hreply.
  unfold first_content_stripped. destruct choice as [content finish_reason].
  simpl in Hcontent. subst content. simpl.
  eexists. split; [reflexivity|]. simpl.
  repeat split.
  unfold _should_generate_audio. destruct (300 <? len (strip text))%Z; reflexivity.
Qed.

End Engine_further.

Lemma not_interested_response_witness :
  exists response,
    generate_response
      (fun request =>
         if (Request.max_tokens request =? 50)%Z
         then Ok (Completion.mk [Choice.mk (Some "not_interested") "stop"])
         else Ok (Completion.mk [Choice.mk (Some " Thank you for your time. ") "stop"]))
      ∅ no_json (fun _ => "{}") "No thanks" sample_profile [] = Ok response
    /\ Response.text response = "Thank you for your time."
    /\ Response.state response = State.NOT_INTERESTED
    /\ Response.previous_state response = State.QUALIFYING
    /\ Response.should_generate_audio response = true
    /\ Response.follow_up_date response = Some "90d".
Proof.
  apply (not_interested_response _ ∅ no_json (fun _ => "{}") "No thanks"
           sample_profile [] State.QUALIFYING (0.7 + 0.1)%Q
           (Choice.mk (Some " Thank you for your time. ") "stop") []
           " Thank you for your time. ").
  - reflexivity.
  - unfold non_terminal_states. set_solver.
  - reflexivity.
  - reflexivity.
  - reflexivity.
Defined.

(** ** The profile merge *)

(** X6. The merge never clears [do_not_contact] and sets it on a truthy
    value under that key; it never replaces a name that is set; it always
    writes the state it is given; and it leaves the identity of the
    customer and the preferred language alone. *)
Theorem merge_keeps_flags customer extracted_info intent state saved :
  update_customer_profile customer extracted_info intent state = Ok saved ->
  Customer.conversation_state saved = state
  /\ Customer.id saved = Customer.id customer
  /\ Customer.phone_number saved = Customer.phone_number customer
  /\ Customer.preferred_language saved = Customer.preferred_language customer
  /\ (Customer.do_not_contact customer = true ->
      Customer.do_not_contact saved = true)
  /\ (forall value,
        items_get "do_not_contact" extracted_info = Some value ->
        truthy value = true -> Customer.do_not_contact saved = true)
  /\ (is_none (Customer.name customer) = false ->
      Customer.name saved = Customer.name customer).
Proof.
  unfold update_customer_profile.
  destruct (for_each _ _ _) as [m|e] eqn:Hloop; cbn [exc_bind]; [|discriminate].
  intros [= <-]. simpl.
  destruct (for_each_merge_spec _ _ _ Hloop) as (_ & Hname & _ & _).
  simpl in Hname.
  repeat split.
  - intros ->. destruct (items_get _ _) as [v|]; [|reflexivity].
    destruct (truthy v); reflexivity.
  - intros value -> ->. reflexivity.
  - intros Hset. rewrite Hname. apply merged_name_kept, Hset.
Qed.

Lemma merge_keeps_flags_witness :
  exists saved,
    update_customer_profile
      (Customer.mk 3 "919000000003" (JStr "Meera") "hindi" ∅ ∅
         State.QUALIFYING 0.5 true)
      [("name", JStr "Someone else"); ("do_not_contact", JBool false)]
      Intent.INTERESTED State.PROPERTY_DETAILS = Ok saved
    /\ Customer.do_not_contact saved = true
    /\ Customer.name saved = JStr "Meera"
    /\ Customer.conversation_state saved = State.PROPERTY_DETAILS.
Proof.
  eexists. split; [reflexivity|].
  destruct (merge_keeps_flags
              (Customer.mk 3 "919000000003" (JStr "Meera") "hindi" ∅ ∅
                 State.QUALIFYING 0.5 true)
              [("name", JStr "Someone else"); ("do_not_contact", JBool false)]
              Intent.INTERESTED State.PROPERTY_DETAILS _ eq_refl)
    as (Hstate & _ & _ & _ & Hflag & _ & Hname).
  split; [apply Hflag; reflexivity|].
  split; [apply Hname; reflexivity|exact Hstate].
Defined.

(** X7. The merge is additive: a stored property detail or loan requirement
    whose key the extracted information does not carry stays as it is, and
    the stored concerns are a prefix of the concerns after the merge. *)
Theorem merge_is_additive customer extracted_info intent state saved :
  update_customer_profile customer extracted_info intent state = Ok saved ->
  (forall key,
      items_get key extracted_info = None ->
      Customer.property_details saved !! key
        = Customer.property_details customer !! key
      /\ (key <> "concerns" ->
          Customer.loan_requirements saved !! key
            = Customer.loan_requirements customer !! key))
  /\ (forall concerns,
        Customer.loan_requirements customer !! "concerns" = Some (JList concerns) ->
        Customer.loan_requirements saved !! "concerns"
          = Some (JList (concerns ++ added_concerns extracted_info))).
Proof.
  unfold update_customer_profile.
  destruct (for_each _ _ _) as [m|e] eqn:Hloop; cbn [exc_bind]; [|discriminate].
  intros [= <-]. simpl.
  destruct (for_each_merge_spec _ _ _ Hloop) as (Hpd & _ & Hlr & Hc).
  simpl in Hpd, Hlr, Hc.
  assert (Hlast : forall keys key,
            items_get key extracted_info = None ->
            last_value keys key extracted_info = None).
  { intros keys key. clear. induction extracted_info as [|[k v] rest IH]; simpl;
      [reflexivity|].
    destruct (String.eqb k key) eqn:Hk; [discriminate|].
    intros Hrest. rewrite (IH Hrest), andb_false_r. reflexivity. }
  split.
  - intros key Habsent. split.
    + rewrite Hpd, (Hlast _ _ Habsent). reflexivity.
    + intros Hkey. rewrite (Hlr key Hkey), (Hlast _ _ Habsent). reflexivity.
  - intros concerns Hstored. rewrite Hc, Hstored. simpl.
    destruct (has_concerns extracted_info) eqn:Hhas; [reflexivity|].
    rewrite (added_concerns_none _ Hhas), app_nil_r. reflexivity.
Qed.

Lemma merge_is_additive_witness :
  exists saved,
    update_customer_profile
      (Customer.mk 3 "919000000003" JNull "english"
         {["property_type" := JStr "flat"]}
         {["concerns" := JList [JStr "tenure"]]}
         State.QUALIFYING 0.5 false)
      [("property_value", JNum 8000000); ("concerns", JStr "interest rate")]
      Intent.OBJECTION State.OBJECTION_HANDLING = Ok saved
    /\ Customer.property_details saved !! "property_type" = Some (JStr "flat")
    /\ Customer.loan_requirements saved !! "concerns"
       = Some (JList [JStr "tenure"; JStr "interest rate"]).
Proof.
  edestruct (merge_is_additive
              (Customer.mk 3 "919000000003" JNull "english"
                 {["property_type" := JStr "flat"]}
                 {["concerns" := JList [JStr "tenure"]]}
                 State.QUALIFYING 0.5 false)
              [("property_value", JNum 8000000); ("concerns", JStr "interest rate")]
              Intent.OBJECTION State.OBJECTION_HANDLING)
    as [Hkept Hgrown]; [reflexivity|].
  eexists. split; [reflexivity|]. split.
  - rewrite (proj1 (Hkept "property_type" eq_refl)). reflexivity.
  - rewrite (Hgrown [JStr "tenure"] eq_refl). reflexivity.
Defined.

(** An item that carries concerns is merged only into a stored entry that
    is a list, or into none. *)
Lemma merge_item_concerns_list m value m' :
  merge_item m ("concerns", value) = Ok m' ->
  concerns_is_list (Merge.loan_requirements m).
Proof.
  destruct m as [pd lr name]. unfold merge_item, concerns_is_list. simpl.
  destruct (lr !! "concerns") as [stored|] eqn:Hstored; [|intros _; exact I].
  rewrite Hstored. destruct stored; try discriminate. intros _. exact I.
Qed.

Lemma for_each_merge_only_if items : forall m m',
  for_each merge_item items m = Ok m' ->
  has_concerns items = false \/ concerns_is_list (Merge.loan_requirements m).
Proof.
  induction items as [|[key value] rest IH]; intros m m'; cbn [for_each].
  - intros _. left. reflexivity.
  - destruct (merge_item m (key, value)) as [m1|e] eqn:Hitem;
      cbn [exc_bind]; [|discriminate].
    intros Hrest. simpl.
    destruct (String.eqb_spec key "concerns") as [->|Hne].
    + right. eapply merge_item_concerns_list, Hitem.
    + simpl. destruct (IH _ _ Hrest) as [Hnone|Hlist]; [left; exact Hnone|].
      right. unfold concerns_is_list in *.
      destruct (merge_item_spec _ _ _ _ Hitem) as (_ & _ & _ & Hc1).
      rewrite Hc1 in Hlist.
      destruct (String.eqb_spec key "concerns"); [contradiction|exact Hlist].
Qed.

(** Whatever the loop of the merge raises is an [AttributeError]. *)
Lemma merge_item_raises m item e :
  merge_item m item = Raise e -> exn_kind e = AttributeError.
Proof.
  destruct m as [pd lr name], item as [key value]. unfold merge_item.
  repeat match goal with
         | |- context [if ?b then _ else _] => destruct b
         end; try discriminate.
  all: intros Hraise; repeat case_match; try discriminate;
    by injection Hraise as <-.
Qed.

Lemma for_each_merge_raises items : forall m e,
  for_each merge_item items m = Raise e -> exn_kind e = AttributeError.
Proof.
  induction items as [|item rest IH]; intros m e; cbn [for_each];
    [discriminate|].
  destruct (merge_item m item) as [m1|e1] eqn:Hitem; cbn [exc_bind].
  - apply IH.
  - intros [= <-]. eapply merge_item_raises, Hitem.
Qed.

(** X8. When the extracted information carries concerns and the entry
    stored under [concerns] is not a list, the merge raises an
    [AttributeError] (the entry has neither [extend] nor [append]), so the
    customer is not saved. *)
Theorem merge_raises_on_stored_non_list customer extracted_info intent state :
  has_concerns extracted_info = true ->
  ~ concerns_is_list (Customer.loan_requirements customer) ->
  exists e,
    update_customer_profile customer extracted_info intent state = Raise e
    /\ exn_kind e = AttributeError.
Proof.
  intros Hhas Hstored. unfold update_customer_profile.
  destruct (for_each _ _ _) as [m|e] eqn:Hloop; cbn [exc_bind].
  - exfalso. destruct (for_each_merge_only_if _ _ _ Hloop) as [Hnone|Hlist].
    + congruence.
    + apply Hstored, Hlist.
  - exists e. split; [reflexivity|]. eapply for_each_merge_raises, Hloop.
Qed.

Lemma merge_raises_on_stored_non_list_witness :
  exists e,
    update_customer_profile
      (Customer.mk 3 "919000000003" JNull "english" ∅
         {["concerns" := JStr "tenure"]} State.QUALIFYING 0.5 false)
      [("property_type", JStr "flat"); ("concerns", JStr "interest rate")]
      Intent.OBJECTION State.OBJECTION_HANDLING = Raise e
    /\ exn_kind e = AttributeError.
Proof.
  apply (merge_raises_on_stored_non_list
           (Customer.mk 3 "919000000003" JNull "english" ∅
              {["concerns" := JStr "tenure"]} State.QUALIFYING 0.5 false)
           [("property_type", JStr "flat"); ("concerns", JStr "interest rate")]
           Intent.OBJECTION State.OBJECTION_HANDLING).
  - reflexivity.
  - vm_compute. intros H. exact H.
Defined.

(** ** The handlers under every schedule *)

Section Handlers_further.

Variable create : Request.t -> exc Completion.t.
Variable prompts_of : string -> gmap string string.
Variable json_loads : string -> exc json.
Variable json_dumps : Profile.t -> string.

Lemma handler_step_other message table p other :
  other <> Inbound.phone_number message ->
  (handler_step create prompts_of json_loads json_dumps message table p).1
    !! other = table !! other.
Proof.
  intros Hother. destruct p as [|customer|]; simpl.
  - apply lookup_insert_ne. congruence.
  - destruct (respond_and_merge _ _ _ _ _ _) as [saved|e]; simpl;
      [apply lookup_insert_ne; congruence | reflexivity].
  - reflexivity.
Qed.

(** X9. Whatever the schedule and however far the two handlers have come,
    they leave the rows of every other phone number as they are. *)
Theorem handlers_leave_other_rows first second schedule : forall table p1 p2 other,
  other <> Inbound.phone_number first ->
  other <> Inbound.phone_number second ->
  (run create prompts_of json_loads json_dumps first second schedule
     table p1 p2).1.1 !! other = table !! other.
Proof.
  induction schedule as [|[|] rest IH]; intros table p1 p2 other H1 H2;
    cbn [run].
  - reflexivity.
  - destruct (handler_step _ _ _ _ second table p2) as [table' p2'] eqn:Hstep.
    rewrite (IH _ _ _ _ H1 H2).
    change table' with (table', p2').1. rewrite <- Hstep.
    apply handler_step_other, H2.
  - destruct (handler_step _ _ _ _ first table p1) as [table' p1'] eqn:Hstep.
    rewrite (IH _ _ _ _ H1 H2).
    change table' with (table', p1').1. rewrite <- Hstep.
    apply handler_step_other, H1.
Qed.

Lemma update_customer_profile_state customer extracted_info intent state saved :
  update_customer_profile customer extracted_info intent state = Ok saved ->
  Customer.conversation_state saved = state.
Proof.
  unfold update_customer_profile.
  destruct (for_each _ _ _) as [m|e]; cbn [exc_bind]; [|discriminate].
  intros [= <-]. reflexivity.
Qed.

(** The merge of a handler keeps a row in range. *)
Lemma respond_and_merge_in_range message customer saved :
  row_in_range customer ->
  respond_and_merge create prompts_of json_loads json_dumps message customer
    = Ok saved ->
  row_in_range saved.
Proof.
  intros [Hlevel Hstate]. unfold respond_and_merge.
  destruct (generate_response _ _ _ _ _ _ _) as [response|e] eqn:Hresponse;
    cbn [exc_bind]; [|discriminate].
  intros Hsaved. split.
  - rewrite (update_customer_profile_interest _ _ _ _ _ Hsaved).
    apply update_interest_level_range, Hlevel.
  - rewrite (update_customer_profile_state _ _ _ _ _ Hsaved).
    destruct (generate_response_state _ _ _ _ _ _ _ _ Hresponse) as [->| ->];
      simpl; [|exact Hstate].
    destruct (update_state_table_only (Customer.conversation_state customer)
                (Response.intent response)) as [->|Hentry];
      [exact Hstate | eapply table_entry_state, Hentry].
Qed.

Lemma handler_step_in_range message table p :
  (forall key row, table !! key = Some row -> row_in_range row) ->
  progress_in_range p ->
  let after :=
    handler_step create prompts_of json_loads json_dumps message table p in
  (forall key row, after.1 !! key = Some row -> row_in_range row)
  /\ progress_in_range after.2.
Proof.
  intros Htable Hp. destruct p as [|customer|]; simpl.
  - assert (Hloaded : row_in_range (load message table)).
    { unfold load.
      destruct (table !! Inbound.phone_number message) as [row|] eqn:Hrow.
      - destruct (Htable _ _ Hrow) as [Hlevel Hstate]. split; assumption.
      - split; simpl; [split; discriminate | unfold states; set_solver]. }
    split; [|exact Hloaded].
    intros key row. rewrite lookup_insert.
    case_decide; [intros [= <-]; exact Hloaded | apply Htable].
  - destruct (respond_and_merge _ _ _ _ _ _) as [saved|e] eqn:Hmerge; simpl;
      (split; [|exact I]); [|exact Htable].
    intros key row. rewrite lookup_insert.
    case_decide; [|apply Htable].
    intros [= <-]. eapply respond_and_merge_in_range; [exact Hp|exact Hmerge].
  - split; [exact Htable|exact I].
Qed.

Lemma run_in_range first second schedule : forall table p1 p2,
  (forall key row, table !! key = Some row -> row_in_range row) ->
  progress_in_range p1 -> progress_in_range p2 ->
  forall key row,
    (run create prompts_of json_loads json_dumps first second schedule
       table p1 p2).1.1 !! key = Some row ->
    row_in_range row.
Proof.
  induction schedule as [|[|] rest IH]; intros table p1 p2 Htable Hp1 Hp2;
    cbn [run].
  - exact Htable.
  - destruct (handler_step_in_range second table p2 Htable Hp2) as [Ht Hp].
    destruct (handler_step _ _ _ _ second table p2) as [table' p2'].
    apply IH; assumption.
  - destruct (handler_step_in_range first table p1 Htable Hp1) as [Ht Hp].
    destruct (handler_step _ _ _ _ first table p1) as [table' p1'].
    apply IH; assumption.
Qed.

(** X10. When every row of the Customer table holds an interest level in
    [0,1] and one of the ten states, so does every row after two handlers
    ran, under every schedule and for every answer of the language model. *)
Theorem handlers_keep_rows_in_range first second schedule table :
  (forall key row, table !! key = Some row -> row_in_range row) ->
  forall key row,
    table_after create prompts_of json_loads json_dumps first second schedule
      table !! key = Some row ->
    row_in_range row.
Proof.
  intros Htable. unfold table_after.
  apply run_in_range; [exact Htable | exact I | exact I].
Qed.

End Handlers_further.

Lemma handlers_keep_rows_in_range_witness :
  exists row,
    table_after interested_client (fun _ => ∅) no_json (fun _ => "{}")
      first_message second_message [false; true; false; true] one_customer
      !! "919000000001" = Some row
    /\ row_in_range row.
Proof.
  eexists. split; [vm_compute; reflexivity|].
  apply (handlers_keep_rows_in_range interested_client (fun _ => ∅) no_json
           (fun _ => "{}") first_message second_message
           [false; true; false; true] one_customer) with "919000000001".
  - intros key row Hrow.
    unfold one_customer in Hrow. apply lookup_singleton_Some in Hrow as [_ <-].
    split; simpl; [split; discriminate | unfold states; set_solver].
  - vm_compute. reflexivity.
Defined.

Lemma handlers_leave_other_rows_witness :
  (run interested_client (fun _ => ∅) no_json (fun _ => "{}")
     first_message second_message [false; true; false; true]
     (<["919000000002" := new_customer 2 "919000000002"]> one_customer)
     Arrived Arrived).1.1 !! "919000000002"
  = Some (new_customer 2 "919000000002").
Proof.
  rewrite (handlers_leave_other_rows interested_client (fun _ => ∅) no_json
             (fun _ => "{}") first_message second_message
             [false; true; false; true]).
  - reflexivity.
  - discriminate.
  - discriminate.
Defined.

(** ** The messaging client, further *)

(** X11. At the daily limit, [send_text], [send_template] and [send_audio]
    return the rate-limit error at their first call: nothing is posted and
    the counts and windows of the client stay as they are. *)
Theorem rate_limit_refuses upload client world recipient_phone :
  ~ under_rate_limit client world recipient_phone ->
  (forall text,
      send_text recipient_phone text (client, world)
        = (Ok rate_limit_exceeded, (client, after_date world)))
  /\ (forall template_name template_params,
        send_template recipient_phone template_name template_params
          (client, world)
          = (Ok rate_limit_exceeded, (client, after_date world)))
  /\ (forall audio_path,
        send_audio upload recipient_phone audio_path (client, world)
          = (Ok rate_limit_exceeded, (client, after_date world))).
Proof.
  unfold under_rate_limit. intros Hlimit.
  apply Z.ltb_nlt in Hlimit.
  repeat split; intros;
    unfold send_text, send_template, send_audio, send_text_once,
      send_template_once, send_audio_once, _check_rate_limit, io_bind;
    simpl; rewrite Hlimit; reflexivity.
Qed.

Lemma rate_limit_refuses_witness :
  send_text "919000000001" "Hello"
    (Client.mk {["919000000001:2023-11-14" := 1000%Z]} 1000 ∅ 86400, quiet_world)
  = (Ok rate_limit_exceeded,
     (Client.mk {["919000000001:2023-11-14" := 1000%Z]} 1000 ∅ 86400,
      after_date quiet_world)).
Proof.
  apply (rate_limit_refuses (fun _ _ => None)
           (Client.mk {["919000000001:2023-11-14" := 1000%Z]} 1000 ∅ 86400)
           quiet_world "919000000001").
  vm_compute. intros H. discriminate H.
Defined.



Lemma Qlt_bool_true a b : (a < b)%Q -> Qlt_bool a b = true.
Proof.
  intros Hlt. unfold Qlt_bool. destruct (Qle_bool b a) eqn:Hle; [|reflexivity].
  apply Qle_bool_iff in Hle. exfalso. apply (Qlt_not_le _ _ Hlt Hle).
Qed.

(** X13. A template that is posted and acknowledged opens the window again:
    a [send_text] that follows, with the clock less than a window further
    and the limit not reached, posts the text as a plain text message. *)
Theorem template_reopens_window client world recipient_phone template_name
    template_params result client1 world1 text :
  under_rate_limit client world recipient_phone ->
  send_template_once recipient_phone template_name template_params
    (client, world) = (Ok result, (client1, world1)) ->
  under_rate_limit client1 world1 recipient_phone ->
  (World.time_time world1 (World.clock_reads world1)
   - World.time_time world (World.clock_reads world)
   < Client.window_duration client)%Q ->
  World.sent world1
    = World.sent world
      ++ [template_payload recipient_phone template_name template_params]
  /\ exists out env2,
      send_text_once recipient_phone text (client1, world1) = (out, env2)
      /\ World.sent env2.2
         = World.sent world1 ++ [text_payload recipient_phone text].
Proof.
  unfold under_rate_limit. intros Hrate Hcall Hrate1 Hclock.
  apply Z.ltb_lt in Hrate.
  unfold send_template_once, _check_rate_limit, io_bind in Hcall.
  simpl in Hcall. rewrite Hrate in Hcall. simpl in Hcall.
  destruct (World.post world _ _) as [r|e]; simpl in Hcall; [|discriminate].
  injection Hcall as <- <- <-. simpl in *.
  split; [reflexivity|].
  apply Z.ltb_lt in Hrate1.
  unfold send_text_once, _check_rate_limit, _check_conversation_window,
    io_bind. simpl. rewrite Hrate1. simpl.
  rewrite lookup_insert_eq. simpl.
  rewrite (Qlt_bool_true _ _ Hclock). simpl.
  destruct (World.post world _ _) as [r2|e2]; simpl;
    eexists _, _; (split; [reflexivity|reflexivity]).
Qed.

Lemma template_reopens_window_witness :
  exists out env2,
    send_text_once "919000000001" "And the tenure?"
      (send_template_once "919000000001" "loan_follow_up"
         [("default_text", "Shall we continue?")] (Client.init, quiet_world)).2
      = (out, env2)
    /\ World.sent env2.2
       = [template_payload "919000000001" "loan_follow_up"
            [("default_text", "Shall we continue?")];
          text_payload "919000000001" "And the tenure?"].
Proof.
  pose (env1 := (send_template_once "919000000001" "loan_follow_up"
                   [("default_text", "Shall we continue?")]
                   (Client.init, quiet_world)).2).
  destruct (template_reopens_window Client.init quiet_world "919000000001"
              "loan_follow_up" [("default_text", "Shall we continue?")]
              (JObj [("messages", JList [JObj [("id", JStr "wamid.1")]])])
              env1.1 env1.2 "And the tenure?")
    as [Hsent (out & env2 & Hcall & Hsent2)].
  - vm_compute. reflexivity.
  - vm_compute. reflexivity.
  - vm_compute. reflexivity.
  - vm_compute. reflexivity.
  - exists out, env2. split; [exact Hcall|]. rewrite Hsent2, Hsent. reflexivity.
Defined.

(** *** The tries of [send_template] *)

Lemma send_template_once_posts recipient_phone template_name template_params
    env out env' :
  send_template_once recipient_phone template_name template_params env
    = (out, env') ->
  let payload := template_payload recipient_phone template_name template_params in
  match out with
  | Raise _ => World.sent env'.2 = World.sent env.2 ++ [payload]
  | Ok _ =>
      World.sent env'.2 = World.sent env.2
      \/ World.sent env'.2 = World.sent env.2 ++ [payload]
  end.
Proof.
  destruct env as [client world].
  unfold send_template_once, _check_rate_limit, io_bind. simpl.
  destruct (_ <? _)%Z; simpl.
  - destruct (World.post world _ _) as [result|e]; simpl;
      intros [= <- <-]; simpl; auto.
  - intros [= <- <-]. simpl. auto.
Qed.

Lemma send_template_tries recipient_phone template_name template_params
    retries : forall env out env',
  on_exception retries
    (send_template_once recipient_phone template_name template_params) env
    = (out, env') ->
  exists posts,
    World.sent env'.2
    = World.sent env.2
      ++ replicate posts
           (template_payload recipient_phone template_name template_params)
    /\ (posts <= S retries)%nat
    /\ (forall e, out = Raise e -> is_request_exception e = true ->
        posts = S retries).
Proof.
  induction retries as [|retries IH]; intros env out env'; simpl;
    destruct (send_template_once _ _ _ env) as [[result|e] env1] eqn:Hcall;
    pose proof (send_template_once_posts _ _ _ _ _ _ Hcall) as Hposts;
    simpl in Hposts.
  - intros [= <- <-]. destruct Hposts as [Hposts|Hposts].
    + exists 0%nat. simpl. rewrite Hposts, app_nil_r.
      split; [reflexivity|]. split; [lia|discriminate].
    + exists 1%nat. rewrite Hposts.
      split; [reflexivity|]. split; [lia|discriminate].
  - intros [= <- <-]. exists 1%nat. rewrite Hposts.
    split; [reflexivity|]. split; [lia|reflexivity].
  - intros [= <- <-]. destruct Hposts as [Hposts|Hposts].
    + exists 0%nat. simpl. rewrite Hposts, app_nil_r.
      split; [reflexivity|]. split; [lia|discriminate].
    + exists 1%nat. rewrite Hposts.
      split; [reflexivity|]. split; [lia|discriminate].
  - destruct (is_request_exception e) eqn:Hkind.
    + intros Hretry. destruct (IH _ _ _ Hretry) as (k & Hk & Hle & Hall).
      exists (S k). rewrite Hk, Hposts, <- app_assoc. simpl.
      split; [reflexivity|]. split; [lia|].
      intros e' He' Hkind'. f_equal. eapply Hall; eauto.
    + intros [= <- <-]. exists 1%nat. rewrite Hposts.
      split; [reflexivity|]. split; [lia|].
      intros e' [= <-] Hkind'. congruence.
Qed.

(** X14. One [send_template] posts its payload five times at most, posts
    nothing else, and gives up with a request exception only after the
    fifth post. *)
Theorem send_template_five_tries recipient_phone template_name template_params
    env out env' :
  send_template recipient_phone template_name template_params env
    = (out, env') ->
  exists posts,
    World.sent env'.2
    = World.sent env.2
      ++ replicate posts
           (template_payload recipient_phone template_name template_params)
    /\ (posts <= 5)%nat
    /\ (forall e, out = Raise e -> is_request_exception e = true -> posts = 5%nat).
Proof. apply send_template_tries. Qed.

Lemma send_template_five_tries_witness :
  exists e env',
    send_template "919000000001" "loan_follow_up" []
      (Client.init,
       World.mk (fun _ => 1700000000%Q) (fun _ => "2023-11-14")
         (fun _ _ => Raise (Exn RequestException "503 Server Error")) 0 0 [])
    = (Raise e, env')
    /\ World.sent env'.2
       = replicate 5 (template_payload "919000000001" "loan_follow_up" []).
Proof.
  eexists _, _. split; [vm_compute; reflexivity|].
  edestruct (send_template_five_tries "919000000001" "loan_follow_up" []
               (Client.init,
                World.mk (fun _ => 1700000000%Q) (fun _ => "2023-11-14")
                  (fun _ _ => Raise (Exn RequestException "503 Server Error"))
                  0 0 []))
    as (posts & Hsent & _ & Hall); [vm_compute; reflexivity|].
  rewrite Hsent, (Hall _ eq_refl eq_refl). reflexivity.
Defined.

(** *** The daily limit *)

(** What holds before every call of a method and after it holds after the
    method with its retries. *)
Lemma on_exception_invariant {A} (inv : Client.t * World.t -> Prop)
    (target : io A) :
  (forall env out env', inv env -> target env = (out, env') -> inv env') ->
  forall retries env out env',
    inv env -> on_exception retries target env = (out, env') -> inv env'.
Proof.
  intros Hstep. induction retries as [|retries IH]; intros env out env' Hinv;
    simpl; destruct (target env) as [[result|e] env1] eqn:Hcall;
    try (intros [= <- <-]; eapply Hstep; eauto).
  destruct (is_request_exception e).
  - apply IH. eapply Hstep; eauto.
  - intros [= <- <-]. eapply Hstep; eauto.
Qed.

Lemma counted_post_invariant today limit recipient_phone payload env out env' :
  daily_invariant today limit env ->
  (let! under_limit := _check_rate_limit recipient_phone in
   if negb under_limit then io_ret rate_limit_exceeded
   else
     let! result := requests_post payload in
     let! _ := _update_message_count recipient_phone in
     let! _ := _update_conversation_window recipient_phone in
     io_ret result) env = (out, env') ->
  daily_invariant today limit env'.
Proof.
  destruct env as [client world]. intros (Hdate & Hlimit & Hcounts).
  simpl in Hdate, Hlimit, Hcounts.
  unfold _check_rate_limit, io_bind. simpl.
  destruct (_ <? _)%Z eqn:Hunder; simpl.
  - destruct (World.post world _ _) as [result|e]; simpl; intros [= <- <-];
      (split; [exact Hdate|]); (split; [exact Hlimit|]); simpl;
      [|exact Hcounts].
    intros key count. unfold counts_within_limit. simpl.
    rewrite lookup_insert. case_decide as Hkey.
    + intros [= <-]. apply Z.ltb_lt in Hunder.
      rewrite !Hdate in *. lia.
    + apply Hcounts.
  - intros [= <- <-]. repeat split; assumption.
Qed.

Lemma send_text_once_invariant today limit recipient_phone text env out env' :
  daily_invariant today limit env ->
  send_text_once recipient_phone text env = (out, env') ->
  daily_invariant today limit env'.
Proof.
  destruct env as [client world]. intros (Hdate & Hlimit & Hcounts).
  simpl in Hdate, Hlimit, Hcounts.
  unfold send_text_once, _check_rate_limit, _check_conversation_window,
    io_bind. simpl.
  destruct (_ <? _)%Z eqn:Hunder; simpl.
  - destruct (Qlt_bool _ _); simpl.
    + destruct (World.post world _ _) as [result|e]; simpl; intros [= <- <-];
        (split; [exact Hdate|]); (split; [exact Hlimit|]); simpl;
        [|exact Hcounts].
      intros key count. unfold counts_within_limit. simpl.
      rewrite lookup_insert. case_decide as Hkey.
      * intros [= <-]. apply Z.ltb_lt in Hunder. rewrite !Hdate in *. lia.
      * apply Hcounts.
    + apply (on_exception_invariant (daily_invariant today limit)).
      * intros env0 out0 env0'. apply counted_post_invariant.
      * repeat split; assumption.
  - intros [= <- <-]. repeat split; assumption.
Qed.

Lemma send_audio_once_invariant upload today limit recipient_phone audio_path
    env out env' :
  daily_invariant today limit env ->
  send_audio_once upload recipient_phone audio_path env = (out, env') ->
  daily_invariant today limit env'.
Proof.
  destruct env as [client world]. intros (Hdate & Hlimit & Hcounts).
  simpl in Hdate, Hlimit, Hcounts.
  unfold send_audio_once, _check_rate_limit, _check_conversation_window,
    io_bind. simpl.
  destruct (_ <? _)%Z eqn:Hunder; simpl;
    [|intros [= <- <-]; repeat split; assumption].
  destruct (Qlt_bool _ _); simpl;
    [|intros [= <- <-]; repeat split; assumption].
  destruct (upload audio_path "audio/mpeg") as [[|c media_id]|]; simpl;
    try (intros [= <- <-]; repeat split; assumption).
  destruct (World.post world _ _) as [result|e]; simpl; intros [= <- <-];
    (split; [exact Hdate|]); (split; [exact Hlimit|]); simpl;
    [|exact Hcounts].
  intros key count. unfold counts_within_limit. simpl.
  rewrite lookup_insert. case_decide as Hkey.
  - intros [= <-]. apply Z.ltb_lt in Hunder. rewrite !Hdate in *. lia.
  - apply Hcounts.
Qed.

(** X15. While the date does not change, no sequence of tries of
    [send_text], [send_template] or [send_audio] takes a count above the
    daily limit: a client whose counts are within the limit stays so, and
    its limit stays what it was. *)
Theorem daily_limit_kept upload today client world recipient_phone :
  (forall n, World.strftime world n = today) ->
  counts_within_limit client ->
  forall out client' world',
    (exists text,
        send_text recipient_phone text (client, world) = (out, (client', world')))
    \/ (exists template_name template_params,
          send_template recipient_phone template_name template_params
            (client, world) = (out, (client', world')))
    \/ (exists audio_path,
          send_audio upload recipient_phone audio_path (client, world)
            = (out, (client', world'))) ->
    counts_within_limit client'
    /\ Client.rate_limit client' = Client.rate_limit client.
Proof.
  intros Hdate Hcounts out client' world' Hcall.
  assert (Hinv : daily_invariant today (Client.rate_limit client) (client, world))
    by (repeat split; assumption).
  assert (Hafter : daily_invariant today (Client.rate_limit client)
                     (client', world')).
  { destruct Hcall as [[text Hcall]|[(name & params & Hcall)|[path Hcall]]].
    - eapply (on_exception_invariant _ _
                (fun env o env' => send_text_once_invariant _ _ _ _ env o env'));
        [exact Hinv|exact Hcall].
    - eapply (on_exception_invariant _ _
                (fun env o env' => counted_post_invariant _ _ _ _ env o env'));
        [exact Hinv|exact Hcall].
    - eapply (on_exception_invariant _ _
                (fun env o env' =>
                   send_audio_once_invariant upload _ _ _ _ env o env'));
        [exact Hinv|exact Hcall]. }
  destruct Hafter as (_ & Hlimit & Hwithin). split; assumption.
Qed.

Lemma daily_limit_kept_witness :
  counts_within_limit
    (send_text "919000000001" "Hello"
       (Client.mk {["919000000001:2023-11-14" := 999%Z]} 1000
          {["919000000001" := 1699999000%Q]} 86400, quiet_world)).2.1.
Proof.
  destruct (send_text "919000000001" "Hello"
       (Client.mk {["919000000001:2023-11-14" := 999%Z]} 1000
          {["919000000001" := 1699999000%Q]} 86400, quiet_world))
    as [out [client' world']] eqn:Hcall.
  apply (daily_limit_kept (fun _ _ => None) "2023-11-14"
           (Client.mk {["919000000001:2023-11-14" := 999%Z]} 1000
              {["919000000001" := 1699999000%Q]} 86400)
           quiet_world "919000000001" (fun _ => eq_refl)) with out world'.
  - intros key count Hcount. simpl in Hcount.
    apply lookup_singleton_Some in Hcount as [_ <-]. discriminate.
  - left. exists "Hello". exact Hcall.
Defined.

(** ** Follow-up messages *)

Section Followup_properties.

Variable create : Request.t -> exc Completion.t.
Variable json_dumps_dict : gmap string json -> string.

Lemma generate_followup_returns (followup_context : FollowupContext.t) :
  exists followup,
    generate_followup create json_dumps_dict followup_context = Ok followup
    /\ (Followup.new_state followup
          = default State.INITIAL (FollowupContext.last_state followup_context)
        \/ (Followup.new_state followup = State.FOLLOW_UP_SCHEDULING
            /\ default State.INITIAL (FollowupContext.last_state followup_context)
                 <> State.NOT_INTERESTED
            /\ default State.INITIAL (FollowupContext.last_state followup_context)
                 <> State.COMPLETED)).
Proof.
  unfold generate_followup.
  destruct (create (followup_request json_dumps_dict followup_context))
    as [response|e]; cbn [exc_bind try_except]; [|eexists; split; [reflexivity|by left]].
  destruct (first_content_stripped response) as [response_text|e];
    cbn [exc_bind try_except]; [|eexists; split; [reflexivity|by left]].
  destruct (200 <? len response_text)%Z; cbn [exc_bind try_except].
  2: destruct (follow_up_reason_lower followup_context) as [reason|e];
       cbn [exc_bind try_except]; [|eexists; split; [reflexivity|by left]].
  all: eexists; (split; [reflexivity|]); cbn [Followup.new_state].
  all: destruct (String.eqb_spec
         (default State.INITIAL (FollowupContext.last_state followup_context))
         State.NOT_INTERESTED) as [->|Hn]; [by left|].
  all: destruct (String.eqb_spec
         (default State.INITIAL (FollowupContext.last_state followup_context))
         State.COMPLETED) as [->|Hc]; [by left|].
  all: right; done.
Qed.

(** X16. [generate_followup] returns for every context and every outcome of
    the completion call, and a follow-up never moves a customer out of
    [not_interested] or [completed]: with one of them as [last_state], the
    [new_state] of the result is that state, on the generated and on the
    fallback path. *)
Theorem followup_keeps_terminal_state (followup_context : FollowupContext.t)
    (last : string) :
  FollowupContext.last_state followup_context = Some last ->
  last ∈ [State.NOT_INTERESTED; State.COMPLETED] ->
  exists followup,
    generate_followup create json_dumps_dict followup_context = Ok followup
    /\ Followup.new_state followup = last.
Proof.
  intros Hlast Hterminal.
  destruct (generate_followup_returns followup_context)
    as (followup & Hrun & Hstate).
  exists followup. split; [exact Hrun|].
  rewrite Hlast in Hstate. cbn [default] in Hstate.
  destruct Hstate as [H|(_ & Hn & Hc)]; [exact H|].
  exfalso. apply elem_of_cons in Hterminal as [->|Hterminal]; [by apply Hn|].
  apply list_elem_of_singleton in Hterminal as ->. by apply Hc.
Qed.

(** X17. A follow-up whose reason is [None] loses a generated message of at
    most 200 characters: the audio test calls [lower] on the reason, the
    [AttributeError] is caught by the handler of the method, and the result
    is the fallback message, with the last state kept as the new state. *)
Theorem followup_none_reason_falls_back (followup_context : FollowupContext.t)
    (response : Completion.t) (response_text : string) :
  FollowupContext.follow_up_reason followup_context = Some None ->
  create (followup_request json_dumps_dict followup_context) = Ok response ->
  first_content_stripped response = Ok response_text ->
  (len response_text <= 200)%Z ->
  generate_followup create json_dumps_dict followup_context
  = Ok {| Followup.text := followup_fallback_text followup_context;
          Followup.should_generate_audio := false;
          Followup.new_state :=
            default State.INITIAL
                    (FollowupContext.last_state followup_context) |}.
Proof.
  intros Hreason Hcreate Htext Hshort.
  unfold generate_followup. rewrite Hcreate. cbn [exc_bind].
  rewrite Htext. cbn [exc_bind].
  replace (200 <? len response_text)%Z with false
    by (symmetry; apply Z.ltb_ge; exact Hshort).
  unfold follow_up_reason_lower. rewrite Hreason. reflexivity.
Qed.

End Followup_properties.

Lemma followup_keeps_terminal_state_witness :
  exists followup,
    generate_followup
      (fun _ => Ok (Completion.mk [Choice.mk (Some "Are you still looking for a loan?") "stop"]))
      (fun _ => "{}")
      (FollowupContext.mk (Some "Asha") (Some State.COMPLETED)
         (Some (Some "Scheduled based on conversation")) (Some 14%Z)
         (Some ∅) (Some ∅))
    = Ok followup
    /\ Followup.new_state followup = State.COMPLETED.
Proof.
  apply (followup_keeps_terminal_state _ _ _ State.COMPLETED).
  - reflexivity.
  - set_solver.
Defined.

Lemma followup_none_reason_falls_back_witness :
  generate_followup
    (fun _ => Ok (Completion.mk [Choice.mk (Some "Are you still looking for a loan?") "stop"]))
    (fun _ => "{}")
    (FollowupContext.mk (Some "Asha") (Some State.QUALIFYING)
       (Some None) (Some 14%Z) (Some ∅) (Some ∅))
  = Ok {| Followup.text :=
            followup_fallback_text
              (FollowupContext.mk (Some "Asha") (Some State.QUALIFYING)
                 (Some None) (Some 14%Z) (Some ∅) (Some ∅));
          Followup.should_generate_audio := false;
          Followup.new_state := State.QUALIFYING |}.
Proof.
  apply (followup_none_reason_falls_back
           (fun _ => Ok (Completion.mk [Choice.mk (Some "Are you still looking for a loan?") "stop"]))
           (fun _ => "{}")
           (FollowupContext.mk (Some "Asha") (Some State.QUALIFYING)
              (Some None) (Some 14%Z) (Some ∅) (Some ∅))
           (Completion.mk [Choice.mk (Some "Are you still looking for a loan?") "stop"])
           "Are you still looking for a loan?").
  - reflexivity.
  - reflexivity.
  - vm_compute. reflexivity.
  - vm_compute. discriminate.
Defined.

(** ** The interaction log *)

Lemma insert_by_timestamp_app row older newer :
  Forall (fun later =>
            (Interaction.timestamp row < Interaction.timestamp later)%Z) newer ->
  insert_by_timestamp row (older ++ newer)
  = insert_by_timestamp row older ++ newer.
Proof.
  intros Hnewer. induction older as [|first rest IH]; cbn.
  - destruct Hnewer as [|later newer Hlt _]; [reflexivity|].
    cbn. rewrite (proj2 (Z.leb_le _ _)) by lia. reflexivity.
  - destruct (_ <=? _)%Z; [reflexivity|]. by rewrite IH.
Qed.

Lemma insert_by_timestamp_perm row sorted :
  insert_by_timestamp row sorted ≡ₚ row :: sorted.
Proof.
  induction sorted as [|first rest IH]; cbn; [reflexivity|].
  destruct (_ <=? _)%Z; [reflexivity|].
  rewrite IH. apply Permutation_swap.
Qed.

Lemma order_by_timestamp_perm rows : order_by_timestamp rows ≡ₚ rows.
Proof.
  induction rows as [|row rows IH]; cbn; [reflexivity|].
  rewrite insert_by_timestamp_perm. by rewrite IH.
Qed.

Lemma order_by_timestamp_app older newer :
  (forall a b, a ∈ older -> b ∈ newer ->
               (Interaction.timestamp a < Interaction.timestamp b)%Z) ->
  order_by_timestamp (older ++ newer)
  = order_by_timestamp older ++ order_by_timestamp newer.
Proof.
  intros Hlt. unfold order_by_timestamp.
  induction older as [|row older IH]; [reflexivity|].
  cbn [app foldr]. rewrite IH.
  - apply insert_by_timestamp_app. apply Forall_forall. intros later Hlater.
    apply Hlt; [left|].
    pose proof (order_by_timestamp_perm newer) as Hperm.
    unfold order_by_timestamp in Hperm. by rewrite <- Hperm.
  - intros a b Ha Hb. apply Hlt; [by right|exact Hb].
Qed.

(** X18. [get_conversation_history] gives the oldest [limit] interactions
    of a customer: once the customer has that many, interactions recorded
    later (with later timestamps) never show in the history, so the history
    handed to the engine stays what it was. *)
Theorem history_is_oldest_rows (interactions newer : list Interaction.t)
    (customer : Customer.t) (limit : nat) :
  (limit <= length (interactions_of customer interactions))%nat ->
  (forall old new,
     old ∈ interactions_of customer interactions ->
     new ∈ interactions_of customer newer ->
     (Interaction.timestamp old < Interaction.timestamp new)%Z) ->
  get_conversation_history (interactions ++ newer) customer limit
  = get_conversation_history interactions customer limit.
Proof.
  intros Hlimit Hlater. unfold get_conversation_history.
  unfold interactions_of in *. rewrite filter_app.
  rewrite order_by_timestamp_app by exact Hlater.
  rewrite take_app_le; [reflexivity|].
  by rewrite (Permutation_length (order_by_timestamp_perm _)).
Qed.

Lemma history_is_oldest_rows_witness :
  get_conversation_history
    ([Interaction.mk 1 100 "inbound" "text" "Hello" "english" None;
      Interaction.mk 1 200 "outbound" "text" "Welcome" "english" None]
     ++ [Interaction.mk 1 300 "inbound" "text" "I need a loan" "english" None])
    (new_customer 1 "919800000001") 2
  = get_conversation_history
      [Interaction.mk 1 100 "inbound" "text" "Hello" "english" None;
       Interaction.mk 1 200 "outbound" "text" "Welcome" "english" None]
      (new_customer 1 "919800000001") 2.
Proof.
  apply history_is_oldest_rows.
  - vm_compute. lia.
  - intros old new Hold Hnew.
    apply list_elem_of_singleton in Hnew as ->.
    apply elem_of_cons in Hold as [->|Hold]; [vm_compute; reflexivity|].
    apply list_elem_of_singleton in Hold as ->. vm_compute. reflexivity.
Defined.

(** ** The interest levels recomputed *)

Lemma clamped_to_unit x : (0 <= py_max 0.0 (py_min 1.0 x) <= 1)%Q.
Proof.
  unfold py_min, py_max.
  repeat match goal with
         | |- context [if ?b then _ else _] => destruct b eqn:?
         end;
  repeat match goal with
         | H : Qle_bool _ _ = true |- _ => apply Qle_bool_iff in H
         | H : Qle_bool _ _ = false |- _ => apply Qle_bool_false in H
         end; lra.
Qed.

Lemma microseconds_per_day_pos : (0 < microseconds_per_day)%Z.
Proof. reflexivity. Qed.

Lemma timedelta_days_ok days :
  (Z.abs days <= 999999999)%Z ->
  timedelta_days days = Ok (days * microseconds_per_day)%Z.
Proof.
  intros Hdays. unfold timedelta_days.
  by rewrite (proj2 (Z.leb_le _ _) Hdays).
Qed.

Lemma datetime_add_ok moment delta :
  (0 <= moment + delta <= datetime_max)%Z ->
  datetime_add moment delta = Ok (moment + delta)%Z.
Proof.
  intros [Hlow Hhigh]. unfold datetime_add.
  rewrite (proj2 (Z.leb_le _ _) Hlow), (proj2 (Z.leb_le _ _) Hhigh).
  reflexivity.
Qed.

Lemma recompute_interest_level_column recent_cutoff interactions customer :
  recompute_interest_level recent_cutoff interactions customer
  = set_interest_level
      (Customer.interest_level
         (recompute_interest_level recent_cutoff interactions customer))
      customer.
Proof.
  unfold recompute_interest_level.
  destruct (order_by_timestamp _); [by destruct customer|].
  destruct (negb _); [reflexivity|by destruct customer].
Qed.

Lemma recompute_interest_level_range recent_cutoff interactions customer :
  recent_interactions_of recent_cutoff customer interactions <> [] ->
  (0 <= Customer.interest_level
          (recompute_interest_level recent_cutoff interactions customer) <= 1)%Q.
Proof.
  intros Hsome. unfold recompute_interest_level.
  destruct (order_by_timestamp _) as [|row rows] eqn:Hsorted.
  { exfalso. apply Hsome.
    pose proof (order_by_timestamp_perm
                  (recent_interactions_of recent_cutoff customer interactions))
      as Hperm.
    rewrite Hsorted in Hperm. exact (Permutation_nil Hperm). }
  set (interest_factor := py_max _ (py_min _ (fold_left _ _ _))).
  destruct (Qeq_bool _ _) eqn:Heq; cbn [negb].
  - apply Qeq_bool_iff in Heq. rewrite <- Heq. apply clamped_to_unit.
  - cbn. apply clamped_to_unit.
Qed.

(** X19. [update_customer_interest_levels] changes the column
    [interest_level] only; a customer with an interaction in the last 30
    days ends with a level in [0,1], whatever the level stored before, and a
    customer without one is left as it was. *)
Theorem interest_levels_recomputed (now : Z) (table : gmap string Customer.t)
    (interactions : list Interaction.t) (phone : string) (customer : Customer.t) :
  (30 * microseconds_per_day <= now <= datetime_max)%Z ->
  table !! phone = Some customer ->
  exists result updated,
    update_customer_interest_levels now table interactions = Ok result
    /\ result !! phone = Some updated
    /\ updated = set_interest_level (Customer.interest_level updated) customer
    /\ (recent_interactions_of (now - 30 * microseconds_per_day) customer
          interactions <> [] ->
        (0 <= Customer.interest_level updated <= 1)%Q)
    /\ (recent_interactions_of (now - 30 * microseconds_per_day) customer
          interactions = [] ->
        updated = customer).
Proof.
  intros Hnow Hlookup. unfold update_customer_interest_levels.
  rewrite timedelta_days_ok by lia. cbn [exc_bind].
  rewrite datetime_add_ok by (pose proof microseconds_per_day_pos; lia).
  cbn [exc_bind].
  change (now + - (30 * microseconds_per_day))%Z
    with (now - 30 * microseconds_per_day)%Z.
  set (recent_cutoff := (now - 30 * microseconds_per_day)%Z).
  eexists _, _. split; [reflexivity|].
  rewrite lookup_fmap, Hlookup. cbn [fmap option_fmap option_map].
  split; [reflexivity|].
  assert (Hactive :
    Exists (fun row => Interaction.customer row = Customer.id customer
                       /\ (recent_cutoff <= Interaction.timestamp row)%Z)
           interactions
    <-> recent_interactions_of recent_cutoff customer interactions <> []).
  { unfold recent_interactions_of. rewrite Exists_exists. split.
    - intros (row & Hin & Hrow) Hnil.
      assert (Hrow' : row ∈ filter (fun row =>
                 Interaction.customer row = Customer.id customer
                 /\ (recent_cutoff <= Interaction.timestamp row)%Z) interactions)
        by (apply list_elem_of_filter; done).
      rewrite Hnil in Hrow'. by apply not_elem_of_nil in Hrow'.
    - intros Hsome.
      destruct (filter _ interactions) as [|row rows] eqn:Hfilter; [done|].
      assert (Hrow : row ∈ filter (fun row =>
                 Interaction.customer row = Customer.id customer
                 /\ (recent_cutoff <= Interaction.timestamp row)%Z) interactions)
        by (rewrite Hfilter; left).
      apply list_elem_of_filter in Hrow as [Hrow Hin]. by exists row. }
  case_bool_decide as Hdec.
  - split; [apply recompute_interest_level_column|].
    split.
    + intros Hsome. by apply recompute_interest_level_range.
    + intros Hnone. by apply Hactive in Hdec.
  - split; [by destruct customer|].
    split; [|reflexivity].
    intros Hsome. by apply Hactive in Hsome.
Qed.

Lemma interest_levels_recomputed_witness :
  exists result updated,
    update_customer_interest_levels (3000 * microseconds_per_day)
      (<["919800000001" := set_interest_level 1.7 (new_customer 1 "919800000001")]> ∅)
      [Interaction.mk 1 (2990 * microseconds_per_day) "inbound" "text"
         "What is the interest rate?" "english" (Some "needs_more_info")]
    = Ok result
    /\ result !! "919800000001" = Some updated
    /\ (0 <= Customer.interest_level updated <= 1)%Q.
Proof.
  destruct (interest_levels_recomputed (3000 * microseconds_per_day)
              (<["919800000001" := set_interest_level 1.7 (new_customer 1 "919800000001")]> ∅)
              [Interaction.mk 1 (2990 * microseconds_per_day) "inbound" "text"
                 "What is the interest rate?" "english" (Some "needs_more_info")]
              "919800000001"
              (set_interest_level 1.7 (new_customer 1 "919800000001")))
    as (result & updated & Hrun & Hrow & _ & Hrange & _).
  - vm_compute. split; discriminate.
  - vm_compute. reflexivity.
  - exists result, updated. split; [exact Hrun|]. split; [exact Hrow|].
    apply Hrange. vm_compute. discriminate.
Defined.

(** ** Scheduling a follow-up *)

Lemma schedule_followup_days (days : Z) (now : Z) (customer : Customer.t)
    (time_frame : string) (agenda : Agenda.t) :
  last_char time_frame = Ok "d"%char ->
  py_int (but_last time_frame) = Ok days ->
  (0 <= days <= 90)%Z ->
  (0 <= now)%Z ->
  (now + 90 * microseconds_per_day <= datetime_max)%Z ->
  schedule_followup now customer time_frame agenda
  = Ok {| Agenda.next_contact_date :=
            <[Customer.id customer := (now + days * microseconds_per_day)%Z]>
              (Agenda.next_contact_date agenda);
          Agenda.followups :=
            Agenda.followups agenda
            ++ [{| FollowUp.customer := Customer.id customer;
                   FollowUp.scheduled_date := (now + days * microseconds_per_day)%Z;
                   FollowUp.status := "pending";
                   FollowUp.follow_up_type := "general";
                   FollowUp.follow_up_reason := Some "Scheduled based on conversation";
                   FollowUp.result_notes := None |}] |}.
Proof.
  intros Hunit Hvalue Hdays Hnow Hmax. unfold schedule_followup.
  rewrite Hunit, Hvalue. cbn [exc_bind]. cbn [Ascii.eqb Bool.eqb].
  rewrite timedelta_days_ok by lia. cbn [exc_bind].
  rewrite datetime_add_ok; [reflexivity|].
  pose proof microseconds_per_day_pos. nia.
Qed.

(** X20. Every follow-up interval that [_calculate_follow_up_date] can
    return is understood by [schedule_followup]: it does not raise, it sets
    the next contact date of the customer 7, 14, 21, 30 or 90 days after
    [now], and it adds one pending follow-up of type [general] for that
    date. The clock has to leave 90 days before the end of the calendar. *)
Theorem follow_up_date_is_scheduled (intent state time_frame : string)
    (now : Z) (customer : Customer.t) (agenda : Agenda.t) :
  _calculate_follow_up_date intent state = Some time_frame ->
  (0 <= now)%Z ->
  (now + 90 * microseconds_per_day <= datetime_max)%Z ->
  exists days,
    days ∈ [7; 14; 21; 30; 90]%Z
    /\ schedule_followup now customer time_frame agenda
       = Ok {| Agenda.next_contact_date :=
                 <[Customer.id customer := (now + days * microseconds_per_day)%Z]>
                   (Agenda.next_contact_date agenda);
               Agenda.followups :=
                 Agenda.followups agenda
                 ++ [{| FollowUp.customer := Customer.id customer;
                        FollowUp.scheduled_date :=
                          (now + days * microseconds_per_day)%Z;
                        FollowUp.status := "pending";
                        FollowUp.follow_up_type := "general";
                        FollowUp.follow_up_reason :=
                          Some "Scheduled based on conversation";
                        FollowUp.result_notes := None |}] |}.
Proof.
  intros Hdate Hnow Hmax. unfold _calculate_follow_up_date in Hdate.
  repeat match type of Hdate with
         | (if ?b then _ else _) = _ => destruct b
         end;
  try discriminate; injection Hdate as <-.
  - exists 7%Z. split; [set_solver|].
    apply schedule_followup_days; [reflexivity|vm_compute; reflexivity|lia|done|done].
  - exists 14%Z. split; [set_solver|].
    apply schedule_followup_days; [reflexivity|vm_compute; reflexivity|lia|done|done].
  - exists 90%Z. split; [set_solver|].
    apply schedule_followup_days; [reflexivity|vm_compute; reflexivity|lia|done|done].
  - exists 21%Z. split; [set_solver|].
    apply schedule_followup_days; [reflexivity|vm_compute; reflexivity|lia|done|done].
  - exists 30%Z. split; [set_solver|].
    apply schedule_followup_days; [reflexivity|vm_compute; reflexivity|lia|done|done].
Qed.

Lemma follow_up_date_is_scheduled_witness :
  exists days,
    days ∈ [7; 14; 21; 30; 90]%Z
    /\ schedule_followup (739000 * microseconds_per_day)
         (new_customer 1 "919800000001") "21d" (Agenda.mk ∅ [])
       = Ok {| Agenda.next_contact_date :=
                 <[1%Z := (739000 * microseconds_per_day
                           + days * microseconds_per_day)%Z]> ∅;
               Agenda.followups :=
                 [{| FollowUp.customer := 1;
                     FollowUp.scheduled_date :=
                       (739000 * microseconds_per_day
                        + days * microseconds_per_day)%Z;
                     FollowUp.status := "pending";
                     FollowUp.follow_up_type := "general";
                     FollowUp.follow_up_reason :=
                       Some "Scheduled based on conversation";
                     FollowUp.result_notes := None |}] |}.
Proof.
  apply (follow_up_date_is_scheduled Intent.OBJECTION State.OBJECTION_HANDLING
           "21d" (739000 * microseconds_per_day)
           (new_customer 1 "919800000001") (Agenda.mk ∅ [])).
  - vm_compute. reflexivity.
  - vm_compute. discriminate.
  - vm_compute. discriminate.
Defined.

(** ** Languages *)

Lemma has_key_elem {V} key (items : list (string * V)) :
  has_key key items = true -> key ∈ map fst items.
Proof.
  unfold has_key. induction items as [|[k v] items IH]; simpl; [discriminate|].
  destruct (String.eqb_spec k key) as [->|_]; simpl; [left|right; auto].
Qed.

Section Language_properties.

Variable create : Request.t -> exc Completion.t.

(** X21. [detect_language] returns for every text and every outcome of the
    completion call, and what it returns is one of the five supported
    languages; so the engine that the message handler looks up for the
    detected language is the engine of that language. *)
Theorem detect_language_supported (text : string) :
  exists language,
    detect_language create text = Ok language
    /\ language ∈ map fst supported_languages
    /\ forall phone_number english_text conversation_history,
         engine_language
           (Inbound.mk phone_number language english_text conversation_history)
         = language.
Proof.
  assert (Hengine : forall language,
            language ∈ map fst supported_languages ->
            forall phone_number english_text conversation_history,
              engine_language
                (Inbound.mk phone_number language english_text
                   conversation_history) = language).
  { intros language Hin phone_number english_text conversation_history.
    unfold engine_language, in_list. cbn [Inbound.detected_language].
    by rewrite bool_decide_eq_true_2. }
  assert (Henglish : "english" ∈ map fst supported_languages) by (by left).
  unfold detect_language.
  destruct (_ || _); [by eauto|].
  destruct (create _) as [response|e]; cbn [exc_bind try_except]; [|by eauto].
  destruct (first_content_stripped response) as [stripped|e];
    cbn [exc_bind try_except]; [|by eauto].
  destruct (has_key _ _) eqn:Hkey.
  { apply has_key_elem in Hkey. by eauto. }
  destruct (find _ (map fst _)) as [lang|] eqn:Hname.
  { apply find_some in Hname as [Hin _]. apply list_elem_of_In in Hin. by eauto. }
  destruct (find _ language_codes) as [[code lang]|] eqn:Hcode; [|by eauto].
  apply find_some in Hcode as [Hin _].
  assert (lang ∈ map fst supported_languages).
  { simpl in Hin.
    repeat (destruct Hin as [[= <- <-]|Hin];
              [apply list_elem_of_In; simpl; tauto|]). done. }
  by eauto.
Qed.


End Language_properties.


(** ** Campaign messages *)

Lemma split_once_shape sep s :
  (exists part0, split_once sep s = [part0])
  \/ (exists part0 part1, split_once sep s = [part0; part1]).
Proof.
  induction s as [|c s IH]; simpl; [left; by eexists|].
  destruct (c =? sep)%char; [right; by eexists _, _|].
  destruct IH as [[part0 ->]|(part0 & part1 & ->)]; [left|right]; by eauto.
Qed.

Lemma split_once_contains (sep : ascii) s :
  contains (String sep EmptyString) s = true ->
  exists part0 part1, split_once sep s = [part0; part1].
Proof.
  unfold contains. induction s as [|c s IH]; simpl; [discriminate|].
  destruct (Ascii.eqb_spec c sep) as [->|Hne]; [by eexists _, _|].
  destruct (ascii_dec sep c) as [->|_]; [done|].
  destruct (String.index 0 (String sep EmptyString) s); [|discriminate].
  intros _. destruct IH as (part0 & part1 & ->); [done|]. by eexists _, _.
Qed.

Lemma has_key_items_get key (items : list (string * json)) :
  has_key key items = true -> exists value, items_get key items = Some value.
Proof.
  unfold has_key. induction items as [|[k v] items IH]; simpl; [discriminate|].
  destruct (String.eqb k key); simpl; [by eexists|exact IH].
Qed.

Lemma has_key_items_set key k value (items : list (string * json)) :
  has_key key (items_set k value items)
  = has_key key items || String.eqb k key.
Proof.
  unfold has_key. induction items as [|[k' v'] items IH]; simpl.
  - by rewrite orb_false_r.
  - destruct (String.eqb_spec k' k) as [->|Hne]; simpl.
    + destruct (String.eqb_spec k key); simpl; [reflexivity|].
      by rewrite orb_false_r.
    + rewrite IH. by rewrite orb_assoc.
Qed.

Lemma items_get_items_set key value (items : list (string * json)) :
  items_get key (items_set key value items) = Some value.
Proof.
  induction items as [|[k v] items IH]; simpl.
  - by rewrite String.eqb_refl.
  - destruct (String.eqb k key) eqn:Hk; simpl; by rewrite Hk.
Qed.

(** The keys of the parameters after the second loop. *)
Lemma has_key_add_params key customer_data : forall template_params,
  has_key key (fold_left add_param customer_data template_params)
  = has_key key template_params
    || existsb (fun item => String.eqb item.1 key
                            && match item.2 with JStr _ => true | _ => false end)
               customer_data.
Proof.
  induction customer_data as [|[k v] customer_data IH]; intros template_params;
    simpl; [by rewrite orb_false_r|].
  rewrite IH. unfold add_param. simpl.
  destruct v; simpl; rewrite ?andb_false_r; try reflexivity.
  rewrite has_key_items_set, andb_true_r. by rewrite orb_assoc.
Qed.

Lemma str_take_length n s : (String.length (str_take n s) <= n)%nat.
Proof.
  revert s. induction n as [|n IH]; intros [|c s]; simpl; try lia.
  specialize (IH s). lia.
Qed.

(** [generate_campaign_message] returns: the second part of the header is
    read only behind the test for the colon. *)
Lemma generate_campaign_message_returns template customer_data :
  exists message, generate_campaign_message template customer_data = Ok message.
Proof.
  unfold generate_campaign_message. cbv zeta.
  assert (Hrest : forall name preview,
    exists message,
      (let* template_params :=
         if negb (has_key "name" (fold_left add_param customer_data []))
            && has_key "customer_name" customer_data
         then
           let* customer_name := items_item "customer_name" customer_data in
           Ok (items_set "name" customer_name
                 (fold_left add_param customer_data []))
         else Ok (fold_left add_param customer_data []) in
       Ok {| CampaignMessage.preview := preview;
             CampaignMessage.template_name := name;
             CampaignMessage.template_params :=
               if negb (has_key "default_text" template_params)
               then items_set "default_text" (JStr (str_take 120 preview))
                              template_params
               else template_params |}) = Ok message).
  { intros name preview.
    destruct (negb _ && has_key "customer_name" customer_data) eqn:Hname.
    - apply andb_true_iff in Hname as [_ Hname].
      destruct (has_key_items_get _ _ Hname) as [value Hvalue].
      unfold items_item. rewrite Hvalue. cbn [exc_bind]. by eauto.
    - cbn [exc_bind]. by eauto. }
  destruct (split_char _ _) as [|line0 rest]; cbn [exc_bind]; [apply Hrest|].
  destruct (contains ":" line0) eqn:Hcolon; cbn [exc_bind]; [|apply Hrest].
  destruct (split_once_contains _ _ Hcolon) as (part0 & part1 & ->).
  cbn [item0 item1 exc_bind].
  destruct (String.eqb _ _); cbn [exc_bind]; apply Hrest.
Qed.

(** X23. [generate_campaign_message] returns for every template and every
    customer data. When the data carry no text under [default_text], the
    parameter [default_text] of the result is the preview cut to its first
    120 characters. *)
Theorem campaign_default_text_truncated template customer_data :
  (forall text, ("default_text", JStr text) ∉ customer_data) ->
  exists message,
    generate_campaign_message template customer_data = Ok message
    /\ items_get "default_text" (CampaignMessage.template_params message)
       = Some (JStr (str_take 120 (CampaignMessage.preview message)))
    /\ (String.length (str_take 120 (CampaignMessage.preview message)) <= 120)%nat.
Proof.
  intros Habsent.
  assert (Hkey : forall template_params,
            has_key "default_text" template_params = false ->
            has_key "default_text"
              (fold_left add_param customer_data template_params) = false).
  { intros template_params Hparams. rewrite has_key_add_params, Hparams. simpl.
    apply not_true_iff_false. intros Hex. apply existsb_exists in Hex
      as ([k v] & Hin & Hitem). simpl in Hitem.
    apply andb_true_iff in Hitem as [Hk Hv].
    apply String.eqb_eq in Hk as ->. destruct v; try discriminate.
    apply (Habsent s). by apply list_elem_of_In. }
  destruct (generate_campaign_message_returns template customer_data)
    as [message Hrun].
  exists message. split; [exact Hrun|]. split; [|apply str_take_length].
  unfold generate_campaign_message in Hrun. cbv zeta in Hrun.
  destruct (match split_char _ _ with [] => _ | _ => _ end)
    as [[name preview]|e]; cbn [exc_bind] in Hrun; [|discriminate].
  destruct (if negb _ && _ then _ else _) as [template_params|e] eqn:Hparams;
    cbn [exc_bind] in Hrun; [|discriminate].
  assert (Hno : has_key "default_text" template_params = false).
  { destruct (negb _ && has_key "customer_name" customer_data).
    - destruct (items_item _ _) as [value|e]; cbn [exc_bind] in Hparams;
        [|discriminate].
      injection Hparams as <-. rewrite has_key_items_set.
      by rewrite Hkey. 
    - injection Hparams as <-. by apply Hkey. }
  rewrite Hno in Hrun. cbn [negb] in Hrun. injection Hrun as <-.
  cbn [CampaignMessage.template_params CampaignMessage.preview].
  apply items_get_items_set.
Qed.

Lemma campaign_default_text_truncated_witness :
  exists message,
    generate_campaign_message "Hello {name}, we have an offer for your {property_type}."
      [("name", JStr "Asha"); ("property_type", JStr "flat"); ("age", JNum 41)]
    = Ok message
    /\ items_get "default_text" (CampaignMessage.template_params message)
       = Some (JStr (str_take 120 (CampaignMessage.preview message)))
    /\ (String.length (str_take 120 (CampaignMessage.preview message)) <= 120)%nat.
Proof.
  apply campaign_default_text_truncated.
  intros text Hin.
  repeat (apply elem_of_cons in Hin as [Hin|Hin]; [discriminate Hin|]).
  by apply elem_of_nil in Hin.
Defined.

(** The lines of a text, joined again, are the text. *)
Lemma split_char_nonempty sep s : split_char sep s <> [].
Proof.
  destruct s as [|c s]; simpl; [done|].
  destruct (c =? sep)%char; [done|]. by destruct (split_char sep s).
Qed.

Lemma concat_cons sep first rest :
  rest <> [] ->
  String.concat sep (first :: rest) = first +:+ sep +:+ String.concat sep rest.
Proof. destruct rest; [done|reflexivity]. Qed.

Lemma concat_split_char s :
  String.concat newline (split_char (ascii_of_nat 10) s) = s.
Proof.
  induction s as [|c s IH]; [reflexivity|].
  cbn [split_char].
  destruct (Ascii.eqb_spec c (ascii_of_nat 10)) as [->|Hne].
  - rewrite concat_cons by apply split_char_nonempty. by rewrite IH.
  - pose proof (split_char_nonempty (ascii_of_nat 10) s) as Hsome.
    destruct (split_char (ascii_of_nat 10) s) as [|first rest]; [done|].
    destruct rest as [|second rest].
    + simpl in *. by rewrite IH.
    + rewrite concat_cons in IH by done. rewrite concat_cons by done.
      rewrite <- IH. reflexivity.
Qed.

Lemma split_char_first sep first rest :
  lacks sep first = true ->
  split_char sep (first +:+ String sep rest) = first :: split_char sep rest.
Proof.
  intros Hfirst. induction first as [|c first IH].
  - simpl. by rewrite Ascii.eqb_refl.
  - simpl in Hfirst. apply andb_true_iff in Hfirst as [Hc Hfirst].
    rewrite append_cons. cbn [split_char]. rewrite IH by exact Hfirst.
    by destruct (c =? sep)%char.
Qed.

Lemma split_once_first sep first rest :
  lacks sep first = true ->
  split_once sep (first +:+ String sep rest) = [first; rest].
Proof.
  intros Hfirst. induction first as [|c first IH].
  - simpl. by rewrite Ascii.eqb_refl.
  - simpl in Hfirst. apply andb_true_iff in Hfirst as [Hc Hfirst].
    rewrite append_cons. cbn [split_once]. rewrite IH by exact Hfirst.
    by destruct (c =? sep)%char.
Qed.

Lemma prefix_nil s : String.prefix EmptyString s = true.
Proof. by destruct s. Qed.

Lemma contains_char_app (sep : ascii) first rest :
  contains (String sep EmptyString) (first +:+ String sep rest) = true.
Proof.
  unfold contains. induction first as [|c first IH].
  - rewrite append_nil_l. simpl. destruct (ascii_dec sep sep); [|done].
    by rewrite prefix_nil.
  - rewrite append_cons. simpl.
    destruct (ascii_dec sep c); [by rewrite prefix_nil|].
    by destruct (String.index 0 _ (first +:+ String sep rest)).
Qed.

Lemma lacks_app p a b :
  lacks p a = true -> lacks p b = true -> lacks p (a +:+ b) = true.
Proof.
  intros Ha Hb. induction a as [|c a IH]; [exact Hb|].
  rewrite append_cons. simpl in *.
  apply andb_true_iff in Ha as [Hc Ha]. by rewrite Hc, IH.
Qed.

(** X24. A template that opens with a [Template Name:] line gives its name
    to the message, and the preview is the rest of the template as it is
    written: the text in which the placeholders were replaced is dropped,
    so the preview does not depend on the customer data. *)
Theorem campaign_header_drops_substitution template customer_data
    header name body :
  strip template
    = header +:+ ":" +:+ name +:+ newline +:+ body ->
  lacks ":" header = true ->
  lacks (ascii_of_nat 10) header = true ->
  lacks (ascii_of_nat 10) name = true ->
  lower (strip header) = "template name" ->
  exists message,
    generate_campaign_message template customer_data = Ok message
    /\ CampaignMessage.template_name message = strip name
    /\ CampaignMessage.preview message = strip body.
Proof.
  intros Htemplate Hcolon Hline Hname Hheader.
  destruct (generate_campaign_message_returns template customer_data)
    as [message Hrun].
  exists message. split; [exact Hrun|].
  unfold generate_campaign_message in Hrun. cbv zeta in Hrun.
  rewrite Htemplate in Hrun.
  assert (Hlines :
    split_char (ascii_of_nat 10) (header +:+ ":" +:+ name +:+ newline +:+ body)
    = (header +:+ ":" +:+ name) :: split_char (ascii_of_nat 10) body).
  { rewrite <- (split_char_first (ascii_of_nat 10) (header +:+ ":" +:+ name) body).
    - f_equal. rewrite append_assoc. f_equal.
    - apply lacks_app; [exact Hline|]. exact Hname. }
  rewrite Hlines in Hrun.
  change (header +:+ ":" +:+ name) with (header +:+ String ":"%char name) in Hrun.
  rewrite contains_char_app in Hrun.
  rewrite (split_once_first _ _ _ Hcolon) in Hrun.
  cbn [item0 item1 exc_bind] in Hrun. rewrite Hheader in Hrun.
  cbn [String.eqb] in Hrun.
  rewrite concat_split_char in Hrun.
  change (String.eqb "template name" "template name") with true in Hrun.
  cbn [exc_bind] in Hrun.
  destruct (if negb _ && _ then _ else _) as [template_params|e];
    cbn [exc_bind] in Hrun; [|discriminate].
  injection Hrun as <-. split; reflexivity.
Qed.

Lemma campaign_header_drops_substitution_witness :
  exists message,
    generate_campaign_message
      ("Template Name: loan_offer" +:+ newline +:+ "Hello {name}, your offer is ready.")
      [("name", JStr "Asha")]
    = Ok message
    /\ CampaignMessage.template_name message = "loan_offer"
    /\ CampaignMessage.preview message = "Hello {name}, your offer is ready.".
Proof.
  apply (campaign_header_drops_substitution
           ("Template Name: loan_offer" +:+ newline +:+ "Hello {name}, your offer is ready.")
           [("name", JStr "Asha")]
           "Template Name" " loan_offer" "Hello {name}, your offer is ready.");
    reflexivity.
Defined.

(** ** Campaign targets *)

(** A row that the query of [update_campaign_targets] leaves out. *)
Lemma update_targets_passed now customer status targets : forall reads totals,
  Forall (fun target =>
            CampaignTarget.customer target <> Customer.id customer
            \/ CampaignTarget.status target <> "sent") targets ->
  update_targets now reads customer status targets totals = (targets, totals).
Proof.
  induction targets as [|target rest IH]; intros reads totals Hnone;
    [reflexivity|].
  apply Forall_cons in Hnone as [Htarget Hrest]. cbn [update_targets].
  replace (bool_decide _ && _) with false.
  - by rewrite IH.
  - symmetry. apply andb_false_iff.
    destruct Htarget as [Hc|Hs]; [left; by apply bool_decide_eq_false_2|right].
    by apply String.eqb_neq.
Qed.

Lemma update_targets_rows now customer status targets : forall reads totals,
  status <> "sent" ->
  let after := (update_targets now reads customer status targets totals).1 in
  length after = length targets
  /\ Forall (fun target =>
               CampaignTarget.customer target <> Customer.id customer
               \/ CampaignTarget.status target <> "sent") after
  /\ (forall i target,
        targets !! i = Some target ->
        CampaignTarget.customer target <> Customer.id customer
        \/ CampaignTarget.status target <> "sent" ->
        after !! i = Some target).
Proof.
  intros reads totals Hstatus. revert reads totals.
  induction targets as [|target rest IH]; intros reads totals; cbn zeta.
  { split; [reflexivity|]. split; [constructor|]. by intros i target. }
  cbn [update_targets].
  destruct (bool_decide _ && _) eqn:Hmatch.
  - specialize (IH (S reads)
                  (if String.eqb status "responded"
                   then alter (fun total => (total + 1)%Z)
                              (CampaignTarget.campaign target) totals
                   else totals)).
    destruct (update_targets _ _ _ _ rest _) as [rest' totals'].
    cbn [fst] in *. destruct IH as (Hlen & Hdone & Hframe).
    split; [by rewrite length_cons, Hlen|]. split.
    + constructor; [by right|exact Hdone].
    + intros [|i] other; cbn.
      * intros [= <-] Hout. exfalso.
        apply andb_true_iff in Hmatch as [Hc Hs].
        apply bool_decide_eq_true_1 in Hc. apply String.eqb_eq in Hs.
        destruct Hout; done.
      * apply Hframe.
  - specialize (IH reads totals).
    destruct (update_targets _ _ _ _ rest _) as [rest' totals'].
    cbn [fst] in *. destruct IH as (Hlen & Hdone & Hframe).
    split; [by rewrite length_cons, Hlen|]. split.
    + constructor; [|exact Hdone].
      apply andb_false_iff in Hmatch as [Hc|Hs];
        [left; by apply bool_decide_eq_false_1 in Hc
        |right; by apply String.eqb_neq in Hs].
    + intros [|i] other; cbn; [by intros [= <-]|apply Hframe].
Qed.

(** X25. A response is counted once. After [update_campaign_targets] ran
    for a customer with a status other than [sent], no target of the
    customer is left with the status [sent], the targets that were not
    (those of other customers, and those with another status) are as they
    were, and a second run changes nothing. *)
Theorem campaign_response_counted_once (now later : nat -> Z)
    (customer : Customer.t) (status : string) (campaigns : Campaigns.t) :
  status <> "sent" ->
  let once := update_campaign_targets now customer status campaigns in
  update_campaign_targets later customer status once = once
  /\ length (Campaigns.targets once) = length (Campaigns.targets campaigns)
  /\ Forall (fun target =>
               CampaignTarget.customer target <> Customer.id customer
               \/ CampaignTarget.status target <> "sent")
            (Campaigns.targets once)
  /\ (forall i target,
        Campaigns.targets campaigns !! i = Some target ->
        CampaignTarget.customer target <> Customer.id customer
        \/ CampaignTarget.status target <> "sent" ->
        Campaigns.targets once !! i = Some target).
Proof.
  intros Hstatus once. subst once. unfold update_campaign_targets.
  pose proof (update_targets_rows now customer status
                (Campaigns.targets campaigns) 0
                (Campaigns.total_responses campaigns) Hstatus) as Hrows.
  cbn zeta in Hrows.
  destruct (update_targets now 0 customer status _ _) as [targets totals].
  cbn [fst Campaigns.targets Campaigns.total_responses] in *.
  destruct Hrows as (Hlen & Hdone & Hframe).
  split; [|done].
  by rewrite (update_targets_passed later customer status targets 0 totals Hdone).
Qed.

Lemma campaign_response_counted_once_witness :
  update_campaign_targets (fun n => 2000 + Z.of_nat n)%Z
    (new_customer 1 "919800000001") "responded"
    (update_campaign_targets (fun n => 1000 + Z.of_nat n)%Z
       (new_customer 1 "919800000001") "responded"
       (Campaigns.mk
          [CampaignTarget.mk 7 1 "sent" None; CampaignTarget.mk 7 2 "sent" None;
           CampaignTarget.mk 8 1 "pending" None]
          {[ 7%Z := 3%Z; 8%Z := 0%Z ]}))
  = Campaigns.mk
      [CampaignTarget.mk 7 1 "responded" (Some 1000%Z);
       CampaignTarget.mk 7 2 "sent" None;
       CampaignTarget.mk 8 1 "pending" None]
      {[ 7%Z := 4%Z; 8%Z := 0%Z ]}.
Proof.
  destruct (campaign_response_counted_once
              (fun n => 1000 + Z.of_nat n)%Z (fun n => 2000 + Z.of_nat n)%Z
              (new_customer 1 "919800000001") "responded"
              (Campaigns.mk
                 [CampaignTarget.mk 7 1 "sent" None;
                  CampaignTarget.mk 7 2 "sent" None;
                  CampaignTarget.mk 8 1 "pending" None]
                 {[ 7%Z := 3%Z; 8%Z := 0%Z ]}))
    as [Hsame _]; [discriminate|].
  cbv zeta in Hsame. rewrite Hsame. vm_compute. reflexivity.
Defined.

Lemma update_targets_totals now customer targets campaign :
  forall reads totals,
    (update_targets now reads customer "responded" targets totals).2 !! campaign
    = (fun total => (total + sent_targets customer campaign targets)%Z)
        <$> totals !! campaign.
Proof.
  unfold sent_targets.
  induction targets as [|target rest IH]; intros reads totals.
  { cbn [update_targets snd]. rewrite filter_nil.
    destruct (totals !! campaign) as [total|];
      cbn [fmap option_fmap option_map length]; [|done].
    f_equal. lia. }
  cbn [update_targets]. rewrite filter_cons.
  destruct (bool_decide _ && _) eqn:Hmatch.
  - apply andb_true_iff in Hmatch as [Hc Hs].
    apply bool_decide_eq_true_1 in Hc. apply String.eqb_eq in Hs.
    change (String.eqb "responded" "responded") with true. cbn iota.
    specialize (IH (S reads)
                  (alter (fun total => (total + 1)%Z)
                         (CampaignTarget.campaign target) totals)).
    destruct (update_targets _ _ _ _ rest _) as [rest' totals'].
    cbn [snd] in *. rewrite IH.
    destruct (decide (CampaignTarget.campaign target = campaign)) as [<-|Hne].
    + rewrite decide_True by done. rewrite lookup_alter_eq.
      destruct (totals !! _) as [total|];
        cbn [fmap option_fmap option_map]; [|done].
      f_equal. rewrite length_cons. lia.
    + rewrite decide_False by (intros (_ & _ & H); done).
      by rewrite lookup_alter_ne.
  - specialize (IH reads totals).
    destruct (update_targets _ _ _ _ rest _) as [rest' totals'].
    cbn [snd] in *. rewrite IH.
    rewrite decide_False; [done|].
    intros (Hc & Hs & _).
    apply andb_false_iff in Hmatch as [H|H];
      [by apply bool_decide_eq_false_1 in H|by apply String.eqb_neq in H].
Qed.

Lemma update_targets_totals_other now customer status targets :
  forall reads totals,
    String.eqb status "responded" = false ->
    (update_targets now reads customer status targets totals).2 = totals.
Proof.
  induction targets as [|target rest IH]; intros reads totals Hother;
    [reflexivity|].
  cbn [update_targets]. rewrite Hother.
  destruct (bool_decide _ && _).
  - specialize (IH (S reads) totals Hother).
    by destruct (update_targets _ _ _ _ rest _).
  - specialize (IH reads totals Hother).
    by destruct (update_targets _ _ _ _ rest _).
Qed.

(** X26. With the status [responded], [update_campaign_targets] adds to
    [total_responses] of each campaign the number of targets of the
    customer in that campaign that had the status [sent], and it adds no
    campaign; with another status [total_responses] is not written. *)
Theorem campaign_responses_counted (now : nat -> Z) (customer : Customer.t)
    (status : string) (campaigns : Campaigns.t) (campaign : Z) :
  Campaigns.total_responses
    (update_campaign_targets now customer status campaigns) !! campaign
  = (fun total =>
       if String.eqb status "responded"
       then (total + sent_targets customer campaign
                       (Campaigns.targets campaigns))%Z
       else total)
      <$> Campaigns.total_responses campaigns !! campaign.
Proof.
  unfold update_campaign_targets.
  destruct (String.eqb status "responded") eqn:Hstatus.
  - apply String.eqb_eq in Hstatus as ->.
    pose proof (update_targets_totals now customer
                  (Campaigns.targets campaigns) campaign 0
                  (Campaigns.total_responses campaigns)) as Htotals.
    by destruct (update_targets _ _ _ _ _ _).
  - pose proof (update_targets_totals_other now customer status
                  (Campaigns.targets campaigns) 0
                  (Campaigns.total_responses campaigns) Hstatus) as Htotals.
    destruct (update_targets _ _ _ _ _ _) as [targets totals].
    cbn [snd Campaigns.total_responses] in *. rewrite Htotals.
    by destruct (_ !! campaign).
Qed.

(** ** Marking a message read *)

(** X27. [mark_message_read] posts its payload once whatever the answer is
    (it is not tried again), it leaves the counts and the windows of the
    client alone (marking is not rate-limited), and it raises no
    [RequestException]: the failure of the request becomes the result. *)
Theorem mark_read_posts_once (client : Client.t) (world : World.t)
    (message_id : json) :
  exists outcome,
    mark_message_read message_id (client, world)
    = (outcome, (client, after_post (read_payload message_id) world))
    /\ match outcome with
       | Ok result =>
           World.post world (length (World.sent world)) (read_payload message_id)
             = Ok result
           \/ exists e,
               World.post world (length (World.sent world))
                          (read_payload message_id) = Raise e
               /\ is_request_exception e = true
               /\ result = JObj [("error", JStr (exn_msg e))]
       | Raise e => is_request_exception e = false
       end.
Proof.
  unfold mark_message_read, requests_post, after_post.
  destruct (World.post world _ _) as [result|e] eqn:Hpost.
  - eexists. split; [reflexivity|]. by left.
  - destruct (is_request_exception e) eqn:Hkind.
    + eexists. split; [reflexivity|]. right. by exists e.
    + eexists. split; [reflexivity|]. exact Hkind.
Qed.

(** ** The webhook *)

Lemma for_steps_app {A} (body : A -> steps unit) xs ys :
  for_steps body (xs ++ ys)
  = let+ _ := for_steps body xs in for_steps body ys.
Proof.
  induction xs as [|x xs IH]; cbn [app for_steps].
  - unfold steps_ret, steps_bind. by destruct (for_steps body ys).
  - rewrite IH. unfold steps_bind.
    destruct (body x) as [done [[]|e]]; [|reflexivity].
    destruct (for_steps body xs) as [done' [[]|e']]; [|reflexivity].
    destruct (for_steps body ys) as [done'' result]. by rewrite app_assoc.
Qed.

Lemma handle_text_message sender message_id timestamp body :
  handle_message (text_message sender message_id timestamp body)
  = (text_actions sender message_id timestamp body, Ok tt).
Proof. reflexivity. Qed.

Lemma for_steps_text_messages messages :
  for_steps handle_message (map message_of messages)
  = (flat_map actions_of messages, Ok tt).
Proof.
  induction messages as [|[[[sender message_id] timestamp] body] rest IH];
    [reflexivity|].
  cbn [map for_steps flat_map message_of actions_of].
  rewrite handle_text_message, IH. reflexivity.
Qed.

(** X28. The webhook data that the simulator builds for an incoming
    message are understood by the webhook: the message is marked read and
    then handed to the handler of its type, once, with the sender, the
    content (or the media id), the message id and the timestamp of the
    simulator, and the status is [processing]. A message of another type
    is marked read only. *)
Theorem simulated_message_reaches_handler (timestamp : Z)
    (uuid_message uuid_media phone_number message_content : string) :
  webhook_post
    (Ok (simulate_incoming_message timestamp uuid_message uuid_media
           phone_number message_content "text"))
  = ([MarkRead (JStr ("sim_in_" +:+ uuid_message));
      ProcessText (JStr phone_number) (JStr message_content)
                  (JStr ("sim_in_" +:+ uuid_message))
                  (JNum (inject_Z timestamp))],
     StatusProcessing)
  /\ webhook_post
       (Ok (simulate_incoming_message timestamp uuid_message uuid_media
              phone_number message_content "audio"))
     = ([MarkRead (JStr ("sim_in_" +:+ uuid_message));
         ProcessAudio (JStr phone_number) (JStr ("sim_media_" +:+ uuid_media))
                      (JStr ("sim_in_" +:+ uuid_message))
                      (JNum (inject_Z timestamp))],
        StatusProcessing)
  /\ forall message_type,
       message_type <> "text" -> message_type <> "audio" ->
       webhook_post
         (Ok (simulate_incoming_message timestamp uuid_message uuid_media
                phone_number message_content message_type))
       = ([MarkRead (JStr ("sim_in_" +:+ uuid_message))], StatusProcessing).
Proof.
  split; [reflexivity|]. split; [reflexivity|].
  intros message_type Htext Haudio.
  apply String.eqb_neq in Htext, Haudio.
  unfold webhook_post, simulate_incoming_message. rewrite Htext, Haudio.
  cbn. rewrite Htext, Haudio. reflexivity.
Qed.

(** X29. A message without a sender stops the webhook. The messages before
    it in the notification were handled, those after it are not, and the
    answer has the status [error]. *)
Theorem malformed_message_stops_webhook
    (before : list (string * string * string * string))
    (bad : json) (after : list json) (e : exn) :
  py_getitem "from" bad = Raise e ->
  webhook_post (Ok (webhook_data (map message_of before ++ bad :: after)))
  = (flat_map actions_of before, StatusError e).
Proof.
  intros Hbad. unfold webhook_post, webhook_data.
  cbn [pure steps_bind py_in has_key existsb fst snd String.eqb Ascii.eqb
       Bool.eqb orb negb py_getitem items_get py_iter steps_ret for_steps
       handle_entry handle_change is_str app].
  rewrite for_steps_app, for_steps_text_messages.
  cbn [for_steps steps_bind]. unfold handle_message at 1.
  rewrite Hbad. cbn [pure steps_bind app].
  by rewrite !app_nil_r.
Qed.

Lemma malformed_message_stops_webhook_witness :
  webhook_post
    (Ok (webhook_data
           [text_message "919800000001" "wamid.1" "1700000000" "Hello";
            JObj [("id", JStr "wamid.2"); ("type", JStr "text")];
            text_message "919800000002" "wamid.3" "1700000001" "Hi"]))
  = ([MarkRead (JStr "wamid.1");
      ProcessText (JStr "919800000001") (JStr "Hello") (JStr "wamid.1")
                  (JStr "1700000000")],
     StatusError (key_error "from")).
Proof.
  apply (malformed_message_stops_webhook
           [("919800000001", "wamid.1", "1700000000", "Hello")]
           (JObj [("id", JStr "wamid.2"); ("type", JStr "text")])
           [text_message "919800000002" "wamid.3" "1700000001" "Hi"]
           (key_error "from")).
  reflexivity.
Defined.

(** ** Follow-ups from scheduling to generation *)

Lemma schedule_followup_last now customer time_frame agenda agenda' :
  schedule_followup now customer time_frame agenda = Ok agenda' ->
  exists followup,
    last (Agenda.followups agenda') = Some followup
    /\ FollowUp.customer followup = Customer.id customer
    /\ FollowUp.status followup = "pending"
    /\ FollowUp.follow_up_reason followup = Some "Scheduled based on conversation".
Proof.
  unfold schedule_followup.
  destruct (last_char time_frame) as [unit|e]; cbn [exc_bind]; [|discriminate].
  destruct (py_int _) as [value|e]; cbn [exc_bind]; [|discriminate].
  destruct (if (unit =? "d")%char then _ else _) as [next_contact|e];
    cbn [exc_bind]; [|discriminate].
  intros [= <-]. cbn [Agenda.followups]. rewrite last_snoc.
  eexists. split; [reflexivity|]. done.
Qed.

(** X30. A follow-up that [schedule_followup] created carries a reason, so
    the message generated for it is kept: when the completion call answers
    with a text, [generate_followup] returns that text, not the fallback,
    and asks for audio exactly when the text is longer than 200
    characters. *)
Theorem scheduled_followup_is_generated
    (create : Request.t -> exc Completion.t)
    (json_dumps_dict : gmap string json -> string)
    (now : Z) (customer : Customer.t) (time_frame : string)
    (agenda agenda' : Agenda.t) (followup : FollowUp.t)
    (followup_context : FollowupContext.t)
    (response : Completion.t) (response_text : string) :
  schedule_followup now customer time_frame agenda = Ok agenda' ->
  last (Agenda.followups agenda') = Some followup ->
  FollowupContext.follow_up_reason followup_context
    = Some (FollowUp.follow_up_reason followup) ->
  create (followup_request json_dumps_dict followup_context) = Ok response ->
  first_content_stripped response = Ok response_text ->
  exists result,
    generate_followup create json_dumps_dict followup_context = Ok result
    /\ Followup.text result = response_text
    /\ Followup.should_generate_audio result = (200 <? len response_text)%Z.
Proof.
  intros Hschedule Hlast Hreason Hcreate Htext.
  destruct (schedule_followup_last _ _ _ _ _ Hschedule)
    as (created & Hcreated & _ & _ & Hwhy).
  rewrite Hlast in Hcreated. injection Hcreated as <-.
  unfold generate_followup. rewrite Hcreate. cbn [exc_bind].
  rewrite Htext. cbn [exc_bind].
  unfold follow_up_reason_lower. rewrite Hreason, Hwhy.
  destruct (200 <? len response_text)%Z; cbn [exc_bind try_except];
    eexists; (split; [reflexivity|]); split; reflexivity.
Qed.

Lemma scheduled_followup_is_generated_witness :
  exists result,
    generate_followup
      (fun _ => Ok (Completion.mk [Choice.mk (Some "Are you still looking for a loan?") "stop"]))
      (fun _ => "{}")
      (FollowupContext.mk (Some "Asha") (Some State.QUALIFYING)
         (Some (Some "Scheduled based on conversation")) (Some 14%Z)
         (Some ∅) (Some ∅))
    = Ok result
    /\ Followup.text result = "Are you still looking for a loan?"
    /\ Followup.should_generate_audio result
       = (200 <? len "Are you still looking for a loan?")%Z.
Proof.
  apply (scheduled_followup_is_generated
           (fun _ => Ok (Completion.mk [Choice.mk (Some "Are you still looking for a loan?") "stop"]))
           (fun _ => "{}")
           (739000 * microseconds_per_day) (new_customer 1 "919800000001")
           "14d" (Agenda.mk ∅ [])
           (Agenda.mk
              (<[1%Z := (739014 * microseconds_per_day)%Z]> ∅)
              [FollowUp.mk 1 (739014 * microseconds_per_day) "pending" "general"
                 (Some "Scheduled based on conversation") None])
           (FollowUp.mk 1 (739014 * microseconds_per_day) "pending" "general"
              (Some "Scheduled based on conversation") None)
           (FollowupContext.mk (Some "Asha") (Some State.QUALIFYING)
              (Some (Some "Scheduled based on conversation")) (Some 14%Z)
              (Some ∅) (Some ∅))
           (Completion.mk [Choice.mk (Some "Are you still looking for a loan?") "stop"])
           "Are you still looking for a loan?").
  - vm_compute. reflexivity.
  - reflexivity.
  - reflexivity.
  - reflexivity.
  - vm_compute. reflexivity.
Defined.
